(** * network-all-aws-connector: the event worker, embedded and verified

    The worker receives a NATS message (subject, payload), decodes the payload
    into an [Event], validates it, runs the EC2 calls of the action named by
    the subject and publishes the outcome on [<subject>.done] or
    [<subject>.error].

    Go strings and byte slices are Rocq strings (sequences of 8-bit
    characters).  A Go [error] is modelled by its [Error()] text, the only
    thing the program reads of it besides [err != nil]; a nilable error is an
    [option].  A Go pair [(value, err)] where exactly one side is set is a
    sum. *)

From Stdlib Require Import String Ascii List NArith ZArith Bool Arith Lia.
Import ListNotations.
Local Open Scope string_scope.
Local Open Scope list_scope.

Set Implicit Arguments.
Set Warnings "-register-all".

Definition error := string.
Definition Result (A : Type) : Type := (A + error)%type.

(** ** Bytes *)

Definition byte (c : ascii) : N := N_of_ascii c.
Definition chr (n : N) : ascii := ascii_of_N n.

Definition quote : ascii := "034"%char.
Definition backslash : ascii := "092"%char.

Definition str1 (c : ascii) : string := String c EmptyString.

Fixpoint skip (n : nat) (s : string) : string :=
  match n, s with
  | S n', String _ s' => skip n' s'
  | _, _ => s
  end.

Fixpoint take (n : nat) (s : string) : string :=
  match n, s with
  | S n', String c s' => String c (take n' s')
  | _, _ => EmptyString
  end.

(** ** unicode/utf8 and unicode/utf16, as used by encoding/json *)

Module utf8.

Definition RuneError : N := 65533.
Definition RuneSelf : N := 128.
Definition MaxRune : N := 1114111.

Definition cont (c : ascii) : bool :=
    (128 <=? byte c)%N && (byte c <=? 191)%N.

Definition low6 (c : ascii) : N := N.land (byte c) 63.

  (** [DecodeRune s] is the first rune of [s] and its width in bytes; an
      ill-formed or truncated sequence gives [(RuneError, 1)] and the empty
      string [(RuneError, 0)]. *)
Definition DecodeRune (s : string) : N * nat :=
    match s with
    | EmptyString => (RuneError, 0)
    | String c0 s1 =>
      let b0 := byte c0 in
      if (b0 <? RuneSelf)%N then (b0, 1)
      else if (b0 <? 194)%N || (244 <? b0)%N then (RuneError, 1)
      else
        match s1 with
        | EmptyString => (RuneError, 1)
        | String c1 s2 =>
          let lo := if (b0 =? 224)%N then 160%N
                    else if (b0 =? 240)%N then 144%N else 128%N in
          let hi := if (b0 =? 237)%N then 159%N
                    else if (b0 =? 244)%N then 143%N else 191%N in
          if (byte c1 <? lo)%N || (hi <? byte c1)%N then (RuneError, 1)
          else if (b0 <? 224)%N then
            (N.lor (N.shiftl (N.land b0 31) 6) (low6 c1), 2)
          else
            match s2 with
            | EmptyString => (RuneError, 1)
            | String c2 s3 =>
              if negb (cont c2) then (RuneError, 1)
              else if (b0 <? 240)%N then
                (N.lor (N.shiftl (N.land b0 15) 12)
                       (N.lor (N.shiftl (low6 c1) 6) (low6 c2)), 3)
              else
                match s3 with
                | EmptyString => (RuneError, 1)
                | String c3 _ =>
                  if negb (cont c3) then (RuneError, 1)
                  else
                    (N.lor (N.shiftl (N.land b0 7) 18)
                       (N.lor (N.shiftl (low6 c1) 12)
                          (N.lor (N.shiftl (low6 c2) 6) (low6 c3))), 4)
                end
            end
        end
    end.

Definition tail6 (r : N) (k : N) : ascii :=
    chr (N.lor 128 (N.land (N.shiftr r k) 63)).

Definition enc3 (r : N) : string :=
    String (chr (N.lor 224 (N.shiftr r 12)))
      (String (tail6 r 6) (String (tail6 r 0) EmptyString)).

  (** [EncodeRune r] is the UTF-8 encoding of [r]; surrogates and values
      above [MaxRune] are written as [RuneError]. *)
Definition EncodeRune (r : N) : string :=
    if (r <=? 127)%N then str1 (chr r)
    else if (r <=? 2047)%N then
      String (chr (N.lor 192 (N.shiftr r 6))) (String (tail6 r 0) EmptyString)
    else if (MaxRune <? r)%N || ((55296 <=? r)%N && (r <=? 57343)%N) then
      enc3 RuneError
    else if (r <=? 65535)%N then enc3 r
    else
      String (chr (N.lor 240 (N.shiftr r 18)))
        (String (tail6 r 12) (String (tail6 r 6) (String (tail6 r 0) EmptyString))).

End utf8.

Module utf16.

Definition IsSurrogate (r : N) : bool := (55296 <=? r)%N && (r <? 57344)%N.

  (** [DecodeRune r1 r2] joins a surrogate pair; anything else is U+FFFD.
      The second half is optional: [None] is Go's [-1] for a missing or
      ill-formed escape. *)
Definition DecodeRune (r1 : N) (r2 : option N) : N :=
    match r2 with
    | Some r2 =>
      if (55296 <=? r1)%N && (r1 <? 56320)%N && (56320 <=? r2)%N && (r2 <? 57344)%N
      then (N.lor (N.shiftl (r1 - 55296) 10) (r2 - 56320) + 65536)%N
      else utf8.RuneError
    | None => utf8.RuneError
    end.

End utf16.

(** ** The event envelope *)

(** [Event] stores the network data; [subject] and [body] are unexported and
    invisible to encoding/json. *)
Record Event := mkEvent {
  UUID : string;
  BatchID : string;
  ProviderType : string;
  DatacenterRegion : string;
  DatacenterAccessKey : string;
  DatacenterAccessToken : string;
  VPCID : string;
  NetworkAWSID : string;
  Name : string;
  Subnet : string;
  IsPublic : bool;
  AvailabilityZone : string;
  ErrorMessage : string;
  subject : string;
  body : string
}.

(** The exported fields, in declaration order. *)
Inductive FieldId :=
| fUUID | fBatchID | fProviderType | fDatacenterRegion | fDatacenterAccessKey
| fDatacenterAccessToken | fVPCID | fNetworkAWSID | fName | fSubnet | fIsPublic
| fAvailabilityZone | fErrorMessage.

Definition allFields : list FieldId :=
  [fUUID; fBatchID; fProviderType; fDatacenterRegion; fDatacenterAccessKey;
   fDatacenterAccessToken; fVPCID; fNetworkAWSID; fName; fSubnet; fIsPublic;
   fAvailabilityZone; fErrorMessage].

(** The name of the [json:"..."] tag of each field. *)
Definition tagName (f : FieldId) : string :=
  match f with
  | fUUID => "_uuid"
  | fBatchID => "_batch_id"
  | fProviderType => "_type"
  | fDatacenterRegion => "datacenter_region"
  | fDatacenterAccessKey => "datacenter_secret"
  | fDatacenterAccessToken => "datacenter_token"
  | fVPCID => "vpc_id"
  | fNetworkAWSID => "network_aws_id"
  | fName => "name"
  | fSubnet => "range"
  | fIsPublic => "is_public"
  | fAvailabilityZone => "availability_zone"
  | fErrorMessage => "error_message"
  end.

(** The [omitempty] option of the tag. *)
Definition tagOmitEmpty (f : FieldId) : bool :=
  match f with
  | fNetworkAWSID | fErrorMessage => true
  | _ => false
  end.

(** What reflection sees in a field: the kinds encoding/json distinguishes.
    [Event] only has the first two; the last three are the kinds
    [json.Marshal] refuses with an UnsupportedTypeError. *)
Inductive Kind :=
| KString (s : string)
| KBool (b : bool)
| KChan
| KFunc
| KComplex.

Definition fieldValue (f : FieldId) (ev : Event) : Kind :=
  match f with
  | fUUID => KString (UUID ev)
  | fBatchID => KString (BatchID ev)
  | fProviderType => KString (ProviderType ev)
  | fDatacenterRegion => KString (DatacenterRegion ev)
  | fDatacenterAccessKey => KString (DatacenterAccessKey ev)
  | fDatacenterAccessToken => KString (DatacenterAccessToken ev)
  | fVPCID => KString (VPCID ev)
  | fNetworkAWSID => KString (NetworkAWSID ev)
  | fName => KString (Name ev)
  | fSubnet => KString (Subnet ev)
  | fIsPublic => KBool (IsPublic ev)
  | fAvailabilityZone => KString (AvailabilityZone ev)
  | fErrorMessage => KString (ErrorMessage ev)
  end.

Definition setString (f : FieldId) (s : string) (ev : Event) : Event :=
  let '(mkEvent u b p r k t v n nm sn pub az em sj bd) := ev in
  match f with
  | fUUID => mkEvent s b p r k t v n nm sn pub az em sj bd
  | fBatchID => mkEvent u s p r k t v n nm sn pub az em sj bd
  | fProviderType => mkEvent u b s r k t v n nm sn pub az em sj bd
  | fDatacenterRegion => mkEvent u b p s k t v n nm sn pub az em sj bd
  | fDatacenterAccessKey => mkEvent u b p r s t v n nm sn pub az em sj bd
  | fDatacenterAccessToken => mkEvent u b p r k s v n nm sn pub az em sj bd
  | fVPCID => mkEvent u b p r k t s n nm sn pub az em sj bd
  | fNetworkAWSID => mkEvent u b p r k t v s nm sn pub az em sj bd
  | fName => mkEvent u b p r k t v n s sn pub az em sj bd
  | fSubnet => mkEvent u b p r k t v n nm s pub az em sj bd
  | fIsPublic => ev
  | fAvailabilityZone => mkEvent u b p r k t v n nm sn pub s em sj bd
  | fErrorMessage => mkEvent u b p r k t v n nm sn pub az s sj bd
  end.

Definition setBool (f : FieldId) (x : bool) (ev : Event) : Event :=
  let '(mkEvent u b p r k t v n nm sn pub az em sj bd) := ev in
  match f with
  | fIsPublic => mkEvent u b p r k t v n nm sn x az em sj bd
  | _ => ev
  end.

(** [New]: the constructor, a zero [Event] carrying the subject and the raw
    payload. *)
Definition New (subject : string) (body : string) : Event :=
  mkEvent EmptyString EmptyString EmptyString EmptyString EmptyString
          EmptyString EmptyString EmptyString EmptyString EmptyString false
          EmptyString EmptyString subject body.

(** ** encoding/json, as far as [Event] exercises it *)

Module json.

  (** *** Marshal *)

Definition hex (n : N) : ascii :=
    match String.get (N.to_nat n) "0123456789abcdef" with
    | Some c => c
    | None => "0"%char
    end.

  (** [htmlSafeSet]: the ASCII bytes written as they are. *)
Definition htmlSafe (c : ascii) : bool :=
    (32 <=? byte c)%N && (byte c <? 128)%N
    && negb (Ascii.eqb c quote) && negb (Ascii.eqb c backslash)
    && negb (Ascii.eqb c "&") && negb (Ascii.eqb c "<") && negb (Ascii.eqb c ">").

  (** The escape of an ASCII byte outside [htmlSafeSet]. *)
Definition escapeByte (c : ascii) : string :=
    if Ascii.eqb c backslash || Ascii.eqb c quote then String backslash (str1 c)
    else if (byte c =? 8)%N then String backslash "b"
    else if (byte c =? 12)%N then String backslash "f"
    else if (byte c =? 10)%N then String backslash "n"
    else if (byte c =? 13)%N then String backslash "r"
    else if (byte c =? 9)%N then String backslash "t"
    else String backslash
           ("u00" ++ String (hex (N.shiftr (byte c) 4))
                            (str1 (hex (N.land (byte c) 15)))).

  (** One turn of the loop of [appendString]: what is written for the rune
      at the head of [String c rest], and how many bytes it takes. *)
Definition appendRune (c : ascii) (rest : string) : string * nat :=
    if (byte c <? utf8.RuneSelf)%N then
      (if htmlSafe c then str1 c else escapeByte c, 1)
    else
      let (r, size) := utf8.DecodeRune (String c rest) in
      if (r =? utf8.RuneError)%N && Nat.eqb size 1 then
        (String backslash "ufffd", size)
      else if (r =? 8232)%N || (r =? 8233)%N then
        (String backslash ("u202" ++ str1 (hex (N.land r 15))), size)
      else (take size (String c rest), size).

Fixpoint appendRunes (fuel : nat) (s : string) : string :=
    match fuel, s with
    | S fuel', String c rest =>
      let (out, size) := appendRune c rest in
      out ++ appendRunes fuel' (skip size s)
    | _, _ => EmptyString
    end.

  (** [appendString] with [escapeHTML] set: the quoted JSON string.  Every
      turn of the loop takes at least one byte, hence the bound. *)
Definition appendString (s : string) : string :=
    String quote (appendRunes (String.length s) s ++ str1 quote).

Definition isEmptyValue (v : Kind) : bool :=
    match v with
    | KString s => Nat.eqb (String.length s) 0
    | KBool b => negb b
    | _ => false
    end.

Definition encodeValue (v : Kind) : Result string :=
    match v with
    | KString s => inl (appendString s)
    | KBool b => inl (if b then "true" else "false")
    | KChan => inr "json: unsupported type: chan"
    | KFunc => inr "json: unsupported type: func()"
    | KComplex => inr "json: unsupported type: complex128"
    end.

  (** A struct field as the encoder sees it. *)
Record field := mkField {
    name : string;
    omitEmpty : bool;
    value : Kind
  }.

  (** The struct encoder: [next] is the byte written before the next field,
      an opening brace until a field has been written, a comma afterwards. *)
Fixpoint structEncoder (next : ascii) (fs : list field) : Result string :=
    match fs with
    | [] => inl (if Ascii.eqb next "{" then "{}" else "}")
    | f :: fs' =>
      if omitEmpty f && isEmptyValue (value f) then structEncoder next fs'
      else
        match encodeValue (value f) with
        | inr e => inr e
        | inl v =>
          match structEncoder "," fs' with
          | inr e => inr e
          | inl rest =>
            inl (String next (appendString (name f) ++ ":" ++ v ++ rest))
          end
        end
    end.

Definition fields (ev : Event) : list field :=
    map (fun f => mkField (tagName f) (tagOmitEmpty f) (fieldValue f ev)) allFields.

  (** [json.Marshal(ev)] *)
Definition Marshal (ev : Event) : Result string :=
    structEncoder "{" (fields ev).

  (** *** Unmarshal

      The decoder first checks that the whole input is one JSON value, then
      stores the members of a top-level object into the fields they name.
      The text of a decoding error is never read by the worker, only whether
      there is one. *)

Inductive Value :=
  | Null
  | Bool (b : bool)
  | Number
  | Str (s : string)
  | Arr (l : list Value)
  | Obj (m : list (string * Value)).

Definition isSpace (c : ascii) : bool :=
    Ascii.eqb c " " || (byte c =? 9)%N || (byte c =? 13)%N || (byte c =? 10)%N.

Fixpoint skipSpace (s : string) : string :=
    match s with
    | String c r => if isSpace c then skipSpace r else s
    | EmptyString => s
    end.

Definition hexval (c : ascii) : option N :=
    let b := byte c in
    if (48 <=? b)%N && (b <=? 57)%N then Some (b - 48)%N
    else if (97 <=? b)%N && (b <=? 102)%N then Some (b - 87)%N
    else if (65 <=? b)%N && (b <=? 70)%N then Some (b - 55)%N
    else None.

Definition hex4 (s : string) : option (N * string) :=
    match s with
    | String a (String b (String c (String d r))) =>
      match hexval a, hexval b, hexval c, hexval d with
      | Some a, Some b, Some c, Some d =>
        Some ((((a * 16 + b) * 16 + c) * 16 + d)%N, r)
      | _, _, _, _ => None
      end
    | _ => None
    end.

  (** [getu4]: the rune of a [\uXXXX] escape at the head of [s]. *)
Definition getu4 (s : string) : option (N * string) :=
    match s with
    | String b (String u r) =>
      if Ascii.eqb b backslash && Ascii.eqb u "u" then hex4 r else None
    | _ => None
    end.

Definition simpleEscape (c : ascii) : option ascii :=
    if Ascii.eqb c quote || Ascii.eqb c backslash || Ascii.eqb c "/" then Some c
    else if Ascii.eqb c "b" then Some (chr 8)
    else if Ascii.eqb c "f" then Some (chr 12)
    else if Ascii.eqb c "n" then Some (chr 10)
    else if Ascii.eqb c "r" then Some (chr 13)
    else if Ascii.eqb c "t" then Some (chr 9)
    else None.

  (** One turn of the loop of [unquote] at [String c rest], [c] not being
      the closing quote: the bytes it writes and the input left.  Control
      bytes and unknown escapes are syntax errors; ill-formed UTF-8 is
      replaced by U+FFFD. *)
Definition unquoteRune (c : ascii) (rest : string) : option (string * string) :=
    if Ascii.eqb c backslash then
      match rest with
      | EmptyString => None
      | String e rest1 =>
        match simpleEscape e with
        | Some x => Some (str1 x, rest1)
        | None =>
          if Ascii.eqb e "u" then
            match hex4 rest1 with
            | None => None
            | Some (rr, rest2) =>
              if utf16.IsSurrogate rr then
                let rr1 := getu4 rest2 in
                let dec := utf16.DecodeRune rr (option_map fst rr1) in
                if (dec =? utf8.RuneError)%N then
                  Some (utf8.EncodeRune utf8.RuneError, rest2)
                else
                  Some (utf8.EncodeRune dec,
                        match rr1 with Some (_, rest3) => rest3 | None => rest2 end)
              else Some (utf8.EncodeRune rr, rest2)
            end
          else None
        end
      end
    else if (byte c <? 32)%N then None
    else if (byte c <? utf8.RuneSelf)%N then Some (str1 c, rest)
    else
      let (r, size) := utf8.DecodeRune (String c rest) in
      Some (utf8.EncodeRune r, skip size (String c rest)).

Fixpoint unquoteRunes (fuel : nat) (s : string) : option (string * string) :=
    match fuel, s with
    | S fuel', String c rest =>
      if Ascii.eqb c quote then Some (EmptyString, rest)
      else
        match unquoteRune c rest with
        | Some (out, s') =>
          match unquoteRunes fuel' s' with
          | Some (t, s'') => Some ((out ++ t)%string, s'')
          | None => None
          end
        | None => None
        end
    | _, _ => None
    end.

  (** The string literal whose opening quote has just been read: its
      decoded text and the input after its closing quote. *)
Definition unquote (s : string) : option (string * string) :=
    unquoteRunes (S (String.length s)) s.

Definition isDigit (c : ascii) : bool := (48 <=? byte c)%N && (byte c <=? 57)%N.

Fixpoint digits (s : string) : string :=
    match s with
    | String c r => if isDigit c then digits r else s
    | EmptyString => s
    end.

Definition digits1 (s : string) : option string :=
    match s with
    | String c r => if isDigit c then Some (digits r) else None
    | EmptyString => None
    end.

  (** The input after a number literal at the head of [s]. *)
Definition number (s : string) : option string :=
    let s0 := match s with
              | String c r => if Ascii.eqb c "-" then r else s
              | EmptyString => s
              end in
    match s0 with
    | EmptyString => None
    | String c r =>
      let int := if Ascii.eqb c "0" then Some r
                 else if isDigit c then Some (digits r) else None in
      match int with
      | None => None
      | Some s1 =>
        let frac := match s1 with
                    | String d r1 => if Ascii.eqb d "." then digits1 r1 else Some s1
                    | EmptyString => Some s1
                    end in
        match frac with
        | None => None
        | Some s2 =>
          match s2 with
          | String e r2 =>
            if Ascii.eqb e "e" || Ascii.eqb e "E" then
              match r2 with
              | String sg r3 =>
                if Ascii.eqb sg "+" || Ascii.eqb sg "-" then digits1 r3 else digits1 r2
              | EmptyString => None
              end
            else Some s2
          | EmptyString => Some s2
          end
        end
      end
    end.

Definition literal (word : string) (v : Value) (s : string) : option (Value * string) :=
    if String.prefix word s then Some (v, skip (String.length word) s) else None.

  (** Recursive descent over one JSON value; every call reads at least one
      byte before the next but one, which bounds the calls by the length of
      the input. *)
Fixpoint parseValue (fuel : nat) (s : string) {struct fuel} : option (Value * string) :=
    match fuel with
    | 0 => None
    | S fuel' =>
      match skipSpace s with
      | EmptyString => None
      | String c r =>
        if Ascii.eqb c "{" then
          match skipSpace r with
          | EmptyString => None
          | String c1 r1 =>
            if Ascii.eqb c1 "}" then Some (Obj [], r1)
            else
              match parseMembers fuel' (String c1 r1) with
              | Some (ms, r2) => Some (Obj ms, r2)
              | None => None
              end
          end
        else if Ascii.eqb c "[" then
          match skipSpace r with
          | EmptyString => None
          | String c1 r1 =>
            if Ascii.eqb c1 "]" then Some (Arr [], r1)
            else
              match parseElements fuel' (String c1 r1) with
              | Some (vs, r2) => Some (Arr vs, r2)
              | None => None
              end
          end
        else if Ascii.eqb c quote then
          match unquote r with
          | Some (x, r1) => Some (Str x, r1)
          | None => None
          end
        else if Ascii.eqb c "t" then literal "rue" (Bool true) r
        else if Ascii.eqb c "f" then literal "alse" (Bool false) r
        else if Ascii.eqb c "n" then literal "ull" Null r
        else
          match number (String c r) with
          | Some r1 => Some (Number, r1)
          | None => None
          end
      end
    end

  (** The members of an object, from the opening quote of a key on. *)
  with parseMembers (fuel : nat) (s : string) {struct fuel}
       : option (list (string * Value) * string) :=
    match fuel with
    | 0 => None
    | S fuel' =>
      match s with
      | EmptyString => None
      | String q r =>
        if negb (Ascii.eqb q quote) then None
        else
          match unquote r with
          | None => None
          | Some (k, r1) =>
            match skipSpace r1 with
            | EmptyString => None
            | String colon r2 =>
              if negb (Ascii.eqb colon ":") then None
              else
                match parseValue fuel' r2 with
                | None => None
                | Some (v, r3) =>
                  match skipSpace r3 with
                  | EmptyString => None
                  | String d r4 =>
                    if Ascii.eqb d "}" then Some ([(k, v)], r4)
                    else if Ascii.eqb d "," then
                      match parseMembers fuel' (skipSpace r4) with
                      | Some (ms, r5) => Some ((k, v) :: ms, r5)
                      | None => None
                      end
                    else None
                  end
                end
            end
          end
      end
    end

  (** The elements of an array, from the first byte of an element on. *)
  with parseElements (fuel : nat) (s : string) {struct fuel}
       : option (list Value * string) :=
    match fuel with
    | 0 => None
    | S fuel' =>
      match parseValue fuel' s with
      | None => None
      | Some (v, r1) =>
        match skipSpace r1 with
        | EmptyString => None
        | String d r2 =>
          if Ascii.eqb d "]" then Some ([v], r2)
          else if Ascii.eqb d "," then
            match parseElements fuel' r2 with
            | Some (vs, r3) => Some (v :: vs, r3)
            | None => None
            end
          else None
        end
      end
    end.

  (** Key folding: ASCII letters compare without case, and the two runes
      that fold to an ASCII letter, U+017F (long s) and U+212A (Kelvin
      sign), compare equal to it. *)
Fixpoint foldName (s : string) : string :=
    match s with
    | EmptyString => EmptyString
    | String c r =>
      if (97 <=? byte c)%N && (byte c <=? 122)%N then
        String (chr (byte c - 32)) (foldName r)
      else
        match r with
        | String c1 r1 =>
          if (byte c =? 197)%N && (byte c1 =? 191)%N then String "S" (foldName r1)
          else
            match r1 with
            | String c2 r2 =>
              if (byte c =? 226)%N && (byte c1 =? 132)%N && (byte c2 =? 170)%N
              then String "K" (foldName r2)
              else String c (foldName r)
            | EmptyString => String c (foldName r)
            end
        | EmptyString => String c (foldName r)
        end
    end.

  (** The field a key names: an exact match first, a folded one otherwise. *)
Definition findField (key : string) : option FieldId :=
    match find (fun f => String.eqb (tagName f) key) allFields with
    | Some f => Some f
    | None =>
      find (fun f => String.eqb (foldName (tagName f)) (foldName key)) allFields
    end.

Definition describe (v : Value) : string :=
    match v with
    | Null => "null"
    | Bool _ => "bool"
    | Number => "number"
    | Str _ => "string"
    | Arr _ => "array"
    | Obj _ => "object"
    end.

Definition typeError (v : Value) (target : string) : error :=
    ("json: cannot unmarshal " ++ describe v ++ " into Go value of type " ++ target)%string.

  (** Storing a value into a field: [null] leaves a string or a bool as it
      is, a value of the wrong JSON type is an UnmarshalTypeError. *)
Definition store (f : FieldId) (v : Value) (ev : Event) : Event * option error :=
    match v, fieldValue f ev with
    | Null, _ => (ev, None)
    | Str s, KString _ => (setString f s ev, None)
    | Bool b, KBool _ => (setBool f b ev, None)
    | _, KBool _ => (ev, Some (typeError v "bool"))
    | _, _ => (ev, Some (typeError v "string"))
    end.

  (** The members of the object in input order; unknown keys are skipped,
      decoding goes on after a type error and the first error is kept. *)
Fixpoint object (ms : list (string * Value)) (ev : Event) (saved : option error)
    : Event * option error :=
    match ms with
    | [] => (ev, saved)
    | (k, v) :: ms' =>
      match findField k with
      | None => object ms' ev saved
      | Some f =>
        let (ev', e) := store f v ev in
        object ms' ev' (match saved with Some _ => saved | None => e end)
      end
    end.

  (** [json.Unmarshal(data, &ev)]: the event after decoding, and the error.
      On a syntax error nothing is stored. *)
Definition Unmarshal (data : string) (ev : Event) : Event * option error :=
    match parseValue (2 * String.length data + 2) data with
    | None => (ev, Some "json: syntax error")
    | Some (v, rest) =>
      match skipSpace rest with
      | String _ _ => (ev, Some "json: invalid character after top-level value")
      | EmptyString =>
        match v with
        | Obj ms => object ms ev None
        | Null => (ev, None)
        | _ => (ev, Some (typeError v "main.Event"))
        end
      end
    end.

End json.

(** Test payloads are written with single quotes for readability. *)
Fixpoint dq (s : string) : string :=
  match s with
  | EmptyString => EmptyString
  | String c r => String (if Ascii.eqb c "'" then quote else c) (dq r)
  end.

Definition testEvent : Event :=
  mkEvent "test" "test" "aws" "eu-west-1" "key" "token" "vpc-0000000"
          "subnet-00000000" EmptyString "10.0.0.0/16" false EmptyString
          EmptyString EmptyString EmptyString.

Definition expected : string :=
  dq "{'_uuid':'test','_batch_id':'test','_type':'aws','datacenter_region':'eu-west-1','datacenter_secret':'key','datacenter_token':'token','vpc_id':'vpc-0000000','network_aws_id':'subnet-00000000','name':'','range':'10.0.0.0/16','is_public':false,'availability_zone':''}".

(** ** The EC2 service, the bus and the log: what the worker does to the world *)

Module ec2.

Record Credentials := mkCredentials {
    AccessKeyID : string;
    SecretAccessKey : string;
    SessionToken : string
  }.

  (** The client built by [ec2.New(session.New(), &aws.Config{...})]. *)
Record EC2 := mkEC2 {
    Region : string;
    Creds : Credentials
  }.

Record Filter := mkFilter {
    FilterName : string;
    Values : list string
  }.

Record Subnet := mkSubnet {
    SubnetId : string;
    AvailabilityZone : string
  }.

Record InternetGateway := mkInternetGateway { InternetGatewayId : string }.
Record RouteTable := mkRouteTable { RouteTableId : string }.
Record NetworkInterface := mkNetworkInterface { NetworkInterfaceId : string }.

  (** The operations the worker calls, with the input fields it sets. *)
Inductive Request :=
  | CreateSubnet (VpcId CidrBlock AvailabilityZone : string)
  | DescribeInternetGateways (Filters : list Filter)
  | CreateInternetGateway
  | AttachInternetGateway (InternetGatewayId VpcId : string)
  | DescribeRouteTables (Filters : list Filter)
  | CreateRouteTable (VpcId : string)
  | AssociateRouteTable (RouteTableId SubnetId : string)
  | CreateRoute (RouteTableId DestinationCidrBlock GatewayId : string)
  | ModifySubnetAttribute (SubnetId : string) (MapPublicIpOnLaunch : bool)
  | DescribeNetworkInterfaces (Filters : list Filter)
  | DeleteSubnet (SubnetId : string).

  (** What the worker reads of the outputs. *)
Inductive Output :=
  | SubnetOutput (sn : Subnet)
  | InternetGatewaysOutput (gws : list InternetGateway)
  | InternetGatewayOutput (gw : InternetGateway)
  | RouteTablesOutput (rts : list RouteTable)
  | RouteTableOutput (rt : RouteTable)
  | NetworkInterfacesOutput (nis : list NetworkInterface)
  | NoOutput.

End ec2.

(** Everything observable of a run, in the order it happens. *)
Inductive Effect :=
| Call (svc : ec2.EC2) (req : ec2.Request) (resp : Result ec2.Output)
| Publish (subj : string) (data : string)
| Log (line : string)
| Sleep (seconds : nat).

Definition History := list Effect.

(** The provider is an arbitrary environment: each operation answers as a
    function of everything that happened so far, the client and the input. *)
Record Cloud := mkCloud {
  onCreateSubnet : History -> ec2.EC2 -> string -> string -> string -> Result ec2.Subnet;
  onDescribeInternetGateways :
    History -> ec2.EC2 -> list ec2.Filter -> Result (list ec2.InternetGateway);
  onCreateInternetGateway : History -> ec2.EC2 -> Result ec2.InternetGateway;
  onAttachInternetGateway : History -> ec2.EC2 -> string -> string -> Result unit;
  onDescribeRouteTables :
    History -> ec2.EC2 -> list ec2.Filter -> Result (list ec2.RouteTable);
  onCreateRouteTable : History -> ec2.EC2 -> string -> Result ec2.RouteTable;
  onAssociateRouteTable : History -> ec2.EC2 -> string -> string -> Result unit;
  onCreateRoute : History -> ec2.EC2 -> string -> string -> string -> Result unit;
  onModifySubnetAttribute : History -> ec2.EC2 -> string -> bool -> Result unit;
  onDescribeNetworkInterfaces :
    History -> ec2.EC2 -> list ec2.Filter -> Result (list ec2.NetworkInterface);
  onDeleteSubnet : History -> ec2.EC2 -> string -> Result unit
}.

(** How a piece of Go code ends: it returns, it panics, or (the poll loop
    only) it is still running when the observation stops. *)
Inductive Outcome (A : Type) :=
| Returned (a : A)
| Panicked (v : string)
| Running.

Arguments Panicked {A} v.
Arguments Running {A}.

(** A computation reads the history so far and extends it. *)
Definition Go (A : Type) : Type := History -> Outcome A * History.

Definition ret {A} (a : A) : Go A := fun h => (Returned a, h).

Definition bind {A B} (m : Go A) (k : A -> Go B) : Go B :=
  fun h =>
    match m h with
    | (Returned a, h') => k a h'
    | (Panicked v, h') => (Panicked v, h')
    | (Running, h') => (Running, h')
    end.

Definition emit (e : Effect) : Go unit := fun h => (Returned tt, h ++ [e]).

Definition panic {A} (v : string) : Go A := fun h => (Panicked v, h).

Declare Scope go_scope.
Delimit Scope go_scope with go.
Notation "x <- m ;; k" := (bind m (fun x => k))
  (at level 61, m at next level, right associativity) : go_scope.
Notation "m ;; k" := (bind m (fun _ => k))
  (at level 61, right associativity) : go_scope.
Local Open Scope go_scope.

(** [invoke] performs one EC2 operation: the provider's answer is recorded
    with the call. *)
Definition invoke {A} (svc : ec2.EC2) (req : ec2.Request)
           (answer : History -> Result A) (out : A -> ec2.Output) : Go (Result A) :=
  fun h =>
    let r := answer h in
    (Returned r,
     h ++ [Call svc req (match r with inl a => inl (out a) | inr e => inr e end)]).

Module nats.
Record Msg := mkMsg { Subject : string; Data : string }.

  (** [nc.Publish(subj, data)]; its error is dropped by every caller. *)
Definition Publish (subj data : string) : Go unit := emit (Publish subj data).
End nats.

Module log.
Definition Printf (line : string) : Go unit := emit (Log line).
Definition Panic {A} (v : string) : Go A := (emit (Log v) ;; panic v).
End log.

Module time.
  (** [time.Sleep(d)], [d] in seconds. *)
Definition Sleep (seconds : nat) : Go unit := emit (Sleep seconds).
End time.

Module strings.
  (** [strings.Split(s, sep)] for a one-byte separator. *)
Fixpoint Split (s : string) (sep : ascii) : list string :=
    match s with
    | EmptyString => [EmptyString]
    | String c r =>
      if Ascii.eqb c sep then EmptyString :: Split r sep
      else
        match Split r sep with
        | h :: t => String c h :: t
        | [] => [str1 c]
        end
    end.
End strings.

(** ** The worker *)

Definition ErrDatacenterIDInvalid : error := "Datacenter VPC ID invalid".
Definition ErrDatacenterRegionInvalid : error := "Datacenter Region invalid".
Definition ErrDatacenterCredentialsInvalid : error := "Datacenter credentials invalid".
Definition ErrNetworkSubnetInvalid : error := "Network subnet invalid".
Definition ErrNetworkAWSIDInvalid : error := "Network aws id invalid".

Definition isEmpty (s : string) : bool := String.eqb s EmptyString.

(** [Validate] checks if all criteria are met. *)
Definition Validate (ev : Event) : option error :=
  if isEmpty (VPCID ev) then Some ErrDatacenterIDInvalid
  else if isEmpty (DatacenterRegion ev) then Some ErrDatacenterRegionInvalid
  else if isEmpty (DatacenterAccessKey ev) || isEmpty (DatacenterAccessToken ev)
  then Some ErrDatacenterCredentialsInvalid
  else if String.eqb (subject ev) "network.delete.aws" then
    if isEmpty (NetworkAWSID ev) then Some ErrNetworkAWSIDInvalid else None
  else
    if isEmpty (Subnet ev) then Some ErrNetworkSubnetInvalid else None.

(** [Process] starts processing the current message: the payload is decoded
    into the event; a payload that does not decode is republished as it is. *)
Definition Process (ev : Event) : Go (Event * option error) :=
  let (ev', err) := json.Unmarshal (body ev) ev in
  match err with
  | Some _ =>
    nats.Publish (subject ev' ++ ".error") (body ev') ;;
    ret (ev', err)
  | None => ret (ev', err)
  end.

(** [Error] responds the current event with an error. *)
Definition Error (ev : Event) (err : error) : Go Event :=
  log.Printf ("Error: " ++ err) ;;
  let ev := setString fErrorMessage err ev in
  match json.Marshal ev with
  | inr err => log.Panic err
  | inl data =>
    nats.Publish (subject ev ++ ".error") data ;;
    ret ev
  end.

(** [Complete] responds the current request as done.  When serialization
    fails there is no return after [Error]: the done publication follows,
    with the nil data. *)
Definition Complete (ev : Event) : Go Event :=
  match json.Marshal ev with
  | inr err =>
    ev <- Error ev err ;;
    nats.Publish (subject ev ++ ".done") EmptyString ;;
    ret ev
  | inl data =>
    nats.Publish (subject ev ++ ".done") data ;;
    ret ev
  end.

(** [Update] and [Get] are not supported. *)
Definition Update (ev : Event) : Go (option error) :=
  ret (Some (subject ev ++ " not supported")%string).

Definition Get (ev : Event) : Go (option error) :=
  ret (Some (subject ev ++ " not supported")%string).

Definition running {A} : Go A := fun h => (Running, h).

Section Worker.

Variable cloud : Cloud.

  (** The client of one request: region and static credentials come from
      the event. *)
Definition newService (ev : Event) : ec2.EC2 :=
    ec2.mkEC2 (DatacenterRegion ev)
      (ec2.mkCredentials (DatacenterAccessKey ev) (DatacenterAccessToken ev)
                         EmptyString).

Definition CreateSubnet svc vpc cidr az : Go (Result ec2.Subnet) :=
    invoke svc (ec2.CreateSubnet vpc cidr az)
           (fun h => onCreateSubnet cloud h svc vpc cidr az) ec2.SubnetOutput.

Definition DescribeInternetGateways svc f : Go (Result (list ec2.InternetGateway)) :=
    invoke svc (ec2.DescribeInternetGateways f)
           (fun h => onDescribeInternetGateways cloud h svc f)
           ec2.InternetGatewaysOutput.

Definition CreateInternetGateway svc : Go (Result ec2.InternetGateway) :=
    invoke svc ec2.CreateInternetGateway
           (fun h => onCreateInternetGateway cloud h svc) ec2.InternetGatewayOutput.

Definition AttachInternetGateway svc gw vpc : Go (Result unit) :=
    invoke svc (ec2.AttachInternetGateway gw vpc)
           (fun h => onAttachInternetGateway cloud h svc gw vpc)
           (fun _ => ec2.NoOutput).

Definition DescribeRouteTables svc f : Go (Result (list ec2.RouteTable)) :=
    invoke svc (ec2.DescribeRouteTables f)
           (fun h => onDescribeRouteTables cloud h svc f) ec2.RouteTablesOutput.

Definition CreateRouteTable svc vpc : Go (Result ec2.RouteTable) :=
    invoke svc (ec2.CreateRouteTable vpc)
           (fun h => onCreateRouteTable cloud h svc vpc) ec2.RouteTableOutput.

Definition AssociateRouteTable svc rt subnet : Go (Result unit) :=
    invoke svc (ec2.AssociateRouteTable rt subnet)
           (fun h => onAssociateRouteTable cloud h svc rt subnet)
           (fun _ => ec2.NoOutput).

Definition CreateRoute svc rt dest gw : Go (Result unit) :=
    invoke svc (ec2.CreateRoute rt dest gw)
           (fun h => onCreateRoute cloud h svc rt dest gw) (fun _ => ec2.NoOutput).

Definition ModifySubnetAttribute svc subnet (map : bool) : Go (Result unit) :=
    invoke svc (ec2.ModifySubnetAttribute subnet map)
           (fun h => onModifySubnetAttribute cloud h svc subnet map)
           (fun _ => ec2.NoOutput).

Definition DescribeNetworkInterfaces svc f : Go (Result (list ec2.NetworkInterface)) :=
    invoke svc (ec2.DescribeNetworkInterfaces f)
           (fun h => onDescribeNetworkInterfaces cloud h svc f)
           ec2.NetworkInterfacesOutput.

Definition DeleteSubnet svc subnet : Go (Result unit) :=
    invoke svc (ec2.DeleteSubnet subnet)
           (fun h => onDeleteSubnet cloud h svc subnet) (fun _ => ec2.NoOutput).

Definition internetGatewayByVPCID (svc : ec2.EC2) (vpc : string)
    : Go (Result (option ec2.InternetGateway)) :=
    let f := [ec2.mkFilter "attachment.vpc-id" [vpc]] in
    resp <- DescribeInternetGateways svc f ;;
    match resp with
    | inr err => ret (inr err)
    | inl [] => ret (inl None)
    | inl (gw :: _) => ret (inl (Some gw))
    end.

Definition routingTableBySubnetID (svc : ec2.EC2) (subnet : string)
    : Go (Result (option ec2.RouteTable)) :=
    let f := [ec2.mkFilter "association.subnet-id" [subnet]] in
    resp <- DescribeRouteTables svc f ;;
    match resp with
    | inr err => ret (inr err)
    | inl [] => ret (inl None)
    | inl (rt :: _) => ret (inl (Some rt))
    end.

Definition createInternetGateway (svc : ec2.EC2) (vpc : string)
    : Go (Result ec2.InternetGateway) :=
    ig <- internetGatewayByVPCID svc vpc ;;
    match ig with
    | inr err => ret (inr err)
    | inl (Some ig) => ret (inl ig)
    | inl None =>
      resp <- CreateInternetGateway svc ;;
      match resp with
      | inr err => ret (inr err)
      | inl gw =>
        att <- AttachInternetGateway svc (ec2.InternetGatewayId gw) vpc ;;
        match att with
        | inr err => ret (inr err)
        | inl _ => ret (inl gw)
        end
      end
    end.

Definition createRouteTable (svc : ec2.EC2) (vpc subnet : string)
    : Go (Result ec2.RouteTable) :=
    rt <- routingTableBySubnetID svc subnet ;;
    match rt with
    | inr err => ret (inr err)
    | inl (Some rt) => ret (inl rt)
    | inl None =>
      resp <- CreateRouteTable svc vpc ;;
      match resp with
      | inr err => ret (inr err)
      | inl rt =>
        acc <- AssociateRouteTable svc (ec2.RouteTableId rt) subnet ;;
        match acc with
        | inr err => ret (inr err)
        | inl _ => ret (inl rt)
        end
      end
    end.

Definition createGatewayRoutes (svc : ec2.EC2) (rt : ec2.RouteTable)
             (gw : ec2.InternetGateway) : Go (option error) :=
    r <- CreateRoute svc (ec2.RouteTableId rt) "0.0.0.0/0" (ec2.InternetGatewayId gw) ;;
    match r with
    | inr err => ret (Some err)
    | inl _ => ret None
    end.

  (** [Create] creates the subnet, and for a public one its way out. *)
Definition Create (ev : Event) : Go (Event * option error) :=
    let svc := newService ev in
    resp <- CreateSubnet svc (VPCID ev) (Subnet ev) (AvailabilityZone ev) ;;
    match resp with
    | inr err => ret (ev, Some err)
    | inl sn =>
      let stored :=
        setString fAvailabilityZone (ec2.AvailabilityZone sn)
                  (setString fNetworkAWSID (ec2.SubnetId sn) ev) in
      if IsPublic ev then
        gateway <- createInternetGateway svc (VPCID ev) ;;
        match gateway with
        | inr err => ret (ev, Some err)
        | inl gateway =>
          rt <- createRouteTable svc (VPCID ev) (ec2.SubnetId sn) ;;
          match rt with
          | inr err => ret (ev, Some err)
          | inl rt =>
            err <- createGatewayRoutes svc rt gateway ;;
            match err with
            | Some err => ret (ev, Some err)
            | None =>
              md <- ModifySubnetAttribute svc (ec2.SubnetId sn) true ;;
              match md with
              | inr err => ret (ev, Some err)
              | inl _ => ret (stored, None)
              end
            end
          end
        end
      else ret (stored, None)
    end.

Definition getNetworkInterfaces (svc : ec2.EC2) (networkID : string)
    : Go (Result (list ec2.NetworkInterface)) :=
    let f := [ec2.mkFilter "subnet-id" [networkID]] in
    DescribeNetworkInterfaces svc f.

  (** The poll loop; [fuel] bounds the number of queries observed. *)
Fixpoint waitForInterfaceRemoval (fuel : nat) (svc : ec2.EC2) (networkID : string)
    : Go (option error) :=
    match fuel with
    | 0 => running
    | S fuel' =>
      resp <- getNetworkInterfaces svc networkID ;;
      match resp with
      | inr err => ret (Some err)
      | inl [] => ret None
      | inl (_ :: _) =>
        time.Sleep 1 ;;
        waitForInterfaceRemoval fuel' svc networkID
      end
    end.

  (** [Delete] deletes the subnet once no interface is left in it. *)
Definition Delete (fuel : nat) (ev : Event) : Go (option error) :=
    let svc := newService ev in
    err <- waitForInterfaceRemoval fuel svc (NetworkAWSID ev) ;;
    match err with
    | Some err => ret (Some err)
    | None =>
      r <- DeleteSubnet svc (NetworkAWSID ev) ;;
      match r with
      | inr err => ret (Some err)
      | inl _ => ret None
      end
    end.

  (** The action named by a subject segment; a segment that names none
      leaves [err] nil. *)
Definition dispatch (fuel : nat) (action : string) (n : Event)
    : Go (Event * option error) :=
    if String.eqb action "create" then Create n
    else if String.eqb action "update" then err <- Update n ;; ret (n, err)
    else if String.eqb action "delete" then err <- Delete fuel n ;; ret (n, err)
    else if String.eqb action "get" then err <- Get n ;; ret (n, err)
    else ret (n, None).

  (** [eventHandler]: the callback of both subscriptions. *)
Definition eventHandler (fuel : nat) (m : nats.Msg) : Go unit :=
    let n := New (nats.Subject m) (nats.Data m) in
    p <- Process n ;;
    let (n, err) := p in
    match err with
    | Some _ => ret tt
    | None =>
      match Validate n with
      | Some err => Error n err ;; ret tt
      | None =>
        let parts := strings.Split (nats.Subject m) "." in
        match nth_error parts 1 with
        | None => panic "runtime error: index out of range [1] with length 1"
        | Some action =>
          r <- dispatch fuel action n ;;
          let (n, err) := r in
          match err with
          | Some err => Error n err ;; ret tt
          | None => Complete n ;; ret tt
          end
        end
      end
    end.

End Worker.

(** The subjects [main] subscribes [eventHandler] to. *)
Definition events : list string := ["network.create.aws"; "network.delete.aws"].

(** * Vocabulary of the statements *)

Definition publications (h : History) : list (string * string) :=
  flat_map (fun e => match e with Publish s d => [(s, d)] | _ => [] end) h.

Definition requests (h : History) : list ec2.Request :=
  flat_map (fun e => match e with Call _ r _ => [r] | _ => [] end) h.

(** The bytes [json.Marshal] returns for an event. *)
Definition serialized (ev : Event) : string :=
  match json.Marshal ev with
  | inl data => data
  | inr _ => EmptyString
  end.

Definition failed (ev : Event) (e : error) : Event := setString fErrorMessage e ev.

Definition respond (r : Outcome (Event * option error) * History)
  : Outcome unit * History :=
  match r with
  | (Returned (n, Some e), h) =>
    (Returned tt,
     h ++ [Log ("Error: " ++ e); Publish (subject n ++ ".error") (serialized (failed n e))])
  | (Returned (n, None), h) =>
    (Returned tt, h ++ [Publish (subject n ++ ".done") (serialized n)])
  | (Panicked v, h) => (Panicked v, h)
  | (Running, h) => (Running, h)
  end.

(** The error of the first EC2 call that failed, if any. *)
Fixpoint failure (h : History) : option error :=
  match h with
  | [] => None
  | Call _ _ (inr e) :: _ => Some e
  | _ :: h' => failure h'
  end.

(** Histories made of EC2 calls and sleeps only. *)
Definition silent (e : Effect) : bool :=
  match e with
  | Call _ _ _ | Sleep _ => true
  | Publish _ _ | Log _ => false
  end.

(** The event after a successful [Create]. *)
Definition stored (ev : Event) (sn : ec2.Subnet) : Event :=
  setString fAvailabilityZone (ec2.AvailabilityZone sn)
            (setString fNetworkAWSID (ec2.SubnetId sn) ev).

(** The poll loop: every query but the last found interfaces and was
    followed by a one-second sleep. *)
Definition query (networkID : string) : ec2.Request :=
    ec2.DescribeNetworkInterfaces [ec2.mkFilter "subnet-id" [networkID]].

Definition round (svc : ec2.EC2) (networkID : string)
             (nis : list ec2.NetworkInterface) : History :=
    [Call svc (query networkID) (inl (ec2.NetworkInterfacesOutput nis)); Sleep 1].

Definition rounds (svc : ec2.EC2) (networkID : string)
             (found : list (list ec2.NetworkInterface)) : History :=
    flat_map (round svc networkID) found.

(** What a call answers in the history: the error of a failed call. *)
Definition answered (r : Result unit) : Result ec2.Output :=
  match r with
  | inl _ => inl ec2.NoOutput
  | inr e => inr e
  end.

Definition errorOf (r : Result unit) : option error :=
  match r with
  | inl _ => None
  | inr e => Some e
  end.

(** The event an action returns: the one it was given, or that one with
    the subnet stored. *)
Definition sameRequest (n n' : Event) : Prop :=
  n' = n \/ exists sn, n' = stored n sn.

Definition unsupported (action : string) : bool :=
  String.eqb action "update" || String.eqb action "get".

(** A provider where nothing exists yet and every operation succeeds. *)
Definition quietCloud : Cloud :=
  mkCloud
    (fun _ _ _ _ _ => inl (ec2.mkSubnet "subnet-1" "eu-west-1a"))
    (fun _ _ _ => inl [])
    (fun _ _ => inl (ec2.mkInternetGateway "igw-1"))
    (fun _ _ _ _ => inl tt)
    (fun _ _ _ => inl [])
    (fun _ _ _ => inl (ec2.mkRouteTable "rtb-1"))
    (fun _ _ _ _ => inl tt)
    (fun _ _ _ _ _ => inl tt)
    (fun _ _ _ _ => inl tt)
    (fun _ _ _ => inl [])
    (fun _ _ _ => inl tt).

(** A provider whose VPC already has its gateway and route table. *)
Definition settledCloud : Cloud :=
  mkCloud
    (onCreateSubnet quietCloud)
    (fun _ _ _ => inl [ec2.mkInternetGateway "igw-0"; ec2.mkInternetGateway "igw-9"])
    (onCreateInternetGateway quietCloud)
    (onAttachInternetGateway quietCloud)
    (fun _ _ _ => inl [ec2.mkRouteTable "rtb-0"])
    (onCreateRouteTable quietCloud)
    (onAssociateRouteTable quietCloud)
    (onCreateRoute quietCloud)
    (onModifySubnetAttribute quietCloud)
    (onDescribeNetworkInterfaces quietCloud)
    (onDeleteSubnet quietCloud).

(** [quietCloud] with the given answer to the interface query. *)
Definition withInterfaces
           (answer : History -> Result (list ec2.NetworkInterface)) : Cloud :=
  mkCloud
    (onCreateSubnet quietCloud)
    (onDescribeInternetGateways quietCloud)
    (onCreateInternetGateway quietCloud)
    (onAttachInternetGateway quietCloud)
    (onDescribeRouteTables quietCloud)
    (onCreateRouteTable quietCloud)
    (onAssociateRouteTable quietCloud)
    (onCreateRoute quietCloud)
    (onModifySubnetAttribute quietCloud)
    (fun h _ _ => answer h)
    (onDeleteSubnet quietCloud).

(** The number of interface queries made so far. *)
Definition polls (h : History) : nat :=
  length (filter (fun e => match e with
                           | Call _ (ec2.DescribeNetworkInterfaces _) _ => true
                           | _ => false
                           end) h).

(** Two interfaces that are gone at the third query. *)
Definition drainingCloud : Cloud :=
  withInterfaces (fun h =>
    if Nat.ltb (polls h) 2
    then inl [ec2.mkNetworkInterface "eni-1"; ec2.mkNetworkInterface "eni-2"]
    else inl []).

(** An interface that never goes away. *)
Definition busyCloud : Cloud :=
  withInterfaces (fun _ => inl [ec2.mkNetworkInterface "eni-1"]).

(** A provider that refuses to create the subnet. *)
Definition refusingCloud : Cloud :=
  mkCloud
    (fun _ _ _ _ _ => inr "InvalidSubnet.Conflict: the CIDR conflicts with another subnet")
    (onDescribeInternetGateways quietCloud)
    (onCreateInternetGateway quietCloud)
    (onAttachInternetGateway quietCloud)
    (onDescribeRouteTables quietCloud)
    (onCreateRouteTable quietCloud)
    (onAssociateRouteTable quietCloud)
    (onCreateRoute quietCloud)
    (onModifySubnetAttribute quietCloud)
    (onDescribeNetworkInterfaces quietCloud)
    (onDeleteSubnet quietCloud).

Definition publicPayload : string :=
  dq "{'vpc_id':'vpc-0000000','datacenter_region':'eu-west-1','datacenter_secret':'key','datacenter_token':'token','range':'10.0.0.0/16','is_public':true}".

Definition publicEvent (subj : string) : Event :=
  mkEvent EmptyString EmptyString EmptyString "eu-west-1" "key" "token"
          "vpc-0000000" EmptyString EmptyString "10.0.0.0/16" true EmptyString
          EmptyString subj publicPayload.

Definition decoded (subj : string) : Event :=
  mkEvent "test" "test" "aws" "eu-west-1" "key" "token" "vpc-0000000"
          "subnet-00000000" EmptyString "10.0.0.0/16" false EmptyString
          EmptyString subj expected.

Definition createRequest : nats.Msg := nats.mkMsg "network.create.aws" expected.

Definition publicRequest : nats.Msg := nats.mkMsg "network.create.aws" publicPayload.

Definition deleteRequest : nats.Msg := nats.mkMsg "network.delete.aws" expected.

(** The second dot-segment of a subject. *)
Definition actionOf (subj : string) : option string :=
  nth_error (strings.Split subj ".") 1.

(** The action of a subject is delete. *)
Definition deletes (subj : string) : bool :=
  match actionOf subj with
  | Some action => String.eqb action "delete"
  | None => false
  end.

(** The checks in the order and the words of the specification, each with
    its error: the fourth is the subnet identifier if the action is delete
    and the range otherwise. *)
Definition checks (ev : Event) : list (bool * error) :=
  [ (negb (isEmpty (VPCID ev)), ErrDatacenterIDInvalid);
    (negb (isEmpty (DatacenterRegion ev)), ErrDatacenterRegionInvalid);
    (negb (isEmpty (DatacenterAccessKey ev)) && negb (isEmpty (DatacenterAccessToken ev)),
     ErrDatacenterCredentialsInvalid);
    if deletes (subject ev)
    then (negb (isEmpty (NetworkAWSID ev)), ErrNetworkAWSIDInvalid)
    else (negb (isEmpty (Subnet ev)), ErrNetworkSubnetInvalid) ].

(** The same checks with the fourth chosen the way the code chooses it: by
    the whole subject being [network.delete.aws]. *)
Definition checksBySubject (ev : Event) : list (bool * error) :=
  [ (negb (isEmpty (VPCID ev)), ErrDatacenterIDInvalid);
    (negb (isEmpty (DatacenterRegion ev)), ErrDatacenterRegionInvalid);
    (negb (isEmpty (DatacenterAccessKey ev)) && negb (isEmpty (DatacenterAccessToken ev)),
     ErrDatacenterCredentialsInvalid);
    if String.eqb (subject ev) "network.delete.aws"
    then (negb (isEmpty (NetworkAWSID ev)), ErrNetworkAWSIDInvalid)
    else (negb (isEmpty (Subnet ev)), ErrNetworkSubnetInvalid) ].

(** The error of the first check that does not hold. *)
Fixpoint firstFailing (cs : list (bool * error)) : option error :=
  match cs with
  | [] => None
  | (true, _) :: cs' => firstFailing cs'
  | (false, e) :: _ => Some e
  end.

Definition noVpcPayload : string := dq "{'vpc_id':'','range':'10.0.0.0/16'}".

Definition noVpcEvent : Event :=
  setString fSubnet "10.0.0.0/16" (New "network.create.aws" noVpcPayload).

Definition truncatedPayload : string := dq "{'vpc_id':'vpc-0000000','range':".

Definition gatewayLookup (vpc : string) : ec2.Request :=
  ec2.DescribeInternetGateways [ec2.mkFilter "attachment.vpc-id" [vpc]].

Definition routeTableLookup (subnet : string) : ec2.Request :=
  ec2.DescribeRouteTables [ec2.mkFilter "association.subnet-id" [subnet]].

(** The calls that make [gw] the gateway of the VPC: none when the lookup
    found one, create and attach when it found none. *)
Definition gatewaySteps (svc : ec2.EC2) (vpc : string)
           (found : list ec2.InternetGateway) (gw : ec2.InternetGateway) : History :=
  match found with
  | [] =>
    [Call svc ec2.CreateInternetGateway (inl (ec2.InternetGatewayOutput gw));
     Call svc (ec2.AttachInternetGateway (ec2.InternetGatewayId gw) vpc)
          (inl ec2.NoOutput)]
  | _ :: _ => []
  end.

(** The calls that make [rt] the route table of the subnet. *)
Definition routeTableSteps (svc : ec2.EC2) (vpc subnet : string)
           (found : list ec2.RouteTable) (rt : ec2.RouteTable) : History :=
  match found with
  | [] =>
    [Call svc (ec2.CreateRouteTable vpc) (inl (ec2.RouteTableOutput rt));
     Call svc (ec2.AssociateRouteTable (ec2.RouteTableId rt) subnet)
          (inl ec2.NoOutput)]
  | _ :: _ => []
  end.

(** A resource that was found is the one used. *)
Definition reused {A} (found : list A) (x : A) : Prop :=
  match found with
  | [] => True
  | y :: _ => x = y
  end.

(** A member as the struct encoder writes it. *)
Definition member (key value : string) : string :=
  (json.appendString key ++ ":" ++ value)%string.

(** The three members every serialized event has, whatever their values:
    none of them is [omitempty]. *)
Definition credentials (ev : Event) : string :=
  (member "datacenter_region" (json.appendString (DatacenterRegion ev)) ++ ","
   ++ member "datacenter_secret" (json.appendString (DatacenterAccessKey ev)) ++ ","
   ++ member "datacenter_token" (json.appendString (DatacenterAccessToken ev)))%string.

(** The messages of one subscription are handled one after the other. *)
Fixpoint serve (cloud : Cloud) (fuel : nat) (ms : list nats.Msg) : Go unit :=
  match ms with
  | [] => ret tt
  | m :: ms' => eventHandler cloud fuel m ;; serve cloud fuel ms'
  end.

(** Four requests in a row against a provider that refuses every subnet: a
    truncated payload, a request without VPC id, a create and a delete. *)
Definition mixedTraffic : list nats.Msg :=
  [nats.mkMsg "network.create.aws" truncatedPayload;
   nats.mkMsg "network.create.aws" noVpcPayload;
   createRequest;
   deleteRequest].

(** What the decoder makes of the bytes of a string: an ASCII byte is kept,
    a well-formed sequence is decoded and encoded again, an ill-formed byte
    becomes U+FFFD. *)
Definition coerceRune (c : ascii) (rest : string) : string * nat :=
  if (byte c <? utf8.RuneSelf)%N then (str1 c, 1)
  else
    let (r, size) := utf8.DecodeRune (String c rest) in
    (utf8.EncodeRune r, size).

Fixpoint coerceRunes (fuel : nat) (s : string) : string :=
  match fuel, s with
  | S fuel', String c rest =>
    let (out, size) := coerceRune c rest in
    (out ++ coerceRunes fuel' (skip size s))%string
  | _, _ => EmptyString
  end.

Definition coerce (s : string) : string := coerceRunes (String.length s) s.

(** A string the decoder gives back as it is. *)
Definition wellFormed (s : string) : Prop := coerce s = s.

(** A member of the object and what follows it: the closing brace, or a
    comma and the next member. *)
Definition afterMember (f : nat) (k : string) (v : json.Value) (d : ascii) (r : string)
  : option (list (string * json.Value) * string) :=
  if Ascii.eqb d "}" then Some ([(k, v)], r)
  else if Ascii.eqb d "," then
    match json.parseMembers f (json.skipSpace r) with
    | Some (ms, r') => Some ((k, v) :: ms, r')
    | None => None
    end
  else None.

(** The event the decoder builds from the serialization of [ev], on a
    blank event carrying [subj] and [bd]. *)
Definition coerced (ev : Event) (subj bd : string) : Event :=
  mkEvent (coerce (UUID ev)) (coerce (BatchID ev)) (coerce (ProviderType ev))
          (coerce (DatacenterRegion ev)) (coerce (DatacenterAccessKey ev))
          (coerce (DatacenterAccessToken ev)) (coerce (VPCID ev))
          (coerce (NetworkAWSID ev)) (coerce (Name ev)) (coerce (Subnet ev))
          (IsPublic ev) (coerce (AvailabilityZone ev)) (coerce (ErrorMessage ev))
          subj bd.

Fixpoint isASCII (s : string) : bool :=
  match s with
  | EmptyString => true
  | String c s' => (byte c <? utf8.RuneSelf)%N && isASCII s'
  end.

(** The exported string fields of an event are well-formed. *)
Definition wellFormedEvent (ev : Event) : Prop :=
  forall f s, fieldValue f ev = KString s -> wellFormed s.

(** The fields the encoder writes: all but the empty [omitempty] ones. *)
Definition present (ev : Event) : list FieldId :=
  filter (fun f => negb (tagOmitEmpty f && json.isEmptyValue (fieldValue f ev)))
         allFields.

Definition valueText (v : Kind) : string :=
  match json.encodeValue v with
  | inl s => s
  | inr _ => EmptyString
  end.

Definition rendered (ev : Event) (f : FieldId) : string :=
  member (tagName f) (valueText (fieldValue f ev)).

Fixpoint join (l : list string) : string :=
  match l with
  | [] => EmptyString
  | [x] => x
  | x :: l' => (x ++ "," ++ join l')%string
  end.

(** A payload in another order, with blanks, an escaped solidus and a key
    in capitals: all of it accepted by the decoder. *)
Definition loosePayload : string :=
  dq "{ 'range':'10.0.0.0\/16', 'VPC_ID':'vpc-1' }".

(** The rune [utf8.EncodeRune] writes: surrogates and values above
    [MaxRune] are written as U+FFFD. *)
Definition scalar (r : N) : N :=
  if (utf8.MaxRune <? r)%N || ((55296 <=? r)%N && (r <=? 57343)%N)
  then utf8.RuneError else r.

(** Well-formed for every bound of the loop that is large enough. *)
Definition stable (s : string) : Prop :=
  forall n, String.length s <= n -> coerceRunes n s = s.

Definition stableValue (v : json.Value) : Prop :=
  match v with
  | json.Str s => stable s
  | _ => True
  end.

Definition stableMembers (ms : list (string * json.Value)) : Prop :=
  Forall (fun kv => stableValue (snd kv)) ms.

(** Every exported string of the event is stable. *)
Definition stableEvent (ev : Event) : Prop :=
  forall f s, fieldValue f ev = KString s -> stable s.

(** The event of the tests with a name that is not ASCII. *)
Definition namedEvent : Event :=
  setString fName "réseau-01 ∑ 😀" testEvent.

(** A history that ends in a failed call, every call before it having
    succeeded. *)
Definition endsInFailure (t : History) (e : error) : Prop :=
  exists t0 svc req, t = t0 ++ [Call svc req (inr e)] /\ failure t0 = None.

(** A call that removes a resource: [DeleteSubnet] is the only one the
    worker has. *)
Definition removes (e : Effect) : bool :=
  match e with
  | Call _ (ec2.DeleteSubnet _) _ => true
  | _ => false
  end.

(** A provider where everything succeeds but the last call of a public
    create. *)
Definition halfwayCloud : Cloud :=
  mkCloud
    (onCreateSubnet quietCloud)
    (onDescribeInternetGateways quietCloud)
    (onCreateInternetGateway quietCloud)
    (onAttachInternetGateway quietCloud)
    (onDescribeRouteTables quietCloud)
    (onCreateRouteTable quietCloud)
    (onAssociateRouteTable quietCloud)
    (onCreateRoute quietCloud)
    (fun _ _ _ _ => inr "UnauthorizedOperation: not allowed to modify the subnet")
    (onDescribeNetworkInterfaces quietCloud)
    (onDeleteSubnet quietCloud).

(** The number of bytes [sep] in a string. *)
Fixpoint count (sep : ascii) (s : string) : nat :=
  match s with
  | EmptyString => 0
  | String c r => (if Ascii.eqb c sep then 1 else 0) + count sep r
  end.

(** The parts with [sep] between them. *)
Fixpoint joinWith (sep : ascii) (l : list string) : string :=
  match l with
  | [] => EmptyString
  | [x] => x
  | x :: l' => (x ++ String sep (joinWith sep l'))%string
  end.

(** The members of a payload that is one JSON object and nothing else. *)
Definition members (data : string) : option (list (string * json.Value)) :=
  match json.parseValue (2 * String.length data + 2) data with
  | Some (json.Obj ms, rest) =>
    match json.skipSpace rest with
    | EmptyString => Some ms
    | String _ _ => None
    end
  | _ => None
  end.

(** The JSON values a field takes: a string field a string, a bool field
    a bool, and both [null]. *)
Definition accepts (f : FieldId) (v : json.Value) : bool :=
  match v, fieldValue f (New EmptyString EmptyString) with
  | json.Null, _ => true
  | json.Str _, KString _ => true
  | json.Bool _, KBool _ => true
  | _, _ => false
  end.

(** A member that names the field [f] with a value it does not take. *)
Definition mistyped (kv : string * json.Value) : Prop :=
  exists f, json.findField (fst kv) = Some f /\ accepts f (snd kv) = false.

(** A member that leaves the field [f] as it is: it names another field
    or none, or its value is [null] or one the field does not take. *)
Definition inert (f : FieldId) (kv : string * json.Value) : Prop :=
  json.findField (fst kv) = Some f ->
  snd kv = json.Null \/ accepts f (snd kv) = false.

(** The value of a payload that is one JSON value and nothing else. *)
Definition parsed (data : string) : option json.Value :=
  match json.parseValue (2 * String.length data + 2) data with
  | Some (v, rest) =>
    match json.skipSpace rest with
    | EmptyString => Some v
    | String _ _ => None
    end
  | None => None
  end.

(** The payloads the decoder refuses: what is not one JSON value, a JSON
    value that is neither an object nor [null], and an object with a
    member of the wrong type. *)
Definition refused (data : string) : Prop :=
  match parsed data with
  | None => True
  | Some (json.Obj ms) => Exists mistyped ms
  | Some json.Null => False
  | Some _ => True
  end.

(** A payload whose [is_public] is a string. *)
Definition mistypedPayload : string :=
  dq "{'vpc_id':'vpc-1','is_public':'yes'}".

(** A payload that names [name] three times and has a member no field
    answers to. *)
Definition repeatedPayload : string :=
  dq "{'name':'a','NAME':'b','name':null,'cidr':1}".

(** ASCII letters in capitals. *)
Fixpoint toUpper (s : string) : string :=
  match s with
  | EmptyString => EmptyString
  | String c r =>
    String (if (97 <=? byte c)%N && (byte c <=? 122)%N then chr (byte c - 32) else c)
           (toUpper r)
  end.

(** A byte that may stand in one line of text embedded in HTML: no byte
    below 32 (line breaks, tabs and the other C0 controls), and none of
    [<], [>] and [&].  The byte 127 is among them. *)
Definition plain (c : ascii) : bool :=
  (32 <=? byte c)%N
  && negb (Ascii.eqb c "<") && negb (Ascii.eqb c ">") && negb (Ascii.eqb c "&").

Fixpoint allBytes (p : ascii -> bool) (s : string) : bool :=
  match s with
  | EmptyString => true
  | String c r => p c && allBytes p r
  end.

(** A byte of a multi-byte UTF-8 sequence. *)
Definition high (c : ascii) : bool := (128 <=? byte c)%N.

(** The lines written to the log. *)
Definition logs (h : History) : list string :=
  flat_map (fun e => match e with Log line => [line] | _ => [] end) h.

(** A delete request without subnet identifier, and a subject that is not
    the one [main] subscribes to. *)
Definition strayPayload : string :=
  dq "{'vpc_id':'vpc-0000000','datacenter_region':'eu-west-1','datacenter_secret':'key','datacenter_token':'token','range':'10.0.0.0/16'}".

Definition strayEvent : Event :=
  mkEvent EmptyString EmptyString EmptyString "eu-west-1" "key" "token"
          "vpc-0000000" EmptyString EmptyString "10.0.0.0/16" false EmptyString
          EmptyString "subnet.delete.aws" strayPayload.

(** The event with another subject. *)
Definition addressed (subj : string) (ev : Event) : Event :=
  mkEvent (UUID ev) (BatchID ev) (ProviderType ev) (DatacenterRegion ev)
          (DatacenterAccessKey ev) (DatacenterAccessToken ev) (VPCID ev)
          (NetworkAWSID ev) (Name ev) (Subnet ev) (IsPublic ev)
          (AvailabilityZone ev) (ErrorMessage ev) subj (body ev).

(** * Properties *)

(** ** Strings *)

Lemma append_assoc (a b c : string) : ((a ++ b) ++ c = a ++ (b ++ c))%string.
Proof. induction a as [|x a IH]; simpl; [reflexivity | now rewrite IH]. Qed.

Lemma append_nil_r (a : string) : (a ++ EmptyString)%string = a.
Proof. induction a as [|x a IH]; simpl; [reflexivity | now rewrite IH]. Qed.

Lemma isEmpty_true (s : string) : isEmpty s = true <-> s = EmptyString.
Proof. unfold isEmpty. apply String.eqb_eq. Qed.

Lemma isEmpty_false (s : string) : isEmpty s = false <-> s <> EmptyString.
Proof. unfold isEmpty. apply String.eqb_neq. Qed.

(** ** Observations on a history *)

Lemma publications_app (h1 h2 : History) :
  publications (h1 ++ h2) = publications h1 ++ publications h2.
Proof. unfold publications. apply flat_map_app. Qed.

Lemma requests_app (h1 h2 : History) :
  requests (h1 ++ h2) = requests h1 ++ requests h2.
Proof. unfold requests. apply flat_map_app. Qed.

(** ** Serialization never fails *)

Lemma encodeValue_fieldValue (f : FieldId) (ev : Event) :
  exists v, json.encodeValue (fieldValue f ev) = inl v.
Proof. destruct f; simpl; eexists; reflexivity. Qed.

Lemma structEncoder_total (ev : Event) (fs : list FieldId) (next : ascii) :
  exists data,
    json.structEncoder next
      (map (fun f => json.mkField (tagName f) (tagOmitEmpty f) (fieldValue f ev)) fs)
    = inl data.
Proof.
  revert next. induction fs as [|f fs IH]; intros next; simpl.
  - eexists; reflexivity.
  - destruct (tagOmitEmpty f && json.isEmptyValue (fieldValue f ev)).
    + apply IH.
    + destruct (encodeValue_fieldValue f ev) as [v ->].
      destruct (IH ","%char) as [rest ->]. eexists; reflexivity.
Qed.

Lemma Marshal_total (ev : Event) : exists data, json.Marshal ev = inl data.
Proof. apply structEncoder_total. Qed.

(** ** Decoding leaves the routing metadata alone *)

Lemma setString_subject f s ev : subject (setString f s ev) = subject ev.
Proof. destruct ev, f; reflexivity. Qed.

Lemma setString_body f s ev : body (setString f s ev) = body ev.
Proof. destruct ev, f; reflexivity. Qed.

Lemma setBool_subject f b ev : subject (setBool f b ev) = subject ev.
Proof. destruct ev, f; reflexivity. Qed.

Lemma setBool_body f b ev : body (setBool f b ev) = body ev.
Proof. destruct ev, f; reflexivity. Qed.

Lemma store_meta f v ev ev' e :
  json.store f v ev = (ev', e) -> subject ev' = subject ev /\ body ev' = body ev.
Proof.
  unfold json.store.
  destruct v, (fieldValue f ev); intros H; inversion H; subst;
    auto using setString_subject, setString_body, setBool_subject, setBool_body.
Qed.

Lemma object_meta ms : forall ev saved ev' e,
  json.object ms ev saved = (ev', e) -> subject ev' = subject ev /\ body ev' = body ev.
Proof.
  induction ms as [|[k v] ms IH]; simpl; intros ev saved ev' e H.
  - inversion H; auto.
  - destruct (json.findField k) as [f|]; [|eauto].
    destruct (json.store f v ev) as [ev1 e1] eqn:Hs.
    apply store_meta in Hs as [Hs Hb]. apply IH in H as [H1 H2].
    split; congruence.
Qed.

Lemma Unmarshal_meta data ev ev' e :
  json.Unmarshal data ev = (ev', e) -> subject ev' = subject ev /\ body ev' = body ev.
Proof.
  unfold json.Unmarshal.
  destruct (json.parseValue _ data) as [[v rest]|]; [|intros H; inversion H; auto].
  destruct (json.skipSpace rest); [|intros H; inversion H; auto].
  destruct v; try (intros H; inversion H; auto; fail).
  apply object_meta.
Qed.

Lemma Marshal_serialized (ev : Event) : json.Marshal ev = inl (serialized ev).
Proof. unfold serialized. destruct (Marshal_total ev) as [d ->]. reflexivity. Qed.

(** ** The two responses *)

Lemma Error_run (ev : Event) (e : error) (h : History) :
  Error ev e h =
  (Returned (failed ev e),
   h ++ [Log ("Error: " ++ e); Publish (subject ev ++ ".error") (serialized (failed ev e))]).
Proof.
  unfold Error, failed, log.Printf, nats.Publish, bind, emit, ret.
  rewrite Marshal_serialized, setString_subject, <- app_assoc. reflexivity.
Qed.

Lemma Complete_run (ev : Event) (h : History) :
  Complete ev h = (Returned ev, h ++ [Publish (subject ev ++ ".done") (serialized ev)]).
Proof.
  unfold Complete, nats.Publish, bind, emit, ret.
  rewrite Marshal_serialized. reflexivity.
Qed.

(** ** The handler, once the payload is decoded *)

Section Handler.

Variable cloud : Cloud.
Variable fuel : nat.
Variable m : nats.Msg.

Let blank : Event := New (nats.Subject m) (nats.Data m).

Lemma Process_blank (h : History) :
    Process blank h =
    match json.Unmarshal (nats.Data m) blank with
    | (n, Some e) =>
      (Returned (n, Some e), h ++ [Publish (subject n ++ ".error") (body n)])
    | (n, None) => (Returned (n, None), h)
    end.
  Proof.
    unfold Process. change (body blank) with (nats.Data m).
    destruct (json.Unmarshal (nats.Data m) blank) as [n [e|]]; reflexivity.
  Qed.

Lemma eventHandler_undecoded (n : Event) (e : error) (h : History) :
    json.Unmarshal (nats.Data m) blank = (n, Some e) ->
    eventHandler cloud fuel m h
    = (Returned tt, h ++ [Publish (nats.Subject m ++ ".error") (nats.Data m)]).
  Proof.
    intros Hd. unfold eventHandler, bind. fold blank. rewrite Process_blank, Hd. apply Unmarshal_meta in Hd as [Hs Hb].
    rewrite Hs, Hb. reflexivity.
  Qed.

Lemma eventHandler_invalid (n : Event) (e : error) (h : History) :
    json.Unmarshal (nats.Data m) blank = (n, None) ->
    Validate n = Some e ->
    eventHandler cloud fuel m h
    = (Returned tt,
       h ++ [Log ("Error: " ++ e);
             Publish (nats.Subject m ++ ".error") (serialized (failed n e))]).
  Proof.
    intros Hd Hv. unfold eventHandler, bind. fold blank. rewrite Process_blank, Hd. apply Unmarshal_meta in Hd as [Hs _].
    unfold ret. rewrite Hv, Error_run, Hs. reflexivity.
  Qed.

Lemma eventHandler_dispatch (n : Event) (action : string) (h : History) :
    json.Unmarshal (nats.Data m) blank = (n, None) ->
    Validate n = None ->
    nth_error (strings.Split (nats.Subject m) ".") 1 = Some action ->
    eventHandler cloud fuel m h = respond (dispatch cloud fuel action n h).
  Proof.
    intros Hd Hv Ha. unfold eventHandler, bind. fold blank. rewrite Process_blank, Hd. unfold ret. rewrite Hv, Ha.
    destruct (dispatch cloud fuel action n h) as [[[n' [e|]]|v|] h']; simpl;
      [rewrite Error_run | rewrite Complete_run | |]; reflexivity.
  Qed.

Lemma eventHandler_no_action (n : Event) (h : History) :
    json.Unmarshal (nats.Data m) blank = (n, None) ->
    Validate n = None ->
    nth_error (strings.Split (nats.Subject m) ".") 1 = None ->
    eventHandler cloud fuel m h
    = (Panicked "runtime error: index out of range [1] with length 1", h).
  Proof.
    intros Hd Hv Ha. unfold eventHandler, bind. fold blank. rewrite Process_blank, Hd. unfold ret. rewrite Hv, Ha. reflexivity.
  Qed.

End Handler.

(** ** The action handlers *)

Ltac exec :=
  unfold Create, createInternetGateway, createRouteTable, createGatewayRoutes,
    internetGatewayByVPCID, routingTableBySubnetID, getNetworkInterfaces,
    CreateSubnet, DescribeInternetGateways, CreateInternetGateway,
    AttachInternetGateway, DescribeRouteTables, CreateRouteTable,
    AssociateRouteTable, CreateRoute, ModifySubnetAttribute,
    DescribeNetworkInterfaces, DeleteSubnet, Update, Get, time.Sleep,
    invoke, bind, ret, emit in *;
  cbn beta iota zeta in *.

Ltac atomic x :=
  lazymatch x with
  | context [match _ with _ => _ end] => fail
  | _ => idtac
  end.

Ltac branch :=
  match goal with
  | |- context [match ?x with _ => _ end] => atomic x; destruct x eqn:?
  end;
  cbn beta iota zeta.

Section Actions.

Variable cloud : Cloud.

Lemma Create_effects (ev : Event) (h : History) :
    exists t ev',
      Create cloud ev h = (Returned (ev', failure t), h ++ t)
      /\ forallb silent t = true
      /\ match failure t with
         | Some _ => ev' = ev
         | None => exists sn, ev' = stored ev sn
         end.
  Proof.
    exec.
    repeat branch; rewrite <- ?app_assoc; cbn [app];
      eexists; eexists;
      (split; [apply f_equal2; [|reflexivity]; reflexivity|]); cbn;
      unfold stored; eauto.
  Qed.

Lemma waitForInterfaceRemoval_run (fuel : nat) (svc : ec2.EC2) (networkID : string) :
    forall h : History,
    exists found,
      Forall (fun nis => nis <> []) found /\
      length found <= fuel /\
      let w := h ++ rounds svc networkID found in
      ((length found = fuel /\
        waitForInterfaceRemoval cloud fuel svc networkID h = (Running, w))
       \/ (exists e,
             waitForInterfaceRemoval cloud fuel svc networkID h
             = (Returned (Some e), w ++ [Call svc (query networkID) (inr e)]))
       \/ waitForInterfaceRemoval cloud fuel svc networkID h
          = (Returned None,
             w ++ [Call svc (query networkID)
                        (inl (ec2.NetworkInterfacesOutput []))])).
  Proof.
    induction fuel as [|fuel IH]; intros h.
    - exists []. cbn. rewrite app_nil_r. auto 10.
    - cbn [waitForInterfaceRemoval]. exec.
      destruct (onDescribeNetworkInterfaces cloud h svc _) as [[|ni nis]|e] eqn:Hq.
      + exists []. cbn. rewrite app_nil_r.
        split; [constructor|]. split; [lia|]. right; right. reflexivity.
      + rewrite <- app_assoc. cbn [app].
        destruct (IH (h ++ round svc networkID (ni :: nis)))
          as (found & Hne & Hlen & Hrun).
        exists ((ni :: nis) :: found).
        split; [constructor; [discriminate | assumption]|].
        split; [cbn; lia|].
        cbn zeta in *. cbn [rounds flat_map length] in *.
        fold (rounds svc networkID found) in *.
        rewrite <- !app_assoc in Hrun. rewrite <- !app_assoc.
        unfold round, query in *. cbn [app] in *.
        destruct Hrun as [[Hl Hr]|[[e Hr]|Hr]].
        * left. split; [lia | exact Hr].
        * right; left. exists e. exact Hr.
        * right; right. exact Hr.
      + exists []. cbn. rewrite app_nil_r.
        split; [constructor|]. split; [lia|]. right; left. exists e. reflexivity.
  Qed.

End Actions.

Section Deletion.

Variable cloud : Cloud.

Lemma Delete_run (fuel : nat) (ev : Event) (h : History) :
  let svc := newService ev in
  let id := NetworkAWSID ev in
  exists found,
    Forall (fun nis => nis <> []) found /\
    length found <= fuel /\
    let w := h ++ rounds svc id found in
    ((length found = fuel /\ Delete cloud fuel ev h = (Running, w))
     \/ (exists e,
           Delete cloud fuel ev h
           = (Returned (Some e), w ++ [Call svc (query id) (inr e)]))
     \/ (exists r,
           Delete cloud fuel ev h
           = (Returned (errorOf r),
              w ++ [Call svc (query id) (inl (ec2.NetworkInterfacesOutput []));
                    Call svc (ec2.DeleteSubnet id) (answered r)]))).
Proof.
  intros svc id. unfold Delete. fold svc id.
  destruct (waitForInterfaceRemoval_run cloud fuel svc id h)
    as (found & Hne & Hlen & Hrun).
  exists found. split; [assumption|]. split; [assumption|].
  cbn zeta in *. unfold bind.
  destruct Hrun as [[Hl Hr]|[[e Hr]|Hr]]; rewrite Hr.
  - left. split; [assumption | reflexivity].
  - right; left. exists e. reflexivity.
  - right; right. exec.
    match goal with
    | |- context [onDeleteSubnet cloud ?h0 svc id] =>
      exists (onDeleteSubnet cloud h0 svc id);
      destruct (onDeleteSubnet cloud h0 svc id)
    end; cbn; rewrite <- app_assoc; reflexivity.
Qed.

End Deletion.

(** ** What every action does and does not do *)

Lemma silent_rounds (svc : ec2.EC2) (id : string) (found : list (list ec2.NetworkInterface)) :
  forallb silent (rounds svc id found) = true.
Proof. induction found as [|nis found IH]; [reflexivity | exact IH]. Qed.

Lemma failure_rounds (svc : ec2.EC2) (id : string)
      (found : list (list ec2.NetworkInterface)) (t : History) :
  failure (rounds svc id found ++ t) = failure t.
Proof. induction found as [|nis found IH]; [reflexivity | exact IH]. Qed.

Lemma publications_silent (t : History) :
  forallb silent t = true -> publications t = [].
Proof.
  induction t as [|e t IH]; [reflexivity|].
  cbn [forallb]. intros H. apply andb_prop in H as [He Ht].
  destruct e; try discriminate; cbn; auto.
Qed.

Lemma dispatch_effects (cloud : Cloud) (fuel : nat) (action : string)
      (n : Event) (h : History) :
  exists t,
    snd (dispatch cloud fuel action n h) = h ++ t /\
    forallb silent t = true /\
    match fst (dispatch cloud fuel action n h) with
    | Returned (n', err) =>
      sameRequest n n' /\
      (err <> None -> n' = n) /\
      (if unsupported action
       then t = [] /\ err = Some (subject n ++ " not supported")%string
       else err = failure t)
    | Panicked _ => False
    | Running =>
      action = "delete" /\
      exists found,
        t = rounds (newService n) (NetworkAWSID n) found /\
        length found = fuel /\ Forall (fun nis => nis <> []) found
    end.
Proof.
  unfold dispatch, unsupported.
  destruct (String.eqb_spec action "create") as [->|Hc].
  { destruct (Create_effects cloud n h) as (t & n' & Hrun & Hs & Hn').
    exists t. rewrite Hrun. cbn. repeat split; auto.
    - unfold sameRequest. destruct (failure t); auto.
    - destruct (failure t); [auto | congruence]. }
  destruct (String.eqb_spec action "update") as [->|Hu].
  { exists []. cbn. rewrite app_nil_r. unfold sameRequest. auto 10. }
  destruct (String.eqb_spec action "delete") as [->|Hd].
  { destruct (Delete_run cloud fuel n h) as (found & Hne & Hlen & Hrun).
    cbn zeta in Hrun. unfold bind.
    destruct Hrun as [[Hl Hr]|[[e Hr]|[r Hr]]]; rewrite Hr; cbn.
    - exists (rounds (newService n) (NetworkAWSID n) found).
      split; [reflexivity|]. split; [apply silent_rounds|]. split; [reflexivity|].
      exists found. auto.
    - eexists. rewrite <- app_assoc. split; [reflexivity|].
      rewrite forallb_app, silent_rounds, failure_rounds. cbn.
      unfold sameRequest. auto.
    - eexists. rewrite <- app_assoc. split; [reflexivity|].
      rewrite forallb_app, silent_rounds, failure_rounds. cbn.
      unfold sameRequest. destruct r; cbn; auto. }
  destruct (String.eqb_spec action "get") as [->|Hg].
  { exists []. cbn. rewrite app_nil_r. unfold sameRequest. auto 10. }
  exists []. cbn. rewrite app_nil_r. unfold sameRequest. auto.
Qed.

(** ** Scenarios: concrete providers and messages *)

Lemma decode_expected (subj : string) :
  json.Unmarshal expected (New subj expected) = (decoded subj, None).
Proof. vm_compute. reflexivity. Qed.

Lemma decode_publicPayload (subj : string) :
  json.Unmarshal publicPayload (New subj publicPayload) = (publicEvent subj, None).
Proof. vm_compute. reflexivity. Qed.

(** ** Validation *)

(** C2, as stated, fails: a request on the subject [subnet.delete.aws],
    whose action is delete, decodes to an event without subnet identifier;
    the fourth check of the specification fails on it, and [Validate]
    accepts it, because the code chooses the fourth check by the whole
    subject and not by the action. *)
Lemma delete_without_subnet_id_validates :
  json.Unmarshal strayPayload (New "subnet.delete.aws" strayPayload) = (strayEvent, None)
  /\ deletes (subject strayEvent) = true
  /\ NetworkAWSID strayEvent = EmptyString
  /\ firstFailing (checks strayEvent) = Some ErrNetworkAWSIDInvalid
  /\ Validate strayEvent = None.
Proof. repeat split; vm_compute; reflexivity. Qed.

(** C2, amended. [Validate] runs four checks in order (VPC id, region, both
    credentials, then the subnet identifier when the subject is
    [network.delete.aws] and the range otherwise) and returns the error of
    the first one that fails, nil when all hold.  Whenever the subject test
    agrees with the test that the action is delete, as it does on the two
    subscribed subjects, these are the checks of the specification.  The
    five errors are distinct, and when validation fails the handler makes
    no cloud call: it logs and publishes the event with that error on
    [<subject>.error]. *)
Theorem Validate_first_failing_check :
  (forall ev, Validate ev = firstFailing (checksBySubject ev))
  /\ (forall ev,
        String.eqb (subject ev) "network.delete.aws" = deletes (subject ev) ->
        Validate ev = firstFailing (checks ev))
  /\ (forall subj, In subj events ->
        String.eqb subj "network.delete.aws" = deletes subj)
  /\ NoDup [ErrDatacenterIDInvalid; ErrDatacenterRegionInvalid;
            ErrDatacenterCredentialsInvalid; ErrNetworkSubnetInvalid;
            ErrNetworkAWSIDInvalid]
  /\ (forall cloud fuel m n e,
        json.Unmarshal (nats.Data m) (New (nats.Subject m) (nats.Data m)) = (n, None) ->
        Validate n = Some e ->
        eventHandler cloud fuel m []
        = (Returned tt,
           [Log ("Error: " ++ e);
            Publish (nats.Subject m ++ ".error") (serialized (failed n e))])
        /\ ErrorMessage (failed n e) = e).
Proof.
  assert (Hcode : forall ev, Validate ev = firstFailing (checksBySubject ev)).
  { intros ev. unfold Validate, checksBySubject, firstFailing.
    destruct (isEmpty (VPCID ev)); cbn; [reflexivity|].
    destruct (isEmpty (DatacenterRegion ev)); cbn; [reflexivity|].
    destruct (isEmpty (DatacenterAccessKey ev)); cbn; [reflexivity|].
    destruct (isEmpty (DatacenterAccessToken ev)); cbn; [reflexivity|].
    destruct (String.eqb (subject ev) "network.delete.aws").
    + destruct (isEmpty (NetworkAWSID ev)); reflexivity.
    + destruct (isEmpty (Subnet ev)); reflexivity. }
  split; [exact Hcode|]. split; [|split; [|split]].
  - intros ev Hagree. rewrite Hcode. unfold checks, checksBySubject.
    rewrite Hagree. reflexivity.
  - intros subj [<-|[<-|[]]]; vm_compute; reflexivity.
  - repeat constructor; cbn; intuition discriminate.
  - intros cloud fuel m n e Hd Hv. split.
    + apply (eventHandler_invalid cloud fuel m [] Hd Hv).
    + unfold failed. destruct n; reflexivity.
Qed.

Lemma Validate_first_failing_check_witness :
  json.Unmarshal noVpcPayload (New "network.create.aws" noVpcPayload) = (noVpcEvent, None)
  /\ Validate noVpcEvent = firstFailing (checks noVpcEvent)
  /\ Validate noVpcEvent = Some ErrDatacenterIDInvalid
  /\ eventHandler refusingCloud 0 (nats.mkMsg "network.create.aws" noVpcPayload) []
     = (Returned tt,
        [Log "Error: Datacenter VPC ID invalid";
         Publish "network.create.aws.error"
           (dq "{'_uuid':'','_batch_id':'','_type':'','datacenter_region':'','datacenter_secret':'','datacenter_token':'','vpc_id':'','name':'','range':'10.0.0.0/16','is_public':false,'availability_zone':'','error_message':'Datacenter VPC ID invalid'}")]).
Proof.
  assert (Hd : json.Unmarshal noVpcPayload (New "network.create.aws" noVpcPayload)
               = (noVpcEvent, None)) by (vm_compute; reflexivity).
  assert (Hv : Validate noVpcEvent = Some ErrDatacenterIDInvalid) by reflexivity.
  split; [exact Hd|].
  split; [exact (proj1 (proj2 Validate_first_failing_check) noVpcEvent eq_refl)|].
  split; [exact Hv|].
  refine (eq_trans
    (proj1 (proj2 (proj2 (proj2 (proj2 Validate_first_failing_check))) refusingCloud 0
       (nats.mkMsg "network.create.aws" noVpcPayload)
       noVpcEvent ErrDatacenterIDInvalid Hd Hv)) _).
  vm_compute. reflexivity.
Defined.

(** ** The decoder and the members of a payload *)

Lemma Unmarshal_members (data : string) (ms : list (string * json.Value)) (ev : Event) :
  members data = Some ms -> json.Unmarshal data ev = json.object ms ev None.
Proof.
  unfold members, json.Unmarshal.
  destruct (json.parseValue _ data) as [[v rest]|]; [|discriminate].
  destruct v; try discriminate.
  destruct (json.skipSpace rest); [|discriminate].
  intros H; inversion H; reflexivity.
Qed.

Lemma FieldId_eq_dec (f g : FieldId) : {f = g} + {f <> g}.
Proof. decide equality. Qed.

Lemma fieldValue_setString_other (f g : FieldId) (s : string) (ev : Event) :
  g <> f -> fieldValue f (setString g s ev) = fieldValue f ev.
Proof. destruct ev, f, g; intros H; try reflexivity; contradiction. Qed.

Lemma fieldValue_setBool_other (f g : FieldId) (b : bool) (ev : Event) :
  g <> f -> fieldValue f (setBool g b ev) = fieldValue f ev.
Proof. destruct ev, f, g; intros H; try reflexivity; contradiction. Qed.

Lemma store_other (f g : FieldId) (v : json.Value) (ev : Event) :
  g <> f -> fieldValue f (fst (json.store g v ev)) = fieldValue f ev.
Proof.
  intros H. unfold json.store.
  destruct v, (fieldValue g ev); cbn [fst]; try reflexivity.
  - apply fieldValue_setBool_other, H.
  - apply fieldValue_setString_other, H.
Qed.

Lemma store_error (f : FieldId) (v : json.Value) (ev : Event) :
  snd (json.store f v ev) = None <-> accepts f v = true.
Proof.
  unfold json.store, accepts.
  destruct ev, v, f; cbn; split; intros H; try reflexivity; discriminate.
Qed.

Lemma store_rejected (f : FieldId) (v : json.Value) (ev : Event) :
  v = json.Null \/ accepts f v = false -> fst (json.store f v ev) = ev.
Proof.
  unfold json.store, accepts.
  intros [->|H]; [reflexivity|].
  destruct ev, v, f; cbn in *; try reflexivity; discriminate.
Qed.

Lemma store_string (f : FieldId) (s : string) (ev : Event) :
  f <> fIsPublic -> fieldValue f (fst (json.store f (json.Str s) ev)) = KString s.
Proof. destruct ev, f; intros H; try reflexivity; contradiction. Qed.

Lemma store_bool (b : bool) (ev : Event) :
  fieldValue fIsPublic (fst (json.store fIsPublic (json.Bool b) ev)) = KBool b.
Proof. destruct ev; reflexivity. Qed.

Lemma object_cons (k : string) (v : json.Value) (ms : list (string * json.Value))
      (ev : Event) (saved : option error) :
  json.object ((k, v) :: ms) ev saved
  = match json.findField k with
    | None => json.object ms ev saved
    | Some f =>
      json.object ms (fst (json.store f v ev))
                  (match saved with
                   | Some _ => saved
                   | None => snd (json.store f v ev)
                   end)
    end.
Proof.
  cbn [json.object]. destruct (json.findField k); [|reflexivity].
  destruct (json.store f v ev); reflexivity.
Qed.

Lemma object_inert (f : FieldId) (ms : list (string * json.Value)) :
  Forall (inert f) ms ->
  forall ev saved,
    fieldValue f (fst (json.object ms ev saved)) = fieldValue f ev.
Proof.
  induction 1 as [|[k v] ms Hkv Hms IH]; intros ev saved; [reflexivity|].
  rewrite object_cons. unfold inert in Hkv. cbn [fst snd] in Hkv.
  destruct (json.findField k) as [g|]; [|apply IH].
  rewrite IH.
  destruct (FieldId_eq_dec g f) as [->|Hg]; [|apply store_other, Hg].
  rewrite store_rejected; [reflexivity | apply Hkv; reflexivity].
Qed.

Lemma object_app (ms1 ms2 : list (string * json.Value)) :
  forall ev saved,
    json.object (ms1 ++ ms2) ev saved
    = json.object ms2 (fst (json.object ms1 ev saved)) (snd (json.object ms1 ev saved)).
Proof.
  induction ms1 as [|[k v] ms1 IH]; intros ev saved; [reflexivity|].
  cbn [app]. rewrite !object_cons.
  destruct (json.findField k); apply IH.
Qed.

Lemma object_saved (ms : list (string * json.Value)) :
  forall ev e, snd (json.object ms ev (Some e)) = Some e.
Proof.
  induction ms as [|[k v] ms IH]; intros ev e; [reflexivity|].
  rewrite object_cons. destruct (json.findField k); apply IH.
Qed.

Lemma object_error (ms : list (string * json.Value)) :
  forall ev,
    snd (json.object ms ev None) = None <-> ~ Exists mistyped ms.
Proof.
  induction ms as [|[k v] ms IH]; intros ev.
  - split; [intros _ H; inversion H | reflexivity].
  - rewrite object_cons.
    destruct (json.findField k) as [f|] eqn:Hk.
    + destruct (snd (json.store f v ev)) as [e|] eqn:Hs.
      * rewrite object_saved. split; [discriminate|]. intros H. exfalso. apply H.
        constructor. exists f. split; [exact Hk|]. cbn [snd].
        destruct (accepts f v) eqn:Ha; [|reflexivity].
        apply (proj2 (store_error f v ev)) in Ha. congruence.
      * rewrite IH. apply (proj1 (store_error f v ev)) in Hs.
        split; intros H Hex; apply H.
        -- inversion Hex as [? ? (g & Hg & Ha)|]; subst; [|assumption].
           cbn [fst snd] in *. congruence.
        -- constructor 2. exact Hex.
    + rewrite IH. split; intros H Hex; apply H.
      * inversion Hex as [? ? (g & Hg & Ha)|]; subst; [|assumption].
        cbn [fst] in Hg. congruence.
      * constructor 2. exact Hex.
Qed.

Lemma mistyped_dec (kv : string * json.Value) : {mistyped kv} + {~ mistyped kv}.
Proof.
  destruct kv as [k v]. unfold mistyped. cbn [fst snd].
  destruct (json.findField k) as [f|].
  - destruct (accepts f v) eqn:Ha.
    + right. intros (g & Hg & Hg'). inversion Hg; subst. congruence.
    + left. exists f. auto.
  - right. intros (g & Hg & _). discriminate.
Qed.

Lemma object_rejects (ms : list (string * json.Value)) (ev : Event) :
  snd (json.object ms ev None) <> None <-> Exists mistyped ms.
Proof.
  pose proof (object_error ms ev) as H. split.
  - intros Hne.
    destruct (Exists_dec mistyped ms mistyped_dec) as [Hex|Hex]; [exact Hex|].
    exfalso. apply Hne, H, Hex.
  - intros Hex Hnone. apply H in Hnone. contradiction.
Qed.

Lemma members_parsed (data : string) :
  members data = match parsed data with
                 | Some (json.Obj ms) => Some ms
                 | _ => None
                 end.
Proof.
  unfold members, parsed.
  destruct (json.parseValue _ data) as [[v rest]|]; [|reflexivity].
  destruct v, (json.skipSpace rest); reflexivity.
Qed.

(** The decoder returns an error for the refused payloads and no other. *)
Lemma Unmarshal_refused (data : string) (ev : Event) :
  snd (json.Unmarshal data ev) <> None <-> refused data.
Proof.
  unfold json.Unmarshal, refused, parsed.
  destruct (json.parseValue _ data) as [[v rest]|];
    [|split; [intros _; exact I | intros _; discriminate]].
  destruct (json.skipSpace rest);
    [|split; [intros _; exact I | intros _; discriminate]].
  destruct v; cbn [snd];
    try (split; [intros _; exact I | intros _; discriminate]).
  - split; [intros H; apply H; reflexivity | intros []].
  - apply object_rejects.
Qed.

(** ** Undecodable payloads *)

(** C6, as stated, fails: the payload [null] is not a JSON object, let
    alone one of the wire schema, and [json.Unmarshal] accepts it, leaving
    the event blank.  The request is then validated, and what is published
    on the error topic is the serialized event with the message of the
    first check. *)
Lemma null_payload_is_validated :
  members "null" = None
  /\ json.Unmarshal "null" (New "network.create.aws" "null")
     = (New "network.create.aws" "null", None)
  /\ eventHandler quietCloud 0 (nats.mkMsg "network.create.aws" "null") []
     = (Returned tt,
        [Log "Error: Datacenter VPC ID invalid";
         Publish "network.create.aws.error"
           (dq "{'_uuid':'','_batch_id':'','_type':'','datacenter_region':'','datacenter_secret':'','datacenter_token':'','vpc_id':'','name':'','range':'','is_public':false,'availability_zone':'','error_message':'Datacenter VPC ID invalid'}")]).
Proof. repeat split; vm_compute; reflexivity. Qed.

(** C6, amended. The decoder returns an error exactly for the payloads
    that are not one JSON value, that are a JSON value other than an object
    and [null], or that are an object with a member naming a field with a
    value of another type.  Such a payload is published as it is, not a
    byte changed, on [<subject>.error], and nothing else happens: no log
    line, no error message attached, no cloud call.  Every other payload
    decodes; when validation then fails, what is published is the
    serialized event carrying the message. *)
Theorem undecodable_payload_republished_verbatim :
  forall cloud fuel m,
    let decode := json.Unmarshal (nats.Data m) (New (nats.Subject m) (nats.Data m)) in
    (snd decode <> None <-> refused (nats.Data m))
    /\ (refused (nats.Data m) ->
        eventHandler cloud fuel m []
        = (Returned tt, [Publish (nats.Subject m ++ ".error") (nats.Data m)]))
    /\ (~ refused (nats.Data m) ->
        snd decode = None
        /\ forall e,
             Validate (fst decode) = Some e ->
             exists n',
               ErrorMessage n' = e /\
               eventHandler cloud fuel m []
               = (Returned tt,
                  [Log ("Error: " ++ e);
                   Publish (nats.Subject m ++ ".error") (serialized n')])).
Proof.
  intros cloud fuel m decode.
  pose proof (Unmarshal_refused (nats.Data m) (New (nats.Subject m) (nats.Data m)))
    as Hiff.
  fold decode in Hiff.
  split; [exact Hiff|]. split.
  - intros Hr. apply Hiff in Hr.
    destruct decode as [n [e|]] eqn:Hd; [|cbn in Hr; contradiction].
    apply (eventHandler_undecoded cloud fuel m [] Hd).
  - intros Hr.
    destruct decode as [n [e|]] eqn:Hd.
    { exfalso. apply Hr, Hiff. discriminate. }
    split; [reflexivity|]. cbn [fst].
    intros e Hv. exists (failed n e). split.
    + unfold failed. destruct n; reflexivity.
    + apply (eventHandler_invalid cloud fuel m [] Hd Hv).
Qed.

Lemma undecodable_payload_republished_verbatim_witness :
  refused truncatedPayload
  /\ eventHandler quietCloud 0 (nats.mkMsg "network.create.aws" truncatedPayload) []
     = (Returned tt, [Publish "network.create.aws.error" truncatedPayload]).
Proof.
  assert (Hp : parsed truncatedPayload = None) by (vm_compute; reflexivity).
  assert (Hr : refused truncatedPayload) by (unfold refused; rewrite Hp; exact I).
  split; [exact Hr|].
  exact (proj1 (proj2 (undecodable_payload_republished_verbatim quietCloud 0
                         (nats.mkMsg "network.create.aws" truncatedPayload))) Hr).
Defined.

(** ** Creation *)

Lemma stored_fields (n : Event) (sn : ec2.Subnet) :
  NetworkAWSID (stored n sn) = ec2.SubnetId sn
  /\ AvailabilityZone (stored n sn) = ec2.AvailabilityZone sn
  /\ subject (stored n sn) = subject n.
Proof. destruct n; repeat split; reflexivity. Qed.

(** C5. A validated create request for a subnet that is not public makes
    one cloud call, create-subnet.  When it succeeds the subnet identifier
    and the availability zone the provider returned are stored in the event,
    which is published on [network.create.aws.done]; when it fails the
    error is published and nothing else is called. *)
Theorem private_create_calls_create_subnet_only :
  forall cloud fuel data n,
    json.Unmarshal data (New "network.create.aws" data) = (n, None) ->
    Validate n = None ->
    IsPublic n = false ->
    let m := nats.mkMsg "network.create.aws" data in
    let svc := newService n in
    let req := ec2.CreateSubnet (VPCID n) (Subnet n) (AvailabilityZone n) in
    (exists sn n',
        eventHandler cloud fuel m []
        = (Returned tt,
           [Call svc req (inl (ec2.SubnetOutput sn));
            Publish "network.create.aws.done" (serialized n')])
        /\ n' = stored n sn
        /\ NetworkAWSID n' = ec2.SubnetId sn
        /\ AvailabilityZone n' = ec2.AvailabilityZone sn)
    \/ (exists e,
        eventHandler cloud fuel m []
        = (Returned tt,
           [Call svc req (inr e);
            Log ("Error: " ++ e);
            Publish "network.create.aws.error" (serialized (failed n e))])).
Proof.
  intros cloud fuel data n Hd Hv Hp m svc req.
  assert (Hs : subject n = "network.create.aws")
    by (apply Unmarshal_meta in Hd as [Hs _]; exact Hs).
  rewrite (eventHandler_dispatch cloud fuel m (action := "create") [] Hd Hv eq_refl).
  unfold dispatch. cbn [String.eqb Ascii.eqb Bool.eqb].
  exec. rewrite Hp. fold svc req.
  destruct (onCreateSubnet cloud [] svc _ _ _) as [sn|e]; cbn.
  - left. exists sn, (stored n sn).
    destruct (stored_fields n sn) as (Hi & Hz & Hsub).
    fold (stored n sn). rewrite Hsub, Hs. auto.
  - right. exists e. rewrite Hs. reflexivity.
Qed.

(** The run of the test payload against a provider that accepts it. *)
Example private_create_run :
  eventHandler quietCloud 0 createRequest []
  = (Returned tt,
     [Call (ec2.mkEC2 "eu-west-1" (ec2.mkCredentials "key" "token" EmptyString))
           (ec2.CreateSubnet "vpc-0000000" "10.0.0.0/16" EmptyString)
           (inl (ec2.SubnetOutput (ec2.mkSubnet "subnet-1" "eu-west-1a")));
      Publish "network.create.aws.done"
        (dq "{'_uuid':'test','_batch_id':'test','_type':'aws','datacenter_region':'eu-west-1','datacenter_secret':'key','datacenter_token':'token','vpc_id':'vpc-0000000','network_aws_id':'subnet-1','name':'','range':'10.0.0.0/16','is_public':false,'availability_zone':'eu-west-1a'}")]).
Proof. vm_compute. reflexivity. Qed.

Lemma private_create_calls_create_subnet_only_witness :
  exists sn,
    eventHandler quietCloud 0 createRequest []
    = (Returned tt,
       [Call (newService (decoded "network.create.aws"))
             (ec2.CreateSubnet "vpc-0000000" "10.0.0.0/16" EmptyString)
             (inl (ec2.SubnetOutput sn));
        Publish "network.create.aws.done"
                (serialized (stored (decoded "network.create.aws") sn))]).
Proof.
  destruct (@private_create_calls_create_subnet_only quietCloud 0 expected
              (decoded "network.create.aws")
              (decode_expected "network.create.aws") eq_refl eq_refl)
    as [(sn & n' & Hrun & Hn' & _)|(e & Hrun)].
  - exists sn. rewrite <- Hn'. exact Hrun.
  - exfalso. pose proof private_create_run as Hx. unfold createRequest in Hx.
    cbn zeta in Hrun. rewrite Hx in Hrun. discriminate Hrun.
Defined.

(** C3. A validated create request for a public subnet always returns, and
    when no call fails its history is exactly: create-subnet; the gateway
    lookup filtered by the VPC id; create-gateway and attach-gateway if and
    only if the lookup found none; the route-table lookup filtered by the new
    subnet id; create-route-table and associate-route-table if and only if
    that lookup found none; create-route to 0.0.0.0/0 through the gateway;
    modify-subnet-attribute mapping public IPs on launch; and the done
    publication of the event with the subnet stored. *)
Theorem public_create_call_order :
  forall cloud fuel data n,
    json.Unmarshal data (New "network.create.aws" data) = (n, None) ->
    Validate n = None ->
    IsPublic n = true ->
    let m := nats.mkMsg "network.create.aws" data in
    let svc := newService n in
    exists h,
      eventHandler cloud fuel m [] = (Returned tt, h) /\
      (failure h = None ->
       exists sn gws gw rts rt,
         reused gws gw /\ reused rts rt /\
         h = [Call svc (ec2.CreateSubnet (VPCID n) (Subnet n) (AvailabilityZone n))
                   (inl (ec2.SubnetOutput sn));
              Call svc (gatewayLookup (VPCID n)) (inl (ec2.InternetGatewaysOutput gws))]
             ++ gatewaySteps svc (VPCID n) gws gw
             ++ [Call svc (routeTableLookup (ec2.SubnetId sn))
                      (inl (ec2.RouteTablesOutput rts))]
             ++ routeTableSteps svc (VPCID n) (ec2.SubnetId sn) rts rt
             ++ [Call svc (ec2.CreateRoute (ec2.RouteTableId rt) "0.0.0.0/0"
                                           (ec2.InternetGatewayId gw))
                      (inl ec2.NoOutput);
                 Call svc (ec2.ModifySubnetAttribute (ec2.SubnetId sn) true)
                      (inl ec2.NoOutput);
                 Publish "network.create.aws.done" (serialized (stored n sn))]).
Proof.
  intros cloud fuel data n Hd Hv Hp m svc.
  assert (Hs : subject n = "network.create.aws")
    by (apply Unmarshal_meta in Hd as [Hs _]; exact Hs).
  rewrite (eventHandler_dispatch cloud fuel m (action := "create") [] Hd Hv eq_refl).
  unfold dispatch. cbn [String.eqb Ascii.eqb Bool.eqb].
  exec. rewrite Hp. fold svc.
  repeat branch; cbn [respond app]; rewrite ?Hs;
    (eexists; split; [reflexivity|]); cbn [failure]; try discriminate; intros _.
  all: fold (stored n s);
    rewrite ?(proj2 (proj2 (stored_fields n s))), ?Hs.
  all: match goal with
       | |- context [Call _ (ec2.CreateRoute (ec2.RouteTableId ?r) _
                                             (ec2.InternetGatewayId ?i)) _] =>
         match goal with
         | |- context [ec2.InternetGatewaysOutput ?g] =>
           match goal with
           | |- context [ec2.RouteTablesOutput ?t] => exists s, g, i, t, r
           end
         end
       end; repeat split.
Qed.

(** The public request of the specification against a fresh VPC: the
    gateway and the route table are created. *)
Example public_create_run_fresh :
  let svc := ec2.mkEC2 "eu-west-1" (ec2.mkCredentials "key" "token" EmptyString) in
  eventHandler quietCloud 0 publicRequest []
  = (Returned tt,
     [Call svc (ec2.CreateSubnet "vpc-0000000" "10.0.0.0/16" EmptyString)
           (inl (ec2.SubnetOutput (ec2.mkSubnet "subnet-1" "eu-west-1a")));
      Call svc (ec2.DescribeInternetGateways
                  [ec2.mkFilter "attachment.vpc-id" ["vpc-0000000"]])
           (inl (ec2.InternetGatewaysOutput []));
      Call svc ec2.CreateInternetGateway
           (inl (ec2.InternetGatewayOutput (ec2.mkInternetGateway "igw-1")));
      Call svc (ec2.AttachInternetGateway "igw-1" "vpc-0000000") (inl ec2.NoOutput);
      Call svc (ec2.DescribeRouteTables
                  [ec2.mkFilter "association.subnet-id" ["subnet-1"]])
           (inl (ec2.RouteTablesOutput []));
      Call svc (ec2.CreateRouteTable "vpc-0000000")
           (inl (ec2.RouteTableOutput (ec2.mkRouteTable "rtb-1")));
      Call svc (ec2.AssociateRouteTable "rtb-1" "subnet-1") (inl ec2.NoOutput);
      Call svc (ec2.CreateRoute "rtb-1" "0.0.0.0/0" "igw-1") (inl ec2.NoOutput);
      Call svc (ec2.ModifySubnetAttribute "subnet-1" true) (inl ec2.NoOutput);
      Publish "network.create.aws.done"
        (dq "{'_uuid':'','_batch_id':'','_type':'','datacenter_region':'eu-west-1','datacenter_secret':'key','datacenter_token':'token','vpc_id':'vpc-0000000','network_aws_id':'subnet-1','name':'','range':'10.0.0.0/16','is_public':true,'availability_zone':'eu-west-1a'}")]).
Proof. vm_compute. reflexivity. Qed.

(** The same request when the VPC has its gateway and the subnet its route
    table: both are reused, the first of each list. *)
Example public_create_run_settled :
  let svc := ec2.mkEC2 "eu-west-1" (ec2.mkCredentials "key" "token" EmptyString) in
  eventHandler settledCloud 0 publicRequest []
  = (Returned tt,
     [Call svc (ec2.CreateSubnet "vpc-0000000" "10.0.0.0/16" EmptyString)
           (inl (ec2.SubnetOutput (ec2.mkSubnet "subnet-1" "eu-west-1a")));
      Call svc (ec2.DescribeInternetGateways
                  [ec2.mkFilter "attachment.vpc-id" ["vpc-0000000"]])
           (inl (ec2.InternetGatewaysOutput
                   [ec2.mkInternetGateway "igw-0"; ec2.mkInternetGateway "igw-9"]));
      Call svc (ec2.DescribeRouteTables
                  [ec2.mkFilter "association.subnet-id" ["subnet-1"]])
           (inl (ec2.RouteTablesOutput [ec2.mkRouteTable "rtb-0"]));
      Call svc (ec2.CreateRoute "rtb-0" "0.0.0.0/0" "igw-0") (inl ec2.NoOutput);
      Call svc (ec2.ModifySubnetAttribute "subnet-1" true) (inl ec2.NoOutput);
      Publish "network.create.aws.done"
        (dq "{'_uuid':'','_batch_id':'','_type':'','datacenter_region':'eu-west-1','datacenter_secret':'key','datacenter_token':'token','vpc_id':'vpc-0000000','network_aws_id':'subnet-1','name':'','range':'10.0.0.0/16','is_public':true,'availability_zone':'eu-west-1a'}")]).
Proof. vm_compute. reflexivity. Qed.

Lemma public_create_call_order_witness :
  let n := publicEvent "network.create.aws" in
  let svc := newService n in
  exists h,
    eventHandler settledCloud 0 publicRequest [] = (Returned tt, h) /\
    exists sn gws gw rts rt,
      reused gws gw /\ reused rts rt /\
      h = [Call svc (ec2.CreateSubnet (VPCID n) (Subnet n) (AvailabilityZone n))
                (inl (ec2.SubnetOutput sn));
           Call svc (gatewayLookup (VPCID n)) (inl (ec2.InternetGatewaysOutput gws))]
          ++ gatewaySteps svc (VPCID n) gws gw
          ++ [Call svc (routeTableLookup (ec2.SubnetId sn))
                   (inl (ec2.RouteTablesOutput rts))]
          ++ routeTableSteps svc (VPCID n) (ec2.SubnetId sn) rts rt
          ++ [Call svc (ec2.CreateRoute (ec2.RouteTableId rt) "0.0.0.0/0"
                                        (ec2.InternetGatewayId gw))
                   (inl ec2.NoOutput);
              Call svc (ec2.ModifySubnetAttribute (ec2.SubnetId sn) true)
                   (inl ec2.NoOutput);
              Publish "network.create.aws.done" (serialized (stored n sn))].
Proof.
  intros n svc.
  destruct (@public_create_call_order settledCloud 0 publicPayload n
              (decode_publicPayload "network.create.aws") eq_refl eq_refl)
    as (h & Hrun & Hshape).
  exists h. split; [exact Hrun|]. apply Hshape.
  pose proof public_create_run_settled as Hx. cbn zeta in Hx, Hrun.
  unfold publicRequest in Hx. rewrite Hx in Hrun.
  injection Hrun as <-. reflexivity.
Defined.

(** ** Deletion *)

(** C4. A validated delete request queries the network interfaces filtered
    by the subnet id; every query that finds interfaces is followed by a
    one-second sleep and another query, so after [fuel] such rounds the
    handler is still in the loop and nothing else has happened.  A query
    that fails ends the handler with that error published.  The first query
    that finds none is followed by delete-subnet, called once, whose error,
    if any, is published, and the done publication otherwise. *)
Theorem delete_waits_for_interfaces :
  forall cloud fuel data n,
    json.Unmarshal data (New "network.delete.aws" data) = (n, None) ->
    Validate n = None ->
    let m := nats.mkMsg "network.delete.aws" data in
    let svc := newService n in
    let id := NetworkAWSID n in
    exists found,
      Forall (fun nis => nis <> []) found /\
      length found <= fuel /\
      let w := rounds svc id found in
      ((length found = fuel /\ eventHandler cloud fuel m [] = (Running, w))
       \/ (exists e,
             eventHandler cloud fuel m []
             = (Returned tt,
                w ++ [Call svc (query id) (inr e);
                      Log ("Error: " ++ e);
                      Publish "network.delete.aws.error" (serialized (failed n e))]))
       \/ (exists e,
             eventHandler cloud fuel m []
             = (Returned tt,
                w ++ [Call svc (query id) (inl (ec2.NetworkInterfacesOutput []));
                      Call svc (ec2.DeleteSubnet id) (inr e);
                      Log ("Error: " ++ e);
                      Publish "network.delete.aws.error" (serialized (failed n e))]))
       \/ eventHandler cloud fuel m []
          = (Returned tt,
             w ++ [Call svc (query id) (inl (ec2.NetworkInterfacesOutput []));
                   Call svc (ec2.DeleteSubnet id) (inl ec2.NoOutput);
                   Publish "network.delete.aws.done" (serialized n)])).
Proof.
  intros cloud fuel data n Hd Hv m svc id.
  assert (Hs : subject n = "network.delete.aws")
    by (apply Unmarshal_meta in Hd as [Hs _]; exact Hs).
  rewrite (eventHandler_dispatch cloud fuel m (action := "delete") [] Hd Hv eq_refl).
  unfold dispatch. cbn [String.eqb Ascii.eqb Bool.eqb]. unfold bind.
  destruct (Delete_run cloud fuel n []) as (found & Hne & Hlen & Hrun).
  exists found. split; [assumption|]. split; [assumption|].
  cbn zeta in *. cbn [app] in Hrun. fold svc id in Hrun.
  destruct Hrun as [[Hl Hr]|[[e Hr]|[[u|e] Hr]]]; rewrite Hr; cbn; rewrite ?Hs.
  - left. split; [assumption | reflexivity].
  - right; left. exists e. rewrite <- app_assoc. reflexivity.
  - right; right; right. rewrite <- app_assoc. reflexivity.
  - right; right; left. exists e. rewrite <- app_assoc. reflexivity.
Qed.

(** A subnet with two interfaces that are gone at the third query. *)
Example delete_run_draining :
  let svc := ec2.mkEC2 "eu-west-1" (ec2.mkCredentials "key" "token" EmptyString) in
  let q := ec2.DescribeNetworkInterfaces [ec2.mkFilter "subnet-id" ["subnet-00000000"]] in
  let two := [ec2.mkNetworkInterface "eni-1"; ec2.mkNetworkInterface "eni-2"] in
  eventHandler drainingCloud 3 deleteRequest []
  = (Returned tt,
     [Call svc q (inl (ec2.NetworkInterfacesOutput two)); Sleep 1;
      Call svc q (inl (ec2.NetworkInterfacesOutput two)); Sleep 1;
      Call svc q (inl (ec2.NetworkInterfacesOutput []));
      Call svc (ec2.DeleteSubnet "subnet-00000000") (inl ec2.NoOutput);
      Publish "network.delete.aws.done" expected]).
Proof. vm_compute. reflexivity. Qed.

Lemma delete_waits_for_interfaces_witness :
  let n := decoded "network.delete.aws" in
  let svc := newService n in
  exists found,
    Forall (fun nis => nis <> []) found /\
    eventHandler drainingCloud 3 deleteRequest []
    = (Returned tt,
       rounds svc "subnet-00000000" found
       ++ [Call svc (query "subnet-00000000") (inl (ec2.NetworkInterfacesOutput []));
           Call svc (ec2.DeleteSubnet "subnet-00000000") (inl ec2.NoOutput);
           Publish "network.delete.aws.done" (serialized n)]).
Proof.
  intros n svc.
  pose proof delete_run_draining as Hx. cbn zeta in Hx. unfold deleteRequest in *.
  destruct (@delete_waits_for_interfaces drainingCloud 3 expected n
              (decode_expected "network.delete.aws") eq_refl)
    as (found & Hne & Hlen & Hrun).
  exists found. split; [exact Hne|]. cbn zeta in Hrun.
  destruct Hrun as [[_ Hr]|[[e Hr]|[[e Hr]|Hr]]].
  - rewrite Hx in Hr. discriminate Hr.
  - exfalso. rewrite Hx in Hr. injection Hr as Hr.
    destruct found as [|a [|b [|c found]]]; cbn in Hr;
      first [discriminate Hr | inversion Hr].
  - exfalso. rewrite Hx in Hr. injection Hr as Hr.
    destruct found as [|a [|b [|c found]]]; cbn in Hr;
      first [discriminate Hr | inversion Hr].
  - exact Hr.
Defined.

(** ** Dispatch *)

(** C9. When the payload decodes and validates and the second dot-segment
    of the subject is none of create, update, delete and get, no action
    runs and [err] stays nil: the handler makes no cloud call and publishes
    the serialized event on [<subject>.done]. *)
Theorem unrecognized_action_is_reported_done :
  forall cloud fuel m n action,
    json.Unmarshal (nats.Data m) (New (nats.Subject m) (nats.Data m)) = (n, None) ->
    Validate n = None ->
    actionOf (nats.Subject m) = Some action ->
    ~ In action ["create"; "update"; "delete"; "get"] ->
    eventHandler cloud fuel m []
    = (Returned tt, [Publish (nats.Subject m ++ ".done") (serialized n)]).
Proof.
  intros cloud fuel m n action Hd Hv Ha Hin.
  rewrite (eventHandler_dispatch cloud fuel m [] Hd Hv Ha).
  unfold dispatch.
  destruct (String.eqb_spec action "create"); [subst; cbn in Hin; tauto|].
  destruct (String.eqb_spec action "update"); [subst; cbn in Hin; tauto|].
  destruct (String.eqb_spec action "delete"); [subst; cbn in Hin; tauto|].
  destruct (String.eqb_spec action "get"); [subst; cbn in Hin; tauto|].
  cbn. apply Unmarshal_meta in Hd as [-> _]. reflexivity.
Qed.

Lemma unrecognized_action_is_reported_done_witness :
  eventHandler refusingCloud 0 (nats.mkMsg "network.list.aws" expected) []
  = (Returned tt, [Publish "network.list.aws.done" expected]).
Proof.
  refine (eq_trans
    (@unrecognized_action_is_reported_done refusingCloud 0
       (nats.mkMsg "network.list.aws" expected) (decoded "network.list.aws") "list"
       (decode_expected "network.list.aws") eq_refl eq_refl _) _).
  - cbn. intuition discriminate.
  - vm_compute. reflexivity.
Defined.

(** ** Every way a handled request ends *)

Lemma eventHandler_outcome (cloud : Cloud) (fuel : nat) (m : nats.Msg)
      (n : Event) (action : string) :
  json.Unmarshal (nats.Data m) (New (nats.Subject m) (nats.Data m)) = (n, None) ->
  actionOf (nats.Subject m) = Some action ->
  exists t,
    forallb silent t = true /\
    ((eventHandler cloud fuel m [] = (Running, t)
      /\ action = "delete" /\ Validate n = None
      /\ exists found,
           t = rounds (newService n) (NetworkAWSID n) found /\
           length found = fuel /\ Forall (fun nis => nis <> []) found)
     \/ (exists n',
           eventHandler cloud fuel m []
           = (Returned tt, t ++ [Publish (nats.Subject m ++ ".done") (serialized n')])
           /\ sameRequest n n' /\ Validate n = None
           /\ unsupported action = false /\ failure t = None)
     \/ (exists e,
           eventHandler cloud fuel m []
           = (Returned tt,
              t ++ [Log ("Error: " ++ e);
                    Publish (nats.Subject m ++ ".error") (serialized (failed n e))])
           /\ ((Validate n = Some e /\ t = [])
               \/ (Validate n = None /\ unsupported action = true /\ t = [] /\
                   e = (nats.Subject m ++ " not supported")%string)
               \/ (Validate n = None /\ unsupported action = false /\
                   failure t = Some e)))).
Proof.
  intros Hd Ha.
  assert (Hs : subject n = nats.Subject m)
    by (apply Unmarshal_meta in Hd as [Hs _]; exact Hs).
  destruct (Validate n) as [e|] eqn:Hv.
  { exists []. split; [reflexivity|]. right; right. exists e.
    rewrite (eventHandler_invalid cloud fuel m [] Hd Hv). auto. }
  rewrite (eventHandler_dispatch cloud fuel m [] Hd Hv Ha).
  destruct (dispatch_effects cloud fuel action n []) as (t & Ht & Hsil & Hout).
  exists t. split; [assumption|].
  destruct (dispatch cloud fuel action n []) as [[[n' err]|v|] h']; cbn in Ht, Hout;
    subst h'; cbn [respond].
  - destruct Hout as (Hsame & Herr & Hwhich).
    assert (Hs' : subject n' = nats.Subject m).
    { destruct Hsame as [->|[sn ->]]; [exact Hs|].
      rewrite (proj2 (proj2 (stored_fields n sn))). exact Hs. }
    rewrite Hs'.
    destruct err as [e|].
    + rewrite (Herr ltac:(discriminate)). right; right. exists e.
      split; [reflexivity|]. right.
      destruct (unsupported action).
      * left. destruct Hwhich as [-> He]. inversion He; subst. rewrite Hs. auto.
      * right. auto.
    + right; left. exists n'. split; [reflexivity|].
      destruct (unsupported action); [destruct Hwhich; discriminate | auto].
  - contradiction.
  - left. destruct Hout as [-> Hf]. auto.
Qed.

(** ** The credentials in the published event *)

Opaque json.appendString.

Lemma structEncoder_three (fs1 : list json.field) (a b c : json.field)
      (fs2 : list json.field) :
  json.omitEmpty a = false -> json.omitEmpty b = false -> json.omitEmpty c = false ->
  forall next data,
    json.structEncoder next (fs1 ++ a :: b :: c :: fs2) = inl data ->
    exists pre post va vb vc,
      json.encodeValue (json.value a) = inl va /\
      json.encodeValue (json.value b) = inl vb /\
      json.encodeValue (json.value c) = inl vc /\
      data = (pre ++ (member (json.name a) va ++ "," ++ member (json.name b) vb
                      ++ "," ++ member (json.name c) vc) ++ post)%string.
Proof.
  intros Ha Hb Hc. induction fs1 as [|f fs1 IH]; intros next data.
  - cbn [app json.structEncoder]. rewrite Ha, Hb, Hc. cbn [andb].
    destruct (json.encodeValue (json.value a)) as [va|]; [|discriminate].
    destruct (json.encodeValue (json.value b)) as [vb|]; [|discriminate].
    destruct (json.encodeValue (json.value c)) as [vc|]; [|discriminate].
    destruct (json.structEncoder "," fs2) as [rest|]; [|discriminate].
    intros H. inversion H; subst; clear H.
    exists (str1 next), rest, va, vb, vc. repeat split.
    unfold member, str1. cbn [append]. f_equal.
    repeat (rewrite append_assoc || cbn [append]). reflexivity.
  - cbn [app json.structEncoder].
    destruct (json.omitEmpty f && json.isEmptyValue (json.value f)); [apply IH|].
    destruct (json.encodeValue (json.value f)) as [v|]; [|discriminate].
    destruct (json.structEncoder "," (fs1 ++ a :: b :: c :: fs2)) as [rest|] eqn:Hr;
      [|discriminate].
    intros H. inversion H; subst; clear H.
    destruct (IH _ _ Hr) as (pre & post & va & vb & vc & Ea & Eb & Ec & ->).
    exists (String next (json.appendString (json.name f) ++ ":" ++ v ++ pre))%string,
           post, va, vb, vc.
    repeat split; try assumption.
    cbn [append]. f_equal. repeat (rewrite append_assoc || cbn [append]).
    reflexivity.
Qed.

Lemma serialized_credentials (ev : Event) :
  exists pre post, serialized ev = (pre ++ credentials ev ++ post)%string.
Proof.
  pose proof (Marshal_serialized ev) as Hm.
  unfold json.Marshal, json.fields in Hm.
  change allFields with ([fUUID; fBatchID; fProviderType]
    ++ fDatacenterRegion :: fDatacenterAccessKey :: fDatacenterAccessToken
    :: [fVPCID; fNetworkAWSID; fName; fSubnet; fIsPublic; fAvailabilityZone;
        fErrorMessage]) in Hm.
  rewrite map_app in Hm. cbn [map] in Hm.
  apply structEncoder_three in Hm; try reflexivity.
  destruct Hm as (pre & post & va & vb & vc & Ea & Eb & Ec & Hdata).
  cbn [json.value json.name fieldValue tagName json.encodeValue] in *.
  inversion Ea; inversion Eb; inversion Ec; subst va vb vc.
  exists pre, post. exact Hdata.
Qed.

Transparent json.appendString.

Lemma credentials_failed (n : Event) (e : error) :
  credentials (failed n e) = credentials n.
Proof. destruct n; reflexivity. Qed.

Lemma credentials_sameRequest (n n' : Event) :
  sameRequest n n' -> credentials n' = credentials n.
Proof. intros [->|[sn ->]]; [reflexivity | destruct n; reflexivity]. Qed.

Lemma In_silent_Publish (t : History) (subj data : string) :
  forallb silent t = true -> ~ In (Publish subj data) t.
Proof.
  intros Hs Hin. rewrite forallb_forall in Hs. apply Hs in Hin. discriminate.
Qed.

(** C10. Whenever the payload decodes, the data of every publication of
    the handler, done or error, contains the members [datacenter_region],
    [datacenter_secret] and [datacenter_token] with the JSON strings of the
    values the request carried: no action changes them and none of them is
    omitted when empty. *)
Theorem credentials_echoed_in_every_outcome :
  forall cloud fuel m n subj data,
    json.Unmarshal (nats.Data m) (New (nats.Subject m) (nats.Data m)) = (n, None) ->
    In (Publish subj data) (snd (eventHandler cloud fuel m [])) ->
    exists pre post, data = (pre ++ credentials n ++ post)%string.
Proof.
  intros cloud fuel m n subj data Hd Hin.
  destruct (actionOf (nats.Subject m)) as [action|] eqn:Ha.
  - destruct (eventHandler_outcome cloud fuel m Hd Ha) as (t & Hs & Hrun).
    pose proof (@In_silent_Publish t subj data Hs) as Hno.
    destruct Hrun as [(Hr & _)|[(n' & Hr & Hsame & _)|(e & Hr & _)]];
      rewrite Hr in Hin; cbn [snd] in Hin.
    + contradiction.
    + apply in_app_or in Hin as [Hin|[Hin|[]]]; [contradiction|].
      inversion Hin; subst.
      rewrite <- (credentials_sameRequest Hsame). apply serialized_credentials.
    + apply in_app_or in Hin as [Hin|[Hin|[Hin|[]]]];
        [contradiction | discriminate |].
      inversion Hin; subst.
      rewrite <- (credentials_failed n e). apply serialized_credentials.
  - destruct (Validate n) as [e|] eqn:Hv.
    + rewrite (eventHandler_invalid cloud fuel m [] Hd Hv) in Hin.
      destruct Hin as [Hin|[Hin|[]]]; [discriminate|].
      inversion Hin; subst.
      rewrite <- (credentials_failed n e). apply serialized_credentials.
    + rewrite (eventHandler_no_action cloud fuel m [] Hd Hv Ha) in Hin.
      destruct Hin.
Qed.

Lemma credentials_echoed_in_every_outcome_witness :
  exists pre post,
    (dq "{'_uuid':'','_batch_id':'','_type':'','datacenter_region':'eu-west-1','datacenter_secret':'key','datacenter_token':'token','vpc_id':'vpc-0000000','network_aws_id':'subnet-1','name':'','range':'10.0.0.0/16','is_public':true,'availability_zone':'eu-west-1a'}")
    = (pre ++ dq "'datacenter_region':'eu-west-1','datacenter_secret':'key','datacenter_token':'token'"
           ++ post)%string.
Proof.
  refine (@credentials_echoed_in_every_outcome quietCloud 0 publicRequest
            (publicEvent "network.create.aws") "network.create.aws.done" _
            (decode_publicPayload "network.create.aws") _).
  pose proof public_create_run_fresh as Hx. cbn zeta in Hx. rewrite Hx.
  cbn [snd]. do 9 right. left. reflexivity.
Defined.

(** ** One publication per request *)

Lemma failure_app (t r : History) :
  failure (t ++ r) = match failure t with Some e => Some e | None => failure r end.
Proof.
  induction t as [|x t IH]; [reflexivity|].
  destruct x as [svc req [o|e]| | |]; cbn; auto.
Qed.

(** The observation of a delete request whose subnet keeps its interface. *)
Lemma busy_wait (svc : ec2.EC2) (id : string) (fuel : nat) :
  forall h,
    waitForInterfaceRemoval busyCloud fuel svc id h
    = (Running,
       h ++ rounds svc id (repeat [ec2.mkNetworkInterface "eni-1"] fuel)).
Proof.
  induction fuel as [|fuel IH]; intros h.
  - cbn. rewrite app_nil_r. reflexivity.
  - cbn [waitForInterfaceRemoval]. exec. cbn. rewrite IH.
    rewrite <- !app_assoc. reflexivity.
Qed.

(** C1, as stated, fails: against a provider where the subnet keeps an
    interface, the validated delete request of the tests is still polling
    after any number of rounds and has published nothing. *)
Lemma busy_delete_never_publishes :
  Validate (decoded "network.delete.aws") = None
  /\ forall fuel,
       exists h,
         eventHandler busyCloud fuel deleteRequest [] = (Running, h)
         /\ publications h = [].
Proof.
  split; [reflexivity|]. intros fuel.
  unfold deleteRequest.
  rewrite (eventHandler_dispatch busyCloud fuel
             (nats.mkMsg "network.delete.aws" expected) (action := "delete") []
             (decode_expected "network.delete.aws") eq_refl eq_refl).
  unfold dispatch. cbn [String.eqb Ascii.eqb Bool.eqb].
  unfold Delete, bind. rewrite busy_wait. cbn [respond app].
  eexists. split; [reflexivity|].
  apply publications_silent, silent_rounds.
Qed.

(** C1, amended. For a message whose subject has an action segment, the
    handler never panics; when it returns, exactly one publication has been
    made, on [<subject>.done] or on [<subject>.error]; and it can only be
    found still running in the poll loop of a delete request, every query
    so far having found interfaces and nothing having been published. *)
Theorem one_publication_when_handler_returns :
  forall cloud fuel m action,
    actionOf (nats.Subject m) = Some action ->
    match eventHandler cloud fuel m [] with
    | (Returned _, h) =>
      exists data,
        publications h = [((nats.Subject m ++ ".done")%string, data)]
        \/ publications h = [((nats.Subject m ++ ".error")%string, data)]
    | (Running, h) =>
      action = "delete" /\ publications h = [] /\
      exists n found,
        h = rounds (newService n) (NetworkAWSID n) found /\
        length found = fuel /\ Forall (fun nis => nis <> []) found
    | (Panicked _, _) => False
    end.
Proof.
  intros cloud fuel m action Ha.
  destruct (json.Unmarshal (nats.Data m) (New (nats.Subject m) (nats.Data m)))
    as [n [e|]] eqn:Hd.
  { rewrite (eventHandler_undecoded cloud fuel m [] Hd).
    exists (nats.Data m). right. reflexivity. }
  destruct (eventHandler_outcome cloud fuel m Hd Ha) as (t & Hs & Hrun).
  pose proof (publications_silent t Hs) as Hp.
  destruct Hrun as [(Hr & Hdel & _ & found & Ht & Hl & Hne)
                   |[(n' & Hr & _)|(e & Hr & _)]]; rewrite Hr.
  - split; [assumption|]. split; [assumption|]. exists n, found. auto.
  - exists (serialized n'). left. rewrite publications_app, Hp. reflexivity.
  - exists (serialized (failed n e)). right. rewrite publications_app, Hp. reflexivity.
Qed.

Lemma one_publication_when_handler_returns_witness :
  exists data,
    publications (snd (eventHandler quietCloud 0 publicRequest []))
    = [("network.create.aws.done", data)]
    \/ publications (snd (eventHandler quietCloud 0 publicRequest []))
       = [("network.create.aws.error", data)].
Proof.
  pose proof (@one_publication_when_handler_returns quietCloud 0 publicRequest
                "create" eq_refl) as H.
  pose proof public_create_run_fresh as Hx. cbn zeta in Hx.
  rewrite Hx in H |- *. exact H.
Defined.

(** ** The worker survives every request *)

Lemma eventHandler_step (cloud : Cloud) (fuel : nat) (m : nats.Msg)
      (h : History) (action : string) :
  actionOf (nats.Subject m) = Some action ->
  match eventHandler cloud fuel m h with
  | (Returned _, h') => exists p, publications h' = publications h ++ [p]
  | (Running, h') => publications h' = publications h
  | (Panicked _, _) => False
  end.
Proof.
  intros Ha.
  destruct (json.Unmarshal (nats.Data m) (New (nats.Subject m) (nats.Data m)))
    as [n [e|]] eqn:Hd.
  { rewrite (eventHandler_undecoded cloud fuel m h Hd).
    eexists. rewrite publications_app. reflexivity. }
  destruct (Validate n) as [e|] eqn:Hv.
  { rewrite (eventHandler_invalid cloud fuel m h Hd Hv).
    eexists. rewrite publications_app. reflexivity. }
  rewrite (eventHandler_dispatch cloud fuel m h Hd Hv Ha).
  destruct (dispatch_effects cloud fuel action n h) as (t & Ht & Hsil & Hout).
  pose proof (publications_silent t Hsil) as Hp.
  destruct (dispatch cloud fuel action n h) as [[[n' [e|]]|v|] h']; cbn in Ht, Hout;
    subst h'; cbn [respond]; rewrite ?publications_app, ?Hp, ?app_nil_r.
  - eexists. cbn. reflexivity.
  - eexists. cbn. reflexivity.
  - contradiction.
  - reflexivity.
Qed.

Lemma subscribed_action (subj : string) :
  In subj events -> exists action, actionOf subj = Some action.
Proof. intros [<-|[<-|[]]]; eexists; reflexivity. Qed.

(** A handler that is still running is the handler of a delete request, in
    the poll loop, and it has published nothing. *)
Lemma eventHandler_polling (cloud : Cloud) (fuel : nat) (m : nats.Msg)
      (h h' : History) :
  In (nats.Subject m) events ->
  eventHandler cloud fuel m h = (Running, h') ->
  nats.Subject m = "network.delete.aws" /\ publications h' = publications h.
Proof.
  intros Hm Hrun.
  destruct (subscribed_action Hm) as [action Ha].
  pose proof (eventHandler_step cloud fuel m h Ha) as Hstep.
  rewrite Hrun in Hstep. split; [|exact Hstep].
  destruct Hm as [Hs|[Hs|[]]]; [|symmetry; exact Hs].
  exfalso.
  destruct (json.Unmarshal (nats.Data m) (New (nats.Subject m) (nats.Data m)))
    as [n [e|]] eqn:Hd.
  { rewrite (eventHandler_undecoded cloud fuel m h Hd) in Hrun. discriminate Hrun. }
  destruct (Validate n) as [e|] eqn:Hv.
  { rewrite (eventHandler_invalid cloud fuel m h Hd Hv) in Hrun. discriminate Hrun. }
  rewrite <- Hs in Ha. cbn in Ha. inversion Ha; subst action.
  rewrite (eventHandler_dispatch cloud fuel m (action := "create") h Hd Hv) in Hrun
    by (rewrite <- Hs; reflexivity).
  destruct (dispatch_effects cloud fuel "create" n h) as (t & _ & _ & Hout).
  destruct (dispatch cloud fuel "create" n h) as [[[n' [e|]]|v|] h1];
    cbn [respond] in Hrun; try discriminate Hrun.
  cbn [fst] in Hout. destruct Hout as [Hdel _]. discriminate Hdel.
Qed.

(** C8, as stated, fails: with a subnet that keeps an interface, the
    validated delete request of the tests is still in its poll loop after
    any number of rounds, and the request received after it on the same
    subscription has not been handled: nothing has been published for
    either. *)
Lemma busy_delete_holds_up_the_next_request :
  Forall (fun m => In (nats.Subject m) events) [deleteRequest; deleteRequest]
  /\ Validate (decoded "network.delete.aws") = None
  /\ forall fuel,
       exists h,
         serve busyCloud fuel [deleteRequest; deleteRequest] [] = (Running, h)
         /\ publications h = [].
Proof.
  split; [repeat (apply Forall_cons; [right; left; reflexivity|]); apply Forall_nil|].
  split; [reflexivity|]. intros fuel.
  cbn [serve]. unfold bind at 1. unfold deleteRequest.
  rewrite (eventHandler_dispatch busyCloud fuel
             (nats.mkMsg "network.delete.aws" expected) (action := "delete") []
             (decode_expected "network.delete.aws") eq_refl eq_refl).
  unfold dispatch. cbn [String.eqb Ascii.eqb Bool.eqb].
  unfold Delete, bind. rewrite busy_wait. cbn [respond app].
  eexists. split; [reflexivity|].
  apply publications_silent, silent_rounds.
Qed.

(** C8, amended. Serializing an event cannot fail, so [Error] always
    returns and its panic branch is never taken.  Handling any sequence of
    messages received on the subscribed subjects never panics, whatever the
    payloads and the provider's answers.  When it returns, every message
    has had its one publication.  When it has not returned, it is in the
    poll loop of a delete request: every message before that one has had
    its publication, and neither that one nor any after it has one; this
    is the only way a request holds up the ones that follow.  Every error
    of a request is surfaced on its error topic: an undecodable payload as
    the payload itself, a validation error, an unsupported operation and a
    failed cloud call as the event carrying the message. *)
Theorem failed_requests_do_not_stop_the_worker :
  (forall ev, exists data, json.Marshal ev = inl data)
  /\ (forall ev e h, exists ev' h', Error ev e h = (Returned ev', h'))
  /\ (forall cloud fuel ms h,
        Forall (fun m => In (nats.Subject m) events) ms ->
        match serve cloud fuel ms h with
        | (Returned _, h') =>
          length (publications h') = length (publications h) + length ms
        | (Running, h') =>
          exists ms1 m ms2 h1,
            ms = ms1 ++ m :: ms2
            /\ nats.Subject m = "network.delete.aws"
            /\ serve cloud fuel ms1 h = (Returned tt, h1)
            /\ eventHandler cloud fuel m h1 = (Running, h')
            /\ length (publications h') = length (publications h) + length ms1
        | (Panicked _, _) => False
        end)
  /\ (forall cloud fuel m action h n derr,
        actionOf (nats.Subject m) = Some action ->
        eventHandler cloud fuel m [] = (Returned tt, h) ->
        json.Unmarshal (nats.Data m) (New (nats.Subject m) (nats.Data m)) = (n, derr) ->
        let topic := (nats.Subject m ++ ".error")%string in
        match derr with
        | Some _ => publications h = [(topic, nats.Data m)]
        | None =>
          (forall e, Validate n = Some e ->
                     publications h = [(topic, serialized (failed n e))])
          /\ (Validate n = None -> unsupported action = true ->
              publications h
              = [(topic, serialized (failed n (nats.Subject m ++ " not supported")%string))])
          /\ (forall e, Validate n = None -> failure h = Some e ->
                        publications h = [(topic, serialized (failed n e))])
        end).
Proof.
  split; [exact Marshal_total|]. split; [|split].
  - intros ev e h. rewrite Error_run. eauto.
  - intros cloud fuel ms. induction ms as [|m ms IH]; intros h Hall.
    + cbn. lia.
    + inversion Hall as [|m' ms' Hm Hms]; subst.
      destruct (subscribed_action Hm) as [action Ha].
      cbn [serve]. unfold bind.
      pose proof (eventHandler_step cloud fuel m h Ha) as Hstep.
      destruct (eventHandler cloud fuel m h) as [[[]|v|] h1] eqn:Hrun.
      * destruct Hstep as [p Hp]. specialize (IH h1 Hms).
        destruct (serve cloud fuel ms h1) as [[[]|v|] h2] eqn:Hrest.
        -- rewrite IH, Hp, length_app. cbn. lia.
        -- exact IH.
        -- destruct IH as (ms1 & m0 & ms2 & h0 & -> & Hsub & Hs1 & Hm0 & Hlen).
           exists (m :: ms1), m0, ms2, h0.
           split; [reflexivity|]. split; [exact Hsub|].
           split; [cbn [serve]; unfold bind; rewrite Hrun; exact Hs1|].
           split; [exact Hm0|].
           rewrite Hlen, Hp, length_app. cbn. lia.
      * contradiction.
      * destruct (eventHandler_polling cloud fuel m h Hm Hrun) as [Hsub Hpub].
        exists [], m, ms, h.
        split; [reflexivity|]. split; [exact Hsub|].
        split; [reflexivity|]. split; [exact Hrun|].
        rewrite Hpub. cbn. lia.
  - intros cloud fuel m action h n derr Ha Hrun Hd topic.
    destruct derr as [e|].
    { rewrite (eventHandler_undecoded cloud fuel m [] Hd) in Hrun.
      inversion Hrun; subst. reflexivity. }
    destruct (eventHandler_outcome cloud fuel m Hd Ha) as (t & Hs & Hout).
    pose proof (publications_silent t Hs) as Hp.
    destruct Hout as [(Hr & _)|[(n' & Hr & _ & Hv & Hu & Hf)|(e & Hr & Hwhy)]];
      rewrite Hr in Hrun; inversion Hrun; subst; clear Hrun.
    + repeat split.
      * intros e He. congruence.
      * intros _ Hu'. congruence.
      * intros e _ He. rewrite failure_app, Hf in He. discriminate He.
    + rewrite publications_app, Hp. cbn [app publications flat_map].
      subst topic.
      destruct Hwhy as [[Hv ->]|[(Hv & Hu & -> & ->)|(Hv & Hu & Hf)]];
        repeat split; intros; try congruence;
        match goal with
        | H : failure _ = Some _ |- _ =>
          rewrite failure_app in H; cbn in H; rewrite ?Hf in H; congruence
        end.
Qed.

Lemma failed_requests_do_not_stop_the_worker_witness :
  exists h,
    serve refusingCloud 1 mixedTraffic [] = (Returned tt, h)
    /\ length (publications h) = 4.
Proof.
  assert (Hsub : Forall (fun m => In (nats.Subject m) events) mixedTraffic)
    by (repeat constructor; cbn; auto).
  pose proof (proj1 (proj2 (proj2 failed_requests_do_not_stop_the_worker))
                refusingCloud 1 mixedTraffic [] Hsub) as H.
  destruct (serve refusingCloud 1 mixedTraffic []) as [[[]|v|] h] eqn:Hr.
  - exists h. split; [reflexivity | exact H].
  - contradiction.
  - exfalso. vm_compute in Hr. discriminate Hr.
Defined.

(** What the four requests publish. *)
Example mixed_traffic_publications :
  map fst (publications (snd (serve refusingCloud 1 mixedTraffic [])))
  = ["network.create.aws.error"; "network.create.aws.error";
     "network.create.aws.error"; "network.delete.aws.done"].
Proof. vm_compute. reflexivity. Qed.

(** ** Decoding what [json.Marshal] wrote *)

Lemma skip_length (n : nat) (s : string) :
  String.length (skip n s) = String.length s - n.
Proof.
  revert s. induction n as [|n IH]; intros [|c s]; cbn; auto.
Qed.

Lemma take_length (n : nat) (s : string) :
  n <= String.length s -> String.length (take n s) = n.
Proof.
  revert s. induction n as [|n IH]; intros [|c s]; cbn; intros H;
    try reflexivity; try lia.
  rewrite IH; [reflexivity | lia].
Qed.

Lemma skip_take_append (n : nat) (s t : string) :
  n <= String.length s -> skip n (take n s ++ t) = t.
Proof.
  revert s. induction n as [|n IH]; intros [|c s]; cbn; intros H;
    try reflexivity; try lia.
  apply IH. lia.
Qed.

Lemma length_append (a b : string) :
  String.length (a ++ b) = String.length a + String.length b.
Proof. induction a as [|c a IH]; cbn; [reflexivity | now rewrite IH]. Qed.

(** *** Facts of UTF-8 decoding *)

Ltac split_ifs :=
  repeat match goal with
         | |- context [if ?b then _ else _] => destruct b eqn:?
         | H : context [if ?b then _ else _] |- _ => destruct b eqn:?
         end.

Lemma DecodeRune_size (c : ascii) (rest : string) :
  let size := snd (utf8.DecodeRune (String c rest)) in
  1 <= size /\ size <= 4 /\ size <= String.length (String c rest).
Proof.
  cbn zeta. unfold utf8.DecodeRune.
  destruct rest as [|c1 [|c2 [|c3 rest]]]; split_ifs; cbn; lia.
Qed.

(** Only an ill-formed sequence has a multi-byte lead and width one. *)
Lemma DecodeRune_width_one (c : ascii) (rest : string) :
  (byte c <? utf8.RuneSelf)%N = false ->
  snd (utf8.DecodeRune (String c rest)) = 1 ->
  fst (utf8.DecodeRune (String c rest)) = utf8.RuneError.
Proof.
  intros Hc. unfold utf8.DecodeRune. rewrite Hc.
  destruct rest as [|c1 [|c2 [|c3 rest]]]; split_ifs; cbn; intros H;
    try reflexivity; discriminate H.
Qed.

(** A well-formed sequence decodes the same whatever follows it. *)
Lemma DecodeRune_local (c : ascii) (rest t : string) :
  let (r, size) := utf8.DecodeRune (String c rest) in
  size <> 1 ->
  utf8.DecodeRune (take size (String c rest) ++ t) = (r, size).
Proof.
  unfold utf8.DecodeRune.
  destruct rest as [|c1 [|c2 [|c3 rest]]]; cbn [take append];
    split_ifs; intros H; try congruence; cbn [take append];
    repeat match goal with
           | E : ?b = _ |- context [?b] => rewrite E
           end;
    reflexivity.
Qed.

(** *** One rune through the encoder and the decoder *)

Lemma high_byte (c : ascii) :
  (byte c <? utf8.RuneSelf)%N = false ->
  Ascii.eqb c quote = false /\ Ascii.eqb c backslash = false
  /\ (byte c <? 32)%N = false.
Proof.
  destruct c as [[] [] [] [] [] [] [] []]; vm_compute; intros H;
    first [discriminate H | auto].
Qed.

Lemma unquoteRune_appendRune_ascii (c : ascii) (rest t : string) :
  (byte c <? utf8.RuneSelf)%N = true ->
  exists c' t',
    (fst (json.appendRune c rest) ++ t)%string = String c' t'
    /\ Ascii.eqb c' quote = false
    /\ json.unquoteRune c' t' = Some (str1 c, t)
    /\ snd (json.appendRune c rest) = 1
    /\ 1 <= String.length (fst (json.appendRune c rest)).
Proof.
  unfold json.appendRune. intros Hc. rewrite Hc. cbn [fst snd].
  destruct c as [[] [] [] [] [] [] [] []]; try (vm_compute in Hc; discriminate Hc);
    clear Hc; do 2 eexists; (split; [cbn; reflexivity|]);
    (split; [reflexivity|]); (split; [reflexivity|]); (split; [reflexivity|]);
    cbn; lia.
Qed.

Lemma unquoteRune_appendRune_high (c : ascii) (rest t : string) :
  (byte c <? utf8.RuneSelf)%N = false ->
  exists c' t',
    (fst (json.appendRune c rest) ++ t)%string = String c' t'
    /\ Ascii.eqb c' quote = false
    /\ json.unquoteRune c' t'
       = Some (utf8.EncodeRune (fst (utf8.DecodeRune (String c rest))), t)
    /\ snd (json.appendRune c rest) = snd (utf8.DecodeRune (String c rest))
    /\ snd (utf8.DecodeRune (String c rest))
       <= String.length (fst (json.appendRune c rest)).
Proof.
  intros Hc. unfold json.appendRune. rewrite Hc.
  pose proof (DecodeRune_size c rest) as Hsize.
  pose proof (DecodeRune_width_one c rest Hc) as Hone.
  pose proof (DecodeRune_local c rest t) as Hloc.
  destruct (utf8.DecodeRune (String c rest)) as [r size]. cbn [fst snd] in *.
  destruct ((r =? utf8.RuneError)%N && Nat.eqb size 1) eqn:Hbad.
  { apply andb_prop in Hbad as [Hr Hs]. apply N.eqb_eq in Hr. subst r.
    apply Nat.eqb_eq in Hs. subst size.
    do 2 eexists. cbn [fst snd]. split; [cbn; reflexivity|].
    repeat split; try reflexivity. cbn. lia. }
  destruct ((r =? 8232)%N || (r =? 8233)%N) eqn:Hsep.
  { apply orb_prop in Hsep as [Hr|Hr]; apply N.eqb_eq in Hr; subst r;
      do 2 eexists; cbn [fst snd]; (split; [cbn; reflexivity|]);
      repeat split; try reflexivity; cbn; lia. }
  assert (Hn1 : size <> 1).
  { intros ->. rewrite (Hone eq_refl) in Hbad. discriminate Hbad. }
  specialize (Hloc Hn1).
  destruct size as [|size']; [lia|].
  cbn [take append fst snd String.length] in *.
  destruct (high_byte c Hc) as (Hq & Hb & Hctl).
  exists c, (take size' rest ++ t)%string.
  split; [reflexivity|]. split; [exact Hq|].
  split.
  - unfold json.unquoteRune. rewrite Hb, Hctl, Hc, Hloc.
    cbn [skip]. rewrite skip_take_append by lia. reflexivity.
  - split; [reflexivity|]. cbn [String.length].
    rewrite take_length by lia. lia.
Qed.

(** Both halves together: what the encoder writes for the rune at the head
    of a string, the decoder reads back as the coerced rune. *)
Lemma unquoteRune_appendRune (c : ascii) (rest t : string) :
  exists c' t',
    (fst (json.appendRune c rest) ++ t)%string = String c' t'
    /\ Ascii.eqb c' quote = false
    /\ json.unquoteRune c' t' = Some (fst (coerceRune c rest), t)
    /\ snd (json.appendRune c rest) = snd (coerceRune c rest)
    /\ 1 <= snd (coerceRune c rest)
    /\ snd (coerceRune c rest) <= String.length (fst (json.appendRune c rest))
    /\ snd (coerceRune c rest) <= String.length (String c rest).
Proof.
  unfold coerceRune.
  destruct (byte c <? utf8.RuneSelf)%N eqn:Hc.
  - destruct (unquoteRune_appendRune_ascii c rest t Hc)
      as (c' & t' & H1 & H2 & H3 & H4 & H5).
    exists c', t'. cbn [fst snd String.length]. repeat split; auto; lia.
  - destruct (unquoteRune_appendRune_high c rest t Hc)
      as (c' & t' & H1 & H2 & H3 & H4 & H5).
    pose proof (DecodeRune_size c rest) as Hsize.
    exists c', t'.
    destruct (utf8.DecodeRune (String c rest)) as [r size].
    cbn [fst snd] in *. repeat split; auto; lia.
Qed.

(** *** A whole string *)

Lemma appendRunes_length (n : nat) :
  forall s, String.length s <= n ->
            String.length s <= String.length (json.appendRunes n s).
Proof.
  induction n as [|n IH]; intros [|c rest] Hn; cbn [String.length] in *; try lia.
  cbn [json.appendRunes].
  destruct (unquoteRune_appendRune c rest EmptyString)
    as (_ & _ & _ & _ & _ & Hsz & H1 & Hout & Hle).
  destruct (json.appendRune c rest) as [out size]. cbn [fst snd] in *.
  rewrite length_append.
  specialize (IH (skip size (String c rest))).
  rewrite skip_length in IH. cbn [String.length] in *. lia.
Qed.

Lemma unquoteRunes_appendRunes (n : nat) :
  forall s t f,
    String.length s <= n -> n < f ->
    json.unquoteRunes f (json.appendRunes n s ++ String quote t)
    = Some (coerceRunes n s, t).
Proof.
  induction n as [|n IH]; intros s t f Hn Hf.
  - destruct s; [|cbn in Hn; lia]. destruct f; [lia|]. reflexivity.
  - destruct f as [|f]; [lia|].
    destruct s as [|c rest]; [reflexivity|].
    cbn [json.appendRunes coerceRunes].
    destruct (unquoteRune_appendRune c rest
                (json.appendRunes n (skip (snd (json.appendRune c rest))
                                          (String c rest)) ++ String quote t))
      as (c' & t' & Hhead & Hq & Hun & Hsz & H1 & Hout & Hle).
    destruct (json.appendRune c rest) as [out size].
    destruct (coerceRune c rest) as [cout csize]. cbn [fst snd] in *. subst csize.
    rewrite append_assoc, Hhead. cbn [json.unquoteRunes]. rewrite Hq, Hun.
    rewrite IH; [reflexivity | | lia].
    rewrite skip_length. cbn [String.length] in *. lia.
Qed.

Lemma unquote_appendString (s t : string) :
  json.unquote (json.appendRunes (String.length s) s ++ String quote t)
  = Some (coerce s, t).
Proof.
  unfold json.unquote. apply unquoteRunes_appendRunes; [lia|].
  rewrite length_append.
  pose proof (appendRunes_length (n := String.length s) s (le_n _)). lia.
Qed.

(** *** The members of the object *)

Lemma appendString_append (s t : string) :
  (json.appendString s ++ t)%string
  = String quote (json.appendRunes (String.length s) s ++ String quote t).
Proof.
  unfold json.appendString, str1. cbn [append]. rewrite append_assoc. reflexivity.
Qed.

Lemma appendString_length (s : string) : 2 <= String.length (json.appendString s).
Proof.
  unfold json.appendString, str1. cbn [String.length].
  rewrite length_append. cbn. lia.
Qed.

Lemma skipSpace_appendString (s t : string) :
  json.skipSpace (json.appendString s ++ t) = (json.appendString s ++ t)%string.
Proof. rewrite appendString_append. reflexivity. Qed.

Lemma parseValue_string (f : nat) (v : string) (d : ascii) (r : string) :
  json.parseValue (S f) (json.appendString v ++ String d r)
  = Some (json.Str (coerce v), String d r).
Proof.
  rewrite appendString_append. cbn [json.parseValue].
  change (json.skipSpace (String quote ?x)) with (String quote x).
  cbv beta iota.
  change (Ascii.eqb quote "{") with false.
  change (Ascii.eqb quote "[") with false.
  change (Ascii.eqb quote quote) with true.
  cbv beta iota. rewrite unquote_appendString. reflexivity.
Qed.

Lemma parseValue_bool (f : nat) (b : bool) (d : ascii) (r : string) :
  json.parseValue (S f) ((if b then "true" else "false") ++ String d r)
  = Some (json.Bool b, String d r).
Proof. destruct b; reflexivity. Qed.

Lemma parseMembers_string (f : nat) (k v : string) (d : ascii) (r : string) :
  json.isSpace d = false ->
  json.parseMembers (S (S f))
    (json.appendString k ++ ":" ++ json.appendString v ++ String d r)
  = afterMember (S f) (coerce k) (json.Str (coerce v)) d r.
Proof.
  intros Hd. rewrite appendString_append.
  cbn [json.parseMembers].
  change (Ascii.eqb quote quote) with true. cbv beta iota. cbn [negb].
  rewrite unquote_appendString.
  cbn [append]. change (json.skipSpace (String ":" ?x)) with (String ":" x).
  cbv beta iota. change (Ascii.eqb ":" ":") with true. cbn [negb].
  rewrite parseValue_string.
  cbn [json.skipSpace]. rewrite Hd. reflexivity.
Qed.

Lemma parseMembers_bool (f : nat) (k : string) (b : bool) (d : ascii) (r : string) :
  json.isSpace d = false ->
  json.parseMembers (S (S f))
    (json.appendString k ++ ":" ++ (if b then "true" else "false") ++ String d r)
  = afterMember (S f) (coerce k) (json.Bool b) d r.
Proof.
  intros Hd. rewrite appendString_append.
  cbn [json.parseMembers].
  change (Ascii.eqb quote quote) with true. cbv beta iota. cbn [negb].
  rewrite unquote_appendString.
  cbn [append]. change (json.skipSpace (String ":" ?x)) with (String ":" x).
  cbv beta iota. change (Ascii.eqb ":" ":") with true. cbn [negb].
  rewrite parseValue_bool.
  cbn [json.skipSpace]. rewrite Hd. reflexivity.
Qed.

Lemma parseValue_object (f : nat) (k r : string) :
  json.parseValue (S f) (String "{" (json.appendString k ++ r))
  = match json.parseMembers f (json.appendString k ++ r) with
    | Some (ms, r') => Some (json.Obj ms, r')
    | None => None
    end.
Proof.
  cbn [json.parseValue].
  change (json.skipSpace (String "{" ?x)) with (String "{" x).
  cbv beta iota. change (Ascii.eqb "{" "{") with true. cbv beta iota.
  rewrite skipSpace_appendString, appendString_append.
  change (Ascii.eqb quote "}") with false. reflexivity.
Qed.

(** *** The whole event *)

Lemma serialized_fuel (ev : Event) :
  exists f, 2 * String.length (serialized ev) + 2 = 16 + f.
Proof.
  destruct (serialized_credentials ev) as (pre & post & ->).
  exists (2 * String.length (pre ++ credentials ev ++ post)%string + 2 - 16).
  unfold credentials, member. rewrite !length_append.
  pose proof (appendString_length "datacenter_region").
  pose proof (appendString_length "datacenter_secret").
  pose proof (appendString_length "datacenter_token").
  cbn [String.length]. lia.
Qed.

Lemma coerce_tagName (f : FieldId) : coerce (tagName f) = tagName f.
Proof. destruct f; vm_compute; reflexivity. Qed.

Opaque json.appendString coerce.

Lemma Unmarshal_serialized (ev : Event) (subj bd : string) :
  json.Unmarshal (serialized ev) (New subj bd) = (coerced ev subj bd, None).
Proof.
  unfold json.Unmarshal.
  destruct (serialized_fuel ev) as [f Hf]. rewrite Hf. clear Hf.
  cbn [Nat.add].
  unfold serialized, json.Marshal, json.fields.
  destruct ev as [u b p r k t v n nm sn pub az em sj bd0].
  unfold coerced.
  cbn [UUID BatchID ProviderType DatacenterRegion DatacenterAccessKey
       DatacenterAccessToken VPCID NetworkAWSID Name Subnet IsPublic
       AvailabilityZone ErrorMessage].
  assert (He : coerce EmptyString = EmptyString) by reflexivity.
  destruct n as [|cn n'], em as [|ce em'], pub; rewrite ?He;
    cbn [map allFields json.structEncoder json.omitEmpty json.value json.name
         tagName tagOmitEmpty fieldValue json.encodeValue andb json.isEmptyValue
         UUID BatchID ProviderType DatacenterRegion DatacenterAccessKey
         DatacenterAccessToken VPCID NetworkAWSID Name Subnet IsPublic
         AvailabilityZone ErrorMessage String.length Nat.eqb];
    rewrite parseValue_object;
    repeat (first [rewrite parseMembers_string by reflexivity
                  | rewrite (parseMembers_bool _ _ true) by reflexivity
                  | rewrite (parseMembers_bool _ _ false) by reflexivity];
            unfold afterMember;
            cbn [Ascii.eqb Bool.eqb];
            rewrite ?skipSpace_appendString).
  all: rewrite ?(coerce_tagName fUUID), ?(coerce_tagName fBatchID),
    ?(coerce_tagName fProviderType), ?(coerce_tagName fDatacenterRegion),
    ?(coerce_tagName fDatacenterAccessKey), ?(coerce_tagName fDatacenterAccessToken),
    ?(coerce_tagName fVPCID), ?(coerce_tagName fNetworkAWSID),
    ?(coerce_tagName fName), ?(coerce_tagName fSubnet), ?(coerce_tagName fIsPublic),
    ?(coerce_tagName fAvailabilityZone), ?(coerce_tagName fErrorMessage).
  all: reflexivity.
Qed.

Transparent json.appendString coerce.

Transparent json.appendString coerce.

(** *** Well-formed strings *)

Lemma coerceRunes_ascii (s : string) :
  isASCII s = true -> forall n, String.length s <= n -> coerceRunes n s = s.
Proof.
  induction s as [|c s IH]; intros Ha n Hn.
  - destruct n; reflexivity.
  - cbn in Ha. apply andb_prop in Ha as [Hc Hs].
    destruct n as [|n]; [cbn in Hn; lia|].
    cbn [coerceRunes]. unfold coerceRune. rewrite Hc. cbn [skip append str1].
    rewrite IH; [reflexivity | assumption | cbn in Hn; lia].
Qed.

Lemma wellFormed_ascii (s : string) : isASCII s = true -> wellFormed s.
Proof. intros Ha. apply coerceRunes_ascii; [assumption | lia]. Qed.

(** *** The layout of the serialization *)

Lemma structEncoder_layout (ev : Event) (fs : list FieldId) (next : ascii) :
  json.structEncoder next
    (map (fun f => json.mkField (tagName f) (tagOmitEmpty f) (fieldValue f ev)) fs)
  = inl match filter (fun f => negb (tagOmitEmpty f
                                     && json.isEmptyValue (fieldValue f ev))) fs with
        | [] => if Ascii.eqb next "{" then "{}" else "}"
        | l => String next (join (map (rendered ev) l) ++ "}")
        end.
Proof.
  revert next. induction fs as [|f fs IH]; intros next; [reflexivity|].
  cbn [map json.structEncoder filter json.omitEmpty json.value json.name].
  destruct (tagOmitEmpty f && json.isEmptyValue (fieldValue f ev)); cbn [negb].
  - apply IH.
  - rewrite IH.
    assert (Hf : rendered ev f
                 = (json.appendString (tagName f) ++ ":"
                    ++ valueText (fieldValue f ev))%string) by reflexivity.
    unfold valueText in Hf.
    destruct (encodeValue_fieldValue f ev) as [v Hv]. rewrite Hv in Hf |- *.
    destruct (filter _ fs) as [|g l]; cbn [map join Ascii.eqb Bool.eqb];
      rewrite Hf; f_equal; f_equal;
      repeat (rewrite append_assoc || cbn [append]); reflexivity.
Qed.

Lemma serialized_layout (ev : Event) :
  serialized ev
  = String "{" (join (map (rendered ev) (present ev)) ++ "}").
Proof.
  unfold serialized, json.Marshal, json.fields, present.
  rewrite structEncoder_layout.
  destruct ev as [u b p r k t v n nm sn pub az em sj bd0]. reflexivity.
Qed.

(** *** Round trips *)

Lemma serialized_ext (a b : Event) :
  (forall f, fieldValue f a = fieldValue f b) -> serialized a = serialized b.
Proof.
  intros H. unfold serialized, json.Marshal, json.fields.
  rewrite (map_ext _ (fun f => json.mkField (tagName f) (tagOmitEmpty f)
                                             (fieldValue f b)));
    [reflexivity|].
  intros f. rewrite H. reflexivity.
Qed.

Lemma coerced_fields (ev : Event) (subj bd : string) :
  wellFormedEvent ev -> forall f, fieldValue f (coerced ev subj bd) = fieldValue f ev.
Proof.
  intros Hwf f.
  destruct f; cbn [fieldValue coerced UUID BatchID ProviderType DatacenterRegion
                   DatacenterAccessKey DatacenterAccessToken VPCID NetworkAWSID
                   Name Subnet IsPublic AvailabilityZone ErrorMessage];
    try reflexivity; f_equal;
    match goal with
    | |- coerce (?proj ev) = _ => idtac
    end.
  - apply (Hwf fUUID). reflexivity.
  - apply (Hwf fBatchID). reflexivity.
  - apply (Hwf fProviderType). reflexivity.
  - apply (Hwf fDatacenterRegion). reflexivity.
  - apply (Hwf fDatacenterAccessKey). reflexivity.
  - apply (Hwf fDatacenterAccessToken). reflexivity.
  - apply (Hwf fVPCID). reflexivity.
  - apply (Hwf fNetworkAWSID). reflexivity.
  - apply (Hwf fName). reflexivity.
  - apply (Hwf fSubnet). reflexivity.
  - apply (Hwf fAvailabilityZone). reflexivity.
  - apply (Hwf fErrorMessage). reflexivity.
Qed.

Example marshal_testEvent : json.Marshal testEvent = inl expected.
Proof. vm_compute. reflexivity. Qed.

(** C7, as stated, fails: the empty object decodes, into the blank event,
    whose serialization is not the empty object; and a payload whose members
    are in another order, spaced, escaped or capitalised decodes as well and
    is serialized in the canonical form, not in its own. *)
Lemma decoded_payload_not_reproduced :
  (json.Unmarshal "{}" (New "network.create.aws" "{}")
   = (New "network.create.aws" "{}", None)
   /\ serialized (New "network.create.aws" "{}")
      = dq "{'_uuid':'','_batch_id':'','_type':'','datacenter_region':'','datacenter_secret':'','datacenter_token':'','vpc_id':'','name':'','range':'','is_public':false,'availability_zone':''}"
   /\ serialized (New "network.create.aws" "{}") <> "{}")
  /\ (json.Unmarshal loosePayload (New "network.create.aws" loosePayload)
      = (setString fVPCID "vpc-1"
           (setString fSubnet "10.0.0.0/16" (New "network.create.aws" loosePayload)),
         None)
      /\ serialized (setString fVPCID "vpc-1"
           (setString fSubnet "10.0.0.0/16" (New "network.create.aws" loosePayload)))
         = dq "{'_uuid':'','_batch_id':'','_type':'','datacenter_region':'','datacenter_secret':'','datacenter_token':'','vpc_id':'vpc-1','name':'','range':'10.0.0.0/16','is_public':false,'availability_zone':''}").
Proof.
  repeat split; try (vm_compute; reflexivity).
  vm_compute. discriminate.
Qed.

(** For every event whose strings are well-formed UTF-8, the payload
    [json.Marshal] writes for it decodes, into a blank event, to the same
    exported fields, and serializing the decoded event reproduces the
    payload byte for byte. *)
Lemma Marshal_round_trip (ev : Event) (subj bd : string) :
  wellFormedEvent ev ->
  exists ev',
    json.Unmarshal (serialized ev) (New subj bd) = (ev', None)
    /\ (forall f, fieldValue f ev' = fieldValue f ev)
    /\ serialized ev' = serialized ev.
Proof.
  intros Hwf. exists (coerced ev subj bd).
  split; [apply Unmarshal_serialized|].
  split; [apply coerced_fields; assumption|].
  apply serialized_ext, coerced_fields; assumption.
Qed.

(** *** What the decoder stores is well-formed *)

Ltac Zify.zify_post_hook ::= Z.to_euclidean_division_equations.

Lemma lor_add (q y k : N) :
  (y < 2 ^ k)%N -> N.lor (q * 2 ^ k) y = (q * 2 ^ k + y)%N.
Proof.
  intros Hy.
  rewrite <- N.lxor_lor, <- N.add_nocarry_lxor; try reflexivity.
  all: apply N.bits_inj; intros n; rewrite N.land_spec, N.bits_0.
  all: destruct (N.lt_ge_cases n k) as [Hn|Hn].
  all: try (rewrite N.mul_pow2_bits_low by assumption; reflexivity).
  all: replace (N.testbit y n) with false; [apply Bool.andb_false_r|].
  all: symmetry; destruct (N.eq_dec y 0) as [->|Hy0]; [apply N.bits_0|].
  all: apply N.bits_above_log2; apply N.log2_lt_pow2; [lia|].
  all: apply N.lt_le_trans with (2 ^ k)%N; [assumption|].
  all: apply N.pow_le_mono_r; lia.
Qed.

Lemma byte_chr (x : N) : (x < 256)%N -> byte (chr x) = x.
Proof. apply N_ascii_embedding. Qed.

Lemma land_low (x k : N) : N.land x (N.ones k) = (x mod 2 ^ k)%N.
Proof. apply N.land_ones. Qed.

(** The arithmetic reading of the bit operations of the codec. *)
Lemma lead2 (r : N) : (r < 2048)%N -> N.lor 192 (N.shiftr r 6) = (192 + r / 64)%N.
Proof.
  intros H. rewrite N.shiftr_div_pow2. change 192%N with (3 * 2 ^ 6)%N.
  change (2 ^ 6)%N with 64%N at 2.
  rewrite lor_add; [reflexivity|]. change (2 ^ 6)%N with 64%N. lia.
Qed.

Lemma lead3 (r : N) : (r < 65536)%N -> N.lor 224 (N.shiftr r 12) = (224 + r / 4096)%N.
Proof.
  intros H. rewrite N.shiftr_div_pow2. change 224%N with (7 * 2 ^ 5)%N.
  change (2 ^ 12)%N with 4096%N.
  rewrite lor_add; [reflexivity|]. change (2 ^ 5)%N with 32%N. lia.
Qed.

Lemma lead4 (r : N) : (r < 2097152)%N -> N.lor 240 (N.shiftr r 18) = (240 + r / 262144)%N.
Proof.
  intros H. rewrite N.shiftr_div_pow2. change 240%N with (15 * 2 ^ 4)%N.
  change (2 ^ 18)%N with 262144%N.
  rewrite lor_add; [reflexivity|]. change (2 ^ 4)%N with 16%N. lia.
Qed.

Lemma tail6_byte (r k : N) :
  byte (utf8.tail6 r k) = (128 + (r / 2 ^ k) mod 64)%N.
Proof.
  unfold utf8.tail6. rewrite N.shiftr_div_pow2.
  change 63%N with (N.ones 6). rewrite land_low.
  change 128%N with (2 * 2 ^ 6)%N at 1.
  rewrite lor_add by (apply N.mod_lt; discriminate).
  change (2 ^ 6)%N with 64%N. rewrite byte_chr; lia.
Qed.

Lemma low6_mod (c : ascii) : utf8.low6 c = (byte c mod 64)%N.
Proof. unfold utf8.low6. change 63%N with (N.ones 6). apply land_low. Qed.

Lemma join2 (a b : N) :
  (b < 64)%N -> N.lor (N.shiftl a 6) b = (a * 64 + b)%N.
Proof.
  intros H. rewrite N.shiftl_mul_pow2, lor_add; [reflexivity|].
  change (2 ^ 6)%N with 64%N. exact H.
Qed.

Lemma join3 (a b c : N) :
  (b < 64)%N -> (c < 64)%N ->
  N.lor (N.shiftl a 12) (N.lor (N.shiftl b 6) c) = (a * 4096 + b * 64 + c)%N.
Proof.
  intros Hb Hc. rewrite (join2 b Hc), N.shiftl_mul_pow2, lor_add.
  - change (2 ^ 12)%N with 4096%N. lia.
  - change (2 ^ 12)%N with 4096%N. lia.
Qed.

Lemma join4 (a b c d : N) :
  (b < 64)%N -> (c < 64)%N -> (d < 64)%N ->
  N.lor (N.shiftl a 18) (N.lor (N.shiftl b 12) (N.lor (N.shiftl c 6) d))
  = (a * 262144 + b * 4096 + c * 64 + d)%N.
Proof.
  intros Hb Hc Hd. rewrite (join3 b Hc Hd), N.shiftl_mul_pow2, lor_add.
  - change (2 ^ 18)%N with 262144%N. lia.
  - change (2 ^ 18)%N with 262144%N. lia.
Qed.

Ltac no_test x :=
  lazymatch x with
  | context [if _ then _ else _] => fail
  | _ => idtac
  end.

Ltac decide_tests :=
  repeat match goal with
         | |- context [(?a =? ?b)%N] =>
           no_test a; no_test b; destruct (N.eqb_spec a b); try lia
         | |- context [(?a <? ?b)%N] =>
           no_test a; no_test b; destruct (N.ltb_spec a b); try lia
         | |- context [(?a <=? ?b)%N] =>
           no_test a; no_test b; destruct (N.leb_spec a b); try lia
         end;
  cbn [orb andb negb].

Ltac powers :=
  change (2 ^ 0)%N with 1%N in *; change (2 ^ 6)%N with 64%N in *;
  change (2 ^ 12)%N with 4096%N in *; change (2 ^ 18)%N with 262144%N in *.

Lemma DecodeRune_EncodeRune2 (r : N) (rest : string) :
  (128 <= r)%N -> (r <= 2047)%N ->
  utf8.DecodeRune
    (String (chr (N.lor 192 (N.shiftr r 6))) (String (utf8.tail6 r 0) rest))
  = (r, 2).
Proof.
  intros Hlo Hhi.
  pose proof (tail6_byte r 0) as E1. powers.
  assert (E0 : byte (chr (N.lor 192 (N.shiftr r 6))) = (192 + r / 64)%N)
    by (rewrite lead2 by lia; apply byte_chr; lia).
  unfold utf8.DecodeRune, utf8.RuneSelf. rewrite low6_mod, E0, E1.
  decide_tests.
  f_equal. change 31%N with (N.ones 5). rewrite land_low, join2 by lia.
  change (2 ^ 5)%N with 32%N. lia.
Qed.

Lemma DecodeRune_EncodeRune3 (r : N) (rest : string) :
  (2048 <= r)%N -> (r <= 65535)%N -> (r < 55296 \/ 57343 < r)%N ->
  utf8.DecodeRune (utf8.enc3 r ++ rest) = (r, 3).
Proof.
  intros Hlo Hhi Hsur.
  pose proof (tail6_byte r 6) as E1. pose proof (tail6_byte r 0) as E2. powers.
  assert (E0 : byte (chr (N.lor 224 (N.shiftr r 12))) = (224 + r / 4096)%N)
    by (rewrite lead3 by lia; apply byte_chr; lia).
  unfold utf8.enc3. cbn [append].
  unfold utf8.DecodeRune, utf8.RuneSelf, utf8.cont.
  rewrite !low6_mod, E0, E1, E2.
  decide_tests.
  all: f_equal; change 15%N with (N.ones 4); rewrite land_low, join3 by lia;
    change (2 ^ 4)%N with 16%N; lia.
Qed.

Lemma DecodeRune_EncodeRune4 (r : N) (rest : string) :
  (65536 <= r)%N -> (r <= utf8.MaxRune)%N ->
  utf8.DecodeRune
    (String (chr (N.lor 240 (N.shiftr r 18)))
       (String (utf8.tail6 r 12)
          (String (utf8.tail6 r 6) (String (utf8.tail6 r 0) rest))))
  = (r, 4).
Proof.
  unfold utf8.MaxRune. intros Hlo Hhi.
  pose proof (tail6_byte r 12) as E1. pose proof (tail6_byte r 6) as E2.
  pose proof (tail6_byte r 0) as E3. powers.
  assert (E0 : byte (chr (N.lor 240 (N.shiftr r 18))) = (240 + r / 262144)%N)
    by (rewrite lead4 by lia; apply byte_chr; lia).
  unfold utf8.DecodeRune, utf8.RuneSelf, utf8.cont.
  rewrite !low6_mod, E0, E1, E2, E3.
  decide_tests.
  all: f_equal; change 7%N with (N.ones 3); rewrite land_low, join4 by lia;
    change (2 ^ 3)%N with 8%N; lia.
Qed.

(** Decoding what [utf8.EncodeRune] wrote gives the rune back, whatever
    follows. *)
Lemma DecodeRune_EncodeRune (r : N) (rest : string) :
  (128 <= r)%N ->
  utf8.DecodeRune (utf8.EncodeRune r ++ rest)
  = (scalar r, String.length (utf8.EncodeRune r)).
Proof.
  intros Hr. unfold utf8.EncodeRune, scalar, utf8.MaxRune.
  destruct (N.leb_spec r 127); [lia|].
  destruct (N.leb_spec r 2047).
  { destruct (N.ltb_spec 1114111 r); [lia|].
    destruct (N.leb_spec 55296 r); [lia|]. cbn [orb andb append String.length].
    apply DecodeRune_EncodeRune2; assumption. }
  destruct (N.ltb_spec 1114111 r); cbn [orb]; [reflexivity|].
  destruct (N.leb_spec 55296 r), (N.leb_spec r 57343); cbn [andb];
    try reflexivity.
  all: destruct (N.leb_spec r 65535).
  all: try (rewrite DecodeRune_EncodeRune3 by lia; reflexivity).
  all: try lia.
  all: cbn [append String.length]; apply DecodeRune_EncodeRune4;
    unfold utf8.MaxRune; lia.
Qed.

Lemma stable_wellFormed (s : string) : stable s -> wellFormed s.
Proof. intros H. apply H. lia. Qed.

Lemma stable_empty : stable EmptyString.
Proof. intros [|n] _; reflexivity. Qed.

Lemma stable_ascii (c : ascii) (s : string) :
  (byte c <? utf8.RuneSelf)%N = true -> stable s -> stable (String c s).
Proof.
  intros Hc Hs [|n] Hn; [cbn in Hn; lia|].
  cbn [coerceRunes]. unfold coerceRune. rewrite Hc. cbn [skip append str1].
  rewrite Hs; [reflexivity | cbn in Hn; lia].
Qed.

Lemma EncodeRune_scalar (r : N) : utf8.EncodeRune (scalar r) = utf8.EncodeRune r.
Proof.
  unfold scalar.
  destruct ((utf8.MaxRune <? r)%N || ((55296 <=? r)%N && (r <=? 57343)%N)) eqn:Hbad;
    [|reflexivity].
  unfold utf8.EncodeRune at 2. rewrite Hbad.
  unfold utf8.MaxRune in Hbad.
  destruct (N.leb_spec r 127).
  { destruct (N.ltb_spec 1114111 r); [lia|].
    destruct (N.leb_spec 55296 r); [lia|]. discriminate Hbad. }
  destruct (N.leb_spec r 2047).
  { destruct (N.ltb_spec 1114111 r); [lia|].
    destruct (N.leb_spec 55296 r); [lia|]. discriminate Hbad. }
  reflexivity.
Qed.

Lemma EncodeRune_shape (r : N) :
  exists c e,
    utf8.EncodeRune r = String c e
    /\ ((r <= 127)%N -> c = chr r /\ e = EmptyString)
    /\ ((128 <= r)%N -> 1 <= String.length e).
Proof.
  unfold utf8.EncodeRune, utf8.enc3, str1.
  destruct (N.leb_spec r 127); [|destruct (r <=? 2047)%N;
    [|destruct ((utf8.MaxRune <? r)%N || ((55296 <=? r)%N && (r <=? 57343)%N));
      [|destruct (r <=? 65535)%N]]];
    do 2 eexists; (split; [reflexivity|]); split; intros; cbn; try lia; auto.
Qed.

Lemma skip_append (e s : string) : skip (String.length e) (e ++ s) = s.
Proof. induction e as [|x e IH]; [reflexivity | exact IH]. Qed.

(** An encoded rune at the head of a string is one step of the coercion,
    which leaves it as it is. *)
Lemma coerceRunes_EncodeRune (r : N) (s : string) (n : nat) :
  coerceRunes (S n) (utf8.EncodeRune r ++ s)
  = (utf8.EncodeRune r ++ coerceRunes n s)%string.
Proof.
  destruct (EncodeRune_shape r) as (c & e & He & Hsmall & Hbig).
  destruct (N.leb_spec r 127) as [Hr|Hr].
  - destruct (Hsmall Hr) as [-> ->]. rewrite He.
    cbn [append coerceRunes]. unfold coerceRune. rewrite byte_chr by lia.
    unfold utf8.RuneSelf. destruct (N.ltb_spec r 128); [|lia]. reflexivity.
  - pose proof (@DecodeRune_EncodeRune r s ltac:(lia)) as Hd.
    specialize (Hbig ltac:(lia)).
    assert (Hskip := skip_append (utf8.EncodeRune r) s).
    rewrite He in Hd, Hskip |- *. cbn [append] in *.
    cbn [coerceRunes]. unfold coerceRune.
    destruct (byte c <? utf8.RuneSelf)%N eqn:Hc.
    { exfalso. unfold utf8.DecodeRune in Hd. rewrite Hc in Hd.
      inversion Hd as [[Hs Hl]]. lia. }
    rewrite Hd, EncodeRune_scalar, Hskip, He. reflexivity.
Qed.

Lemma stable_EncodeRune (r : N) (s : string) :
  stable s -> stable (utf8.EncodeRune r ++ s).
Proof.
  intros Hs n Hn. rewrite length_append in Hn.
  destruct (EncodeRune_shape r) as (c & e & He & _).
  destruct n as [|n]; [rewrite He in Hn; cbn in Hn; lia|].
  rewrite coerceRunes_EncodeRune, Hs; [reflexivity|].
  rewrite He in Hn. cbn in Hn. lia.
Qed.

Lemma simpleEscape_ascii (e x : ascii) :
  json.simpleEscape e = Some x -> (byte x <? utf8.RuneSelf)%N = true.
Proof.
  unfold json.simpleEscape.
  destruct (Ascii.eqb_spec e quote) as [->|_]; [intros H; inversion H; reflexivity|].
  destruct (Ascii.eqb_spec e backslash) as [->|_]; [intros H; inversion H; reflexivity|].
  destruct (Ascii.eqb_spec e "/") as [->|_]; [intros H; inversion H; reflexivity|].
  cbn [orb].
  repeat match goal with
         | |- context [Ascii.eqb e ?c] => destruct (Ascii.eqb e c)
         end;
    intros H; inversion H; reflexivity.
Qed.

Lemma unquoteRune_stable (c : ascii) (rest out s' : string) :
  json.unquoteRune c rest = Some (out, s') ->
  forall t, stable t -> stable (out ++ t).
Proof.
  unfold json.unquoteRune. intros H t Ht.
  destruct (Ascii.eqb c backslash).
  - destruct rest as [|e rest1]; [discriminate H|].
    destruct (json.simpleEscape e) as [x|] eqn:Hx.
    { inversion H; subst. apply stable_ascii; [|exact Ht].
      apply (simpleEscape_ascii _ Hx). }
    destruct (Ascii.eqb e "u"); [|discriminate H].
    destruct (json.hex4 rest1) as [[rr rest2]|]; [|discriminate H].
    destruct (utf16.IsSurrogate rr).
    + destruct (utf16.DecodeRune rr (option_map fst (json.getu4 rest2)) =? utf8.RuneError)%N;
        inversion H; subst; apply stable_EncodeRune; exact Ht.
    + inversion H; subst. apply stable_EncodeRune; exact Ht.
  - destruct (byte c <? 32)%N; [discriminate H|].
    destruct (byte c <? utf8.RuneSelf)%N eqn:Hc.
    + inversion H; subst. apply stable_ascii; assumption.
    + destruct (utf8.DecodeRune (String c rest)) as [r size].
      inversion H; subst. apply stable_EncodeRune; exact Ht.
Qed.

Lemma unquoteRunes_stable (f : nat) :
  forall s out rest, json.unquoteRunes f s = Some (out, rest) -> stable out.
Proof.
  induction f as [|f IH]; intros s out rest H; [discriminate H|].
  destruct s as [|c s]; [discriminate H|]. cbn [json.unquoteRunes] in H.
  destruct (Ascii.eqb c quote).
  { inversion H; subst. apply stable_empty. }
  destruct (json.unquoteRune c s) as [[chunk s']|] eqn:Hc; [|discriminate H].
  destruct (json.unquoteRunes f s') as [[t s'']|] eqn:Ht; [|discriminate H].
  inversion H; subst.
  apply (unquoteRune_stable _ _ Hc). apply (IH _ _ _ Ht).
Qed.

Lemma parse_stable (fuel : nat) :
  (forall s v r,
      json.parseValue fuel s = Some (v, r) ->
      match v with
      | json.Str x => stable x
      | json.Obj ms => stableMembers ms
      | _ => True
      end)
  /\ (forall s ms r, json.parseMembers fuel s = Some (ms, r) -> stableMembers ms).
Proof.
  induction fuel as [|fuel [IHv IHm]]; [split; intros; discriminate|].
  split.
  - intros s v r H. cbn [json.parseValue] in H.
    destruct (json.skipSpace s) as [|c r0]; [discriminate H|].
    destruct (Ascii.eqb c "{").
    { destruct (json.skipSpace r0) as [|c1 r1]; [discriminate H|].
      destruct (Ascii.eqb c1 "}"); [inversion H; subst; constructor|].
      destruct (json.parseMembers fuel (String c1 r1)) as [[ms r2]|] eqn:Hm;
        [|discriminate H].
      inversion H; subst. apply (IHm _ _ _ Hm). }
    destruct (Ascii.eqb c "[").
    { destruct (json.skipSpace r0) as [|c1 r1]; [discriminate H|].
      destruct (Ascii.eqb c1 "]"); [inversion H; subst; exact I|].
      destruct (json.parseElements fuel (String c1 r1)) as [[vs r2]|];
        [|discriminate H].
      inversion H; subst. exact I. }
    destruct (Ascii.eqb c quote).
    { unfold json.unquote in H.
      destruct (json.unquoteRunes _ r0) as [[x r1]|] eqn:Hu; [|discriminate H].
      inversion H; subst. apply (unquoteRunes_stable _ _ Hu). }
    unfold json.literal in H.
    repeat match type of H with
           | (if ?b then _ else _) = _ => destruct b
           end;
      try discriminate H; try (inversion H; subst; exact I).
    destruct (json.number (String c r0)); [|discriminate H].
    inversion H; subst. exact I.
  - intros s ms r H. cbn [json.parseMembers] in H.
    destruct s as [|q r0]; [discriminate H|].
    destruct (negb (Ascii.eqb q quote)); [discriminate H|].
    destruct (json.unquote r0) as [[k r1]|]; [|discriminate H].
    destruct (json.skipSpace r1) as [|colon r2]; [discriminate H|].
    destruct (negb (Ascii.eqb colon ":")); [discriminate H|].
    destruct (json.parseValue fuel r2) as [[v r3]|] eqn:Hv; [|discriminate H].
    assert (Hsv : stableValue v).
    { specialize (IHv _ _ _ Hv). destruct v; cbn; auto. }
    destruct (json.skipSpace r3) as [|d r4]; [discriminate H|].
    destruct (Ascii.eqb d "}").
    { inversion H; subst. constructor; [exact Hsv | constructor]. }
    destruct (Ascii.eqb d ","); [|discriminate H].
    destruct (json.parseMembers fuel (json.skipSpace r4)) as [[ms' r5]|] eqn:Hm;
      [|discriminate H].
    inversion H; subst. constructor; [exact Hsv | apply (IHm _ _ _ Hm)].
Qed.

Lemma stableEvent_wellFormed (ev : Event) : stableEvent ev -> wellFormedEvent ev.
Proof. intros H f s Hf. apply stable_wellFormed, (H f s Hf). Qed.

Lemma fieldValue_setString (f g : FieldId) (s s' : string) (ev : Event) :
  fieldValue g (setString f s ev) = KString s' ->
  s' = s \/ fieldValue g ev = KString s'.
Proof.
  destruct ev; destruct f, g; cbn; intros H; inversion H; auto.
Qed.

Lemma fieldValue_setBool (f g : FieldId) (b : bool) (s' : string) (ev : Event) :
  fieldValue g (setBool f b ev) = KString s' -> fieldValue g ev = KString s'.
Proof.
  destruct ev; destruct f, g; cbn; intros H; inversion H; auto.
Qed.

Lemma store_stable (f : FieldId) (v : json.Value) (ev ev' : Event) (e : option error) :
  stableValue v -> stableEvent ev -> json.store f v ev = (ev', e) -> stableEvent ev'.
Proof.
  intros Hv Hev. unfold json.store.
  destruct v, (fieldValue f ev); intros H; inversion H; subst; try exact Hev.
  - intros g s' Hg. apply fieldValue_setBool in Hg. apply (Hev g s' Hg).
  - intros g s' Hg. apply fieldValue_setString in Hg as [->|Hg];
      [exact Hv | apply (Hev g s' Hg)].
Qed.

Lemma object_stable (ms : list (string * json.Value)) :
  stableMembers ms ->
  forall ev saved ev' e,
    stableEvent ev -> json.object ms ev saved = (ev', e) -> stableEvent ev'.
Proof.
  induction 1 as [|[k v] ms Hv Hms IH]; intros ev saved ev' e Hev H; cbn in H.
  - inversion H; subst. exact Hev.
  - destruct (json.findField k) as [f|]; [|apply (IH _ _ _ _ Hev H)].
    destruct (json.store f v ev) as [ev1 e1] eqn:Hs.
    apply (IH _ _ _ _ (@store_stable f v ev ev1 e1 Hv Hev Hs) H).
Qed.

Lemma New_stable (subj bd : string) : stableEvent (New subj bd).
Proof. intros f s. destruct f; intros H; inversion H; apply stable_empty. Qed.

(** Whatever the payload, the strings [json.Unmarshal] leaves in a blank
    event are well-formed. *)
Lemma Unmarshal_wellFormed (data subj bd : string) (ev : Event) (e : option error) :
  json.Unmarshal data (New subj bd) = (ev, e) -> wellFormedEvent ev.
Proof.
  intros H. apply stableEvent_wellFormed. revert H.
  unfold json.Unmarshal.
  destruct (json.parseValue _ data) as [[v rest]|] eqn:Hp;
    [|intros H; inversion H; apply New_stable].
  destruct (json.skipSpace rest); [|intros H; inversion H; apply New_stable].
  destruct v; try (intros H; inversion H; apply New_stable).
  apply (proj1 (parse_stable _)) in Hp.
  apply (object_stable Hp). apply New_stable.
Qed.

(** C7, amended. For every payload that decodes without error into a blank
    event: the serialization of the decoded event is the canonical payload
    (the members of the fields in declaration order under their tag names,
    [network_aws_id] and [error_message] left out exactly when empty,
    separated by commas between braces); that payload decodes to the same
    exported fields and is reproduced byte for byte by a second
    serialization; and the original payload is reproduced exactly when it
    is itself the serialization of an event with well-formed strings. *)
Theorem canonical_payload_round_trips :
  forall payload subj bd ev,
    json.Unmarshal payload (New subj bd) = (ev, None) ->
    serialized ev = String "{" (join (map (rendered ev) (present ev)) ++ "}")
    /\ (exists ev',
          json.Unmarshal (serialized ev) (New subj (serialized ev)) = (ev', None)
          /\ (forall f, fieldValue f ev' = fieldValue f ev)
          /\ serialized ev' = serialized ev)
    /\ (serialized ev = payload
        <-> exists ev0, wellFormedEvent ev0 /\ payload = serialized ev0).
Proof.
  intros payload subj bd ev Hd.
  pose proof (Unmarshal_wellFormed _ _ _ Hd) as Hwf.
  split; [apply serialized_layout|].
  split; [apply Marshal_round_trip; exact Hwf|].
  split.
  - intros Hs. exists ev. split; [exact Hwf | symmetry; exact Hs].
  - intros (ev0 & Hwf0 & ->).
    destruct (Marshal_round_trip subj bd Hwf0) as (ev' & Hd' & _ & Hs').
    rewrite Hd in Hd'. inversion Hd'; subst. exact Hs'.
Qed.

Lemma namedEvent_wellFormed : wellFormedEvent namedEvent.
Proof.
  intros f s. destruct f; intros H; inversion H; subst; vm_compute; reflexivity.
Qed.

Lemma canonical_payload_round_trips_witness :
  json.Unmarshal (serialized namedEvent)
                 (New "network.create.aws" (serialized namedEvent))
  = (coerced namedEvent "network.create.aws" (serialized namedEvent), None)
  /\ Name (coerced namedEvent "network.create.aws" (serialized namedEvent))
     = "réseau-01 ∑ 😀"
  /\ serialized (coerced namedEvent "network.create.aws" (serialized namedEvent))
     = serialized namedEvent.
Proof.
  pose proof (Unmarshal_serialized namedEvent "network.create.aws"
                (serialized namedEvent)) as Hd.
  split; [exact Hd|].
  split; [vm_compute; reflexivity|].
  destruct (@canonical_payload_round_trips _ _ _ _ Hd) as (_ & _ & Hs).
  apply (proj2 Hs). exists namedEvent.
  split; [exact namedEvent_wellFormed | reflexivity].
Defined.

(** Ill-formed UTF-8 does not survive: the byte 0xFF is written as the
    escape of U+FFFD and read back as the three bytes of U+FFFD. *)
Example ill_formed_byte_is_replaced :
  coerce (str1 (chr 255)) = String (chr 239) (String (chr 191) (str1 (chr 189)))
  /\ json.appendString (str1 (chr 255))
     = String quote (String backslash ("ufffd" ++ str1 quote)).
Proof. split; vm_compute; reflexivity. Qed.

(** ** The bounds of the decoder's loops

    The loops of the decoder are bounded by the length of their input; the
    bound is never what stops them: with any larger bound they return the
    same result. *)

Lemma skipSpace_length (s : string) :
  String.length (json.skipSpace s) <= String.length s.
Proof.
  induction s as [|c s IH]; cbn; [lia|].
  destruct (json.isSpace c); cbn; lia.
Qed.

Lemma digits_length (s : string) :
  String.length (json.digits s) <= String.length s.
Proof.
  induction s as [|c s IH]; cbn; [lia|].
  destruct (json.isDigit c); cbn; lia.
Qed.

Lemma digits1_length (s r : string) :
  json.digits1 s = Some r -> String.length r < String.length s.
Proof.
  destruct s as [|c s]; cbn; [discriminate|].
  destruct (json.isDigit c); [|discriminate].
  intros H; inversion H; subst. pose proof (digits_length s). lia.
Qed.

Lemma hex4_length (s r : string) (n : N) :
  json.hex4 s = Some (n, r) -> String.length r < String.length s.
Proof.
  destruct s as [|a [|b [|c [|d s]]]]; cbn; try discriminate.
  destruct (json.hexval a), (json.hexval b), (json.hexval c), (json.hexval d);
    try discriminate.
  intros H; inversion H; subst. lia.
Qed.

Lemma getu4_length (s r : string) (n : N) :
  json.getu4 s = Some (n, r) -> String.length r < String.length s.
Proof.
  destruct s as [|b [|u s]]; cbn [json.getu4]; try discriminate.
  destruct (Ascii.eqb b backslash && Ascii.eqb u "u"); [|discriminate].
  intros H. apply hex4_length in H. cbn [String.length]. lia.
Qed.

Lemma unquoteRune_length (c : ascii) (rest out s' : string) :
  json.unquoteRune c rest = Some (out, s') ->
  String.length s' <= String.length rest.
Proof.
  unfold json.unquoteRune.
  destruct (Ascii.eqb c backslash).
  - destruct rest as [|e rest1]; [discriminate|].
    destruct (json.simpleEscape e).
    { intros H; inversion H; subst. cbn. lia. }
    destruct (Ascii.eqb e "u"); [|discriminate].
    destruct (json.hex4 rest1) as [[rr rest2]|] eqn:Hh; [|discriminate].
    apply hex4_length in Hh.
    destruct (utf16.IsSurrogate rr).
    + destruct (json.getu4 rest2) as [[n rest3]|] eqn:Hg.
      * apply getu4_length in Hg. cbn [option_map fst].
        destruct (_ =? _)%N; intros H; inversion H; subst;
          cbn [String.length]; lia.
      * cbn [option_map].
        destruct (_ =? _)%N; intros H; inversion H; subst;
          cbn [String.length]; lia.
    + intros H; inversion H; subst. cbn [String.length]. lia.
  - destruct (byte c <? 32)%N; [discriminate|].
    destruct (byte c <? utf8.RuneSelf)%N.
    + intros H; inversion H; subst. lia.
    + pose proof (DecodeRune_size c rest) as Hsz. cbn zeta in Hsz.
      destruct (utf8.DecodeRune (String c rest)) as [r size].
      cbn [snd] in Hsz. intros H; inversion H; subst.
      rewrite skip_length. cbn [String.length] in *. lia.
Qed.

Lemma unquoteRunes_length (f : nat) :
  forall s out rest,
    json.unquoteRunes f s = Some (out, rest) ->
    String.length rest < String.length s.
Proof.
  induction f as [|f IH]; intros s out rest H; [discriminate H|].
  destruct s as [|c s]; [discriminate H|]. cbn [json.unquoteRunes] in H.
  destruct (Ascii.eqb c quote).
  { inversion H; subst. cbn. lia. }
  destruct (json.unquoteRune c s) as [[chunk s']|] eqn:Hc; [|discriminate H].
  destruct (json.unquoteRunes f s') as [[t s'']|] eqn:Ht; [|discriminate H].
  inversion H; subst. apply unquoteRune_length in Hc. apply IH in Ht.
  cbn [String.length]. lia.
Qed.

(** The bound of [unquote] is never reached. *)
Lemma unquoteRunes_fuel (f : nat) :
  forall g s,
    String.length s < f -> String.length s < g ->
    json.unquoteRunes f s = json.unquoteRunes g s.
Proof.
  induction f as [|f IH]; intros g s Hf Hg; [lia|].
  destruct g as [|g]; [lia|].
  destruct s as [|c s]; [reflexivity|]. cbn [json.unquoteRunes].
  destruct (Ascii.eqb c quote); [reflexivity|].
  destruct (json.unquoteRune c s) as [[chunk s']|] eqn:Hc; [|reflexivity].
  apply unquoteRune_length in Hc. cbn [String.length] in Hf, Hg.
  rewrite (IH g s'); [reflexivity | lia | lia].
Qed.

Lemma unquote_length (s x r : string) :
  json.unquote s = Some (x, r) -> String.length r < String.length s.
Proof. apply unquoteRunes_length. Qed.

Lemma number_length (s r : string) :
  json.number s = Some r -> String.length r <= String.length s.
Proof.
  unfold json.number. intros H.
  repeat match type of H with
         | match (match ?x with _ => _ end) with _ => _ end = _ =>
           destruct x eqn:?
         | match (if ?b then _ else _) with _ => _ end = _ => destruct b eqn:?
         | match ?x with _ => _ end = _ => destruct x eqn:?
         | (if ?b then _ else _) = _ => destruct b eqn:?
         end;
    try discriminate;
    repeat match goal with
           | E : Some _ = Some _ |- _ => inversion E; clear E; subst
           | E : json.digits1 _ = Some _ |- _ => apply digits1_length in E
           | E : String _ _ = String _ _ |- _ => inversion E; clear E; subst
           | E : _ = String _ _ |- _ => apply (f_equal String.length) in E
           | E : String _ _ = _ |- _ => apply (f_equal String.length) in E
           end;
    repeat match goal with
           | |- context [json.digits ?x] =>
             lazymatch goal with
             | _ : String.length (json.digits x) <= _ |- _ => fail
             | _ => pose proof (digits_length x)
             end
           | _ : context [json.digits ?x] |- _ =>
             lazymatch goal with
             | _ : String.length (json.digits x) <= _ |- _ => fail
             | _ => pose proof (digits_length x)
             end
           end;
    cbn [String.length] in *; lia.
Qed.

Lemma literal_length (word : string) (v v' : json.Value) (s r : string) :
  json.literal word v s = Some (v', r) -> String.length r <= String.length s.
Proof.
  unfold json.literal. destruct (String.prefix word s); [|discriminate].
  intros H; inversion H; subst. rewrite skip_length. lia.
Qed.

(** What a parser leaves is shorter than what it was given. *)
Lemma parse_length (fuel : nat) :
  (forall s v r, json.parseValue fuel s = Some (v, r) ->
                 String.length r < String.length s)
  /\ (forall s ms r, json.parseMembers fuel s = Some (ms, r) ->
                     String.length r < String.length s)
  /\ (forall s vs r, json.parseElements fuel s = Some (vs, r) ->
                     String.length r < String.length s).
Proof.
  induction fuel as [|fuel (IHv & IHm & IHe)];
    [repeat split; intros; discriminate|].
  repeat split.
  - intros s v r H. cbn [json.parseValue] in H.
    pose proof (skipSpace_length s) as Hs.
    destruct (json.skipSpace s) as [|c r0]; [discriminate H|].
    cbn [String.length] in Hs.
    destruct (Ascii.eqb c "{").
    { pose proof (skipSpace_length r0) as Hs0.
      destruct (json.skipSpace r0) as [|c1 r1]; [discriminate H|].
      cbn [String.length] in Hs0.
      destruct (Ascii.eqb c1 "}"); [inversion H; subst; lia|].
      destruct (json.parseMembers fuel (String c1 r1)) as [[ms r2]|] eqn:Hm;
        [|discriminate H].
      inversion H; subst. apply IHm in Hm. cbn [String.length] in Hm. lia. }
    destruct (Ascii.eqb c "[").
    { pose proof (skipSpace_length r0) as Hs0.
      destruct (json.skipSpace r0) as [|c1 r1]; [discriminate H|].
      cbn [String.length] in Hs0.
      destruct (Ascii.eqb c1 "]"); [inversion H; subst; lia|].
      destruct (json.parseElements fuel (String c1 r1)) as [[vs r2]|] eqn:He;
        [|discriminate H].
      inversion H; subst. apply IHe in He. cbn [String.length] in He. lia. }
    destruct (Ascii.eqb c quote).
    { destruct (json.unquote r0) as [[x r1]|] eqn:Hu; [|discriminate H].
      inversion H; subst. apply unquote_length in Hu. lia. }
    destruct (Ascii.eqb c "t"); [apply literal_length in H; lia|].
    destruct (Ascii.eqb c "f"); [apply literal_length in H; lia|].
    destruct (Ascii.eqb c "n"); [apply literal_length in H; lia|].
    destruct (json.number (String c r0)) as [r1|] eqn:Hn; [|discriminate H].
    inversion H; subst.
    (* a number has at least one byte *)
    assert (String.length r < String.length (String c r0)); [|cbn in *; lia].
    clear - Hn. revert Hn. unfold json.number.
    intros H.
    repeat match type of H with
           | match (match ?x with _ => _ end) with _ => _ end = _ =>
             destruct x eqn:?
           | match (if ?b then _ else _) with _ => _ end = _ => destruct b eqn:?
           | match ?x with _ => _ end = _ => destruct x eqn:?
           | (if ?b then _ else _) = _ => destruct b eqn:?
           end;
      try discriminate;
      repeat match goal with
             | E : Some _ = Some _ |- _ => inversion E; clear E; subst
             | E : json.digits1 _ = Some _ |- _ => apply digits1_length in E
             | E : String _ _ = String _ _ |- _ => inversion E; clear E; subst
             | E : _ = String _ _ |- _ => apply (f_equal String.length) in E
             | E : String _ _ = _ |- _ => apply (f_equal String.length) in E
             end;
      repeat match goal with
             | |- context [json.digits ?x] =>
               lazymatch goal with
               | _ : String.length (json.digits x) <= _ |- _ => fail
               | _ => pose proof (digits_length x)
               end
             | _ : context [json.digits ?x] |- _ =>
               lazymatch goal with
               | _ : String.length (json.digits x) <= _ |- _ => fail
               | _ => pose proof (digits_length x)
               end
             end;
      cbn [String.length] in *; lia.
  - intros s ms r H. cbn [json.parseMembers] in H.
    destruct s as [|q r0]; [discriminate H|].
    destruct (negb (Ascii.eqb q quote)); [discriminate H|].
    destruct (json.unquote r0) as [[k r1]|] eqn:Hu; [|discriminate H].
    apply unquote_length in Hu.
    pose proof (skipSpace_length r1) as Hs1.
    destruct (json.skipSpace r1) as [|colon r2]; [discriminate H|].
    destruct (negb (Ascii.eqb colon ":")); [discriminate H|].
    destruct (json.parseValue fuel r2) as [[v r3]|] eqn:Hv; [|discriminate H].
    apply IHv in Hv.
    pose proof (skipSpace_length r3) as Hs3.
    destruct (json.skipSpace r3) as [|d r4]; [discriminate H|].
    cbn [String.length] in *.
    destruct (Ascii.eqb d "}"); [inversion H; subst; lia|].
    destruct (Ascii.eqb d ","); [|discriminate H].
    pose proof (skipSpace_length r4) as Hs4.
    destruct (json.parseMembers fuel (json.skipSpace r4)) as [[ms' r5]|] eqn:Hm;
      [|discriminate H].
    inversion H; subst. apply IHm in Hm. lia.
  - intros s vs r H. cbn [json.parseElements] in H.
    destruct (json.parseValue fuel s) as [[v r1]|] eqn:Hv; [|discriminate H].
    apply IHv in Hv.
    pose proof (skipSpace_length r1) as Hs1.
    destruct (json.skipSpace r1) as [|d r2]; [discriminate H|].
    cbn [String.length] in *.
    destruct (Ascii.eqb d "]"); [inversion H; subst; lia|].
    destruct (Ascii.eqb d ","); [|discriminate H].
    destruct (json.parseElements fuel r2) as [[vs' r3]|] eqn:He;
      [|discriminate H].
    inversion H; subst. apply IHe in He. lia.
Qed.

(** The bound of the recursive descent is never reached: two bounds that
    are both large enough for the input give the same result. *)
Lemma parse_fuel (f : nat) :
  forall g,
    (forall s, 2 * String.length s + 1 <= f -> 2 * String.length s + 1 <= g ->
               json.parseValue f s = json.parseValue g s)
    /\ (forall s, 2 * String.length s + 1 <= f -> 2 * String.length s + 1 <= g ->
                  json.parseMembers f s = json.parseMembers g s)
    /\ (forall s, 2 * String.length s + 2 <= f -> 2 * String.length s + 2 <= g ->
                  json.parseElements f s = json.parseElements g s).
Proof.
  induction f as [|f IH]; intros g; [repeat split; intros; lia|].
  destruct g as [|g]; [repeat split; intros; lia|].
  destruct (IH g) as (IHv & IHm & IHe). clear IH.
  repeat split.
  - intros s Hf Hg. cbn [json.parseValue].
    pose proof (skipSpace_length s) as Hs.
    destruct (json.skipSpace s) as [|c r0]; [reflexivity|].
    cbn [String.length] in Hs.
    destruct (Ascii.eqb c "{").
    { pose proof (skipSpace_length r0) as Hs0.
      destruct (json.skipSpace r0) as [|c1 r1]; [reflexivity|].
      cbn [String.length] in Hs0.
      destruct (Ascii.eqb c1 "}"); [reflexivity|].
      rewrite (IHm (String c1 r1)); [reflexivity | |]; cbn [String.length]; lia. }
    destruct (Ascii.eqb c "[").
    { pose proof (skipSpace_length r0) as Hs0.
      destruct (json.skipSpace r0) as [|c1 r1]; [reflexivity|].
      cbn [String.length] in Hs0.
      destruct (Ascii.eqb c1 "]"); [reflexivity|].
      rewrite (IHe (String c1 r1)); [reflexivity | |]; cbn [String.length]; lia. }
    reflexivity.
  - intros s Hf Hg. cbn [json.parseMembers].
    destruct s as [|q r0]; [reflexivity|].
    destruct (negb (Ascii.eqb q quote)); [reflexivity|].
    destruct (json.unquote r0) as [[k r1]|] eqn:Hu; [|reflexivity].
    apply unquote_length in Hu.
    pose proof (skipSpace_length r1) as Hs1.
    destruct (json.skipSpace r1) as [|colon r2]; [reflexivity|].
    destruct (negb (Ascii.eqb colon ":")); [reflexivity|].
    cbn [String.length] in *.
    rewrite (IHv r2); [|lia|lia].
    destruct (json.parseValue g r2) as [[v r3]|] eqn:Hv; [|reflexivity].
    apply (proj1 (parse_length g)) in Hv.
    pose proof (skipSpace_length r3) as Hs3.
    destruct (json.skipSpace r3) as [|d r4]; [reflexivity|].
    cbn [String.length] in *.
    destruct (Ascii.eqb d "}"); [reflexivity|].
    destruct (Ascii.eqb d ","); [|reflexivity].
    pose proof (skipSpace_length r4) as Hs4.
    rewrite (IHm (json.skipSpace r4)); [reflexivity | lia | lia].
  - intros s Hf Hg. cbn [json.parseElements].
    rewrite (IHv s); [|lia|lia].
    destruct (json.parseValue g s) as [[v r1]|] eqn:Hv; [|reflexivity].
    apply (proj1 (parse_length g)) in Hv.
    pose proof (skipSpace_length r1) as Hs1.
    destruct (json.skipSpace r1) as [|d r2]; [reflexivity|].
    cbn [String.length] in *.
    destruct (Ascii.eqb d "]"); [reflexivity|].
    destruct (Ascii.eqb d ","); [|reflexivity].
    rewrite (IHe r2); [reflexivity | lia | lia].
Qed.

(** [json.Unmarshal] with any larger bound for the descent: the result is
    the same, so a syntax error is never an exhausted bound. *)
Lemma Unmarshal_fuel (data : string) (fuel : nat) :
  2 * String.length data + 2 <= fuel ->
  json.parseValue fuel data = json.parseValue (2 * String.length data + 2) data.
Proof.
  intros H. apply (proj1 (parse_fuel fuel (2 * String.length data + 2))); lia.
Qed.

(** * Further properties of the code *)

(** ** Creation that fails *)

Ltac last_call :=
  match goal with
  | |- exists t0 svc req, ?t = _ /\ _ =>
    exists (removelast t); eexists; eexists; split; reflexivity
  end.

(** One run of [Create], whatever the provider answers. *)
Lemma Create_run (cloud : Cloud) (ev : Event) (h : History) :
  exists t ev' err,
    Create cloud ev h = (Returned (ev', err), h ++ t)
    /\ (exists resp t',
          t = Call (newService ev)
                   (ec2.CreateSubnet (VPCID ev) (Subnet ev) (AvailabilityZone ev))
                   resp :: t')
    /\ Forall (fun x => exists req resp, x = Call (newService ev) req resp) t
    /\ existsb removes t = false
    /\ forallb silent t = true
    /\ err = failure t
    /\ match err with
       | Some e => ev' = ev /\ endsInFailure t e
       | None => exists sn t',
           ev' = stored ev sn
           /\ t = Call (newService ev)
                       (ec2.CreateSubnet (VPCID ev) (Subnet ev) (AvailabilityZone ev))
                       (inl (ec2.SubnetOutput sn)) :: t'
       end.
Proof.
  exec.
  repeat branch; rewrite <- ?app_assoc; cbn [app];
    eexists; eexists; eexists;
    (split; [reflexivity|]);
    (split; [eexists; eexists; reflexivity|]);
    (split; [repeat constructor; eauto|]);
    (split; [reflexivity|]);
    (split; [reflexivity|]);
    (split; [reflexivity|]);
    cbn; unfold stored, endsInFailure;
    first [ eexists; eexists; split; reflexivity
          | split; [reflexivity | last_call] ].
Qed.

(** X1. [Create] makes nothing but EC2 calls, all of them with the client
    built from the region and the credentials of the event, the first
    being create-subnet with the VPC id, the range and the zone of the
    event.  It stops at the first call that fails: that call is the last
    of the run, its error is the one returned, and the event is returned
    as it was given.  When no call fails, the event is returned with the
    identifier and the zone of the subnet that the create-subnet call
    answered. *)
Theorem Create_stops_at_first_failure :
  forall cloud ev h,
    let svc := newService ev in
    let req := ec2.CreateSubnet (VPCID ev) (Subnet ev) (AvailabilityZone ev) in
    exists t ev' err,
      Create cloud ev h = (Returned (ev', err), h ++ t)
      /\ Forall (fun x => exists r resp, x = Call svc r resp) t
      /\ match err with
         | Some e =>
           ev' = ev /\ endsInFailure t e
           /\ exists resp t', t = Call svc req resp :: t'
         | None =>
           failure t = None
           /\ exists sn t',
                t = Call svc req (inl (ec2.SubnetOutput sn)) :: t'
                /\ ev' = stored ev sn
                /\ NetworkAWSID ev' = ec2.SubnetId sn
                /\ AvailabilityZone ev' = ec2.AvailabilityZone sn
         end.
Proof.
  intros cloud ev h svc req.
  destruct (Create_run cloud ev h)
    as (t & ev' & err & Hrun & Hfirst & Hsvc & _ & _ & Herr & Hout).
  exists t, ev', err. split; [exact Hrun|]. split; [exact Hsvc|].
  destruct err as [e|].
  - destruct Hout as [Hev Hend]. repeat split; assumption.
  - split; [symmetry; exact Herr|].
    destruct Hout as (sn & t' & Hsn & Ht). exists sn, t'.
    split; [exact Ht|]. split; [exact Hsn|].
    rewrite Hsn. destruct (stored_fields ev sn) as (Hi & Hz & _). auto.
Qed.

(** X2. A create request that decodes and validates always ends with one
    publication, and nothing that was created is removed on the way: no
    delete-subnet call is made.  When a call fails, it is the last call,
    and what is published on [<subject>.error] is the event as the request
    gave it with the error message: the identifier of a subnet that was
    created before the failure is not in it.  When no call fails, the
    subnet the provider returned is stored in the event published on
    [<subject>.done]. *)
Theorem failed_create_keeps_what_was_created :
  forall cloud fuel m n,
    json.Unmarshal (nats.Data m) (New (nats.Subject m) (nats.Data m)) = (n, None) ->
    Validate n = None ->
    actionOf (nats.Subject m) = Some "create" ->
    exists t,
      forallb silent t = true
      /\ existsb removes t = false
      /\ match failure t with
         | Some e =>
           endsInFailure t e
           /\ eventHandler cloud fuel m []
              = (Returned tt,
                 t ++ [Log ("Error: " ++ e);
                       Publish (nats.Subject m ++ ".error") (serialized (failed n e))])
         | None =>
           exists sn,
             In (Call (newService n)
                      (ec2.CreateSubnet (VPCID n) (Subnet n) (AvailabilityZone n))
                      (inl (ec2.SubnetOutput sn))) t
             /\ eventHandler cloud fuel m []
                = (Returned tt,
                   t ++ [Publish (nats.Subject m ++ ".done")
                                 (serialized (stored n sn))])
         end.
Proof.
  intros cloud fuel m n Hd Hv Ha.
  assert (Hs : subject n = nats.Subject m)
    by (apply Unmarshal_meta in Hd as [Hs _]; exact Hs).
  rewrite (eventHandler_dispatch cloud fuel m [] Hd Hv Ha).
  unfold dispatch. cbn [String.eqb Ascii.eqb Bool.eqb].
  destruct (Create_run cloud n [])
    as (t & n' & err & Hrun & _ & _ & Hrm & Hsil & Herr & Hout).
  cbn [app] in Hrun. rewrite Hrun. cbn [respond].
  exists t. split; [exact Hsil|]. split; [exact Hrm|].
  rewrite <- Herr. destruct err as [e|].
  - destruct Hout as [-> Hend]. rewrite Hs. split; [exact Hend | reflexivity].
  - destruct Hout as (sn & t' & -> & Ht). exists sn.
    split; [rewrite Ht; left; reflexivity|].
    rewrite (proj2 (proj2 (stored_fields n sn))), Hs. reflexivity.
Qed.

Lemma failed_create_keeps_what_was_created_witness :
  exists t,
    forallb silent t = true
    /\ existsb removes t = false
    /\ match failure t with
       | Some e =>
         endsInFailure t e
         /\ eventHandler halfwayCloud 0 publicRequest []
            = (Returned tt,
               t ++ [Log ("Error: " ++ e);
                     Publish "network.create.aws.error"
                             (serialized (failed (publicEvent "network.create.aws") e))])
       | None =>
         exists sn,
           In (Call (newService (publicEvent "network.create.aws"))
                    (ec2.CreateSubnet "vpc-0000000" "10.0.0.0/16" EmptyString)
                    (inl (ec2.SubnetOutput sn))) t
           /\ eventHandler halfwayCloud 0 publicRequest []
              = (Returned tt,
                 t ++ [Publish "network.create.aws.done"
                               (serialized (stored (publicEvent "network.create.aws") sn))])
       end.
Proof.
  exact (@failed_create_keeps_what_was_created halfwayCloud 0 publicRequest
           (publicEvent "network.create.aws")
           (decode_publicPayload "network.create.aws") eq_refl eq_refl).
Defined.

(** The run behind the witness: everything a public subnet needs was
    created when the last call failed, and the error published carries no
    [network_aws_id]. *)
Example halfway_create_run :
  let svc := ec2.mkEC2 "eu-west-1" (ec2.mkCredentials "key" "token" EmptyString) in
  eventHandler halfwayCloud 0 publicRequest []
  = (Returned tt,
     [Call svc (ec2.CreateSubnet "vpc-0000000" "10.0.0.0/16" EmptyString)
           (inl (ec2.SubnetOutput (ec2.mkSubnet "subnet-1" "eu-west-1a")));
      Call svc (ec2.DescribeInternetGateways [ec2.mkFilter "attachment.vpc-id" ["vpc-0000000"]])
           (inl (ec2.InternetGatewaysOutput []));
      Call svc ec2.CreateInternetGateway
           (inl (ec2.InternetGatewayOutput (ec2.mkInternetGateway "igw-1")));
      Call svc (ec2.AttachInternetGateway "igw-1" "vpc-0000000") (inl ec2.NoOutput);
      Call svc (ec2.DescribeRouteTables [ec2.mkFilter "association.subnet-id" ["subnet-1"]])
           (inl (ec2.RouteTablesOutput []));
      Call svc (ec2.CreateRouteTable "vpc-0000000")
           (inl (ec2.RouteTableOutput (ec2.mkRouteTable "rtb-1")));
      Call svc (ec2.AssociateRouteTable "rtb-1" "subnet-1") (inl ec2.NoOutput);
      Call svc (ec2.CreateRoute "rtb-1" "0.0.0.0/0" "igw-1") (inl ec2.NoOutput);
      Call svc (ec2.ModifySubnetAttribute "subnet-1" true)
           (inr "UnauthorizedOperation: not allowed to modify the subnet");
      Log "Error: UnauthorizedOperation: not allowed to modify the subnet";
      Publish "network.create.aws.error"
              (dq "{'_uuid':'','_batch_id':'','_type':'','datacenter_region':'eu-west-1','datacenter_secret':'key','datacenter_token':'token','vpc_id':'vpc-0000000','name':'','range':'10.0.0.0/16','is_public':true,'availability_zone':'','error_message':'UnauthorizedOperation: not allowed to modify the subnet'}")]).
Proof. vm_compute. reflexivity. Qed.

(** ** Actions that are not supported *)

(** X3. A request that decodes and validates and whose action segment is
    update or get makes no cloud call: the handler logs and publishes, on
    [<subject>.error], the event with the message [<subject> not
    supported]. *)
Theorem unsupported_action_reports_error :
  forall cloud fuel m n action,
    json.Unmarshal (nats.Data m) (New (nats.Subject m) (nats.Data m)) = (n, None) ->
    Validate n = None ->
    actionOf (nats.Subject m) = Some action ->
    action = "update" \/ action = "get" ->
    let e := (nats.Subject m ++ " not supported")%string in
    eventHandler cloud fuel m []
    = (Returned tt,
       [Log ("Error: " ++ e);
        Publish (nats.Subject m ++ ".error") (serialized (failed n e))]).
Proof.
  intros cloud fuel m n action Hd Hv Ha Hact e.
  assert (Hs : subject n = nats.Subject m)
    by (apply Unmarshal_meta in Hd as [Hs _]; exact Hs).
  rewrite (eventHandler_dispatch cloud fuel m [] Hd Hv Ha).
  unfold dispatch, Update, Get, bind, ret.
  destruct Hact as [-> | ->]; cbn [String.eqb Ascii.eqb Bool.eqb respond app];
    rewrite Hs; reflexivity.
Qed.

Lemma unsupported_action_reports_error_witness :
  eventHandler quietCloud 0 (nats.mkMsg "network.update.aws" expected) []
  = (Returned tt,
     [Log "Error: network.update.aws not supported";
      Publish "network.update.aws.error"
              (serialized (failed (decoded "network.update.aws")
                                  "network.update.aws not supported"))]).
Proof.
  exact (@unsupported_action_reports_error quietCloud 0
           (nats.mkMsg "network.update.aws" expected) (decoded "network.update.aws")
           "update" (decode_expected "network.update.aws") eq_refl eq_refl
           (or_introl eq_refl)).
Defined.

(** ** The action segment of the subject *)

Lemma Split_nonempty (s : string) (sep : ascii) : strings.Split s sep <> [].
Proof.
  destruct s as [|c r]; cbn; [discriminate|].
  destruct (Ascii.eqb c sep); [discriminate|].
  destruct (strings.Split r sep); discriminate.
Qed.

Lemma Split_length (s : string) (sep : ascii) :
  length (strings.Split s sep) = S (count sep s).
Proof.
  induction s as [|c r IH]; [reflexivity|]. cbn.
  destruct (Ascii.eqb c sep); cbn; [rewrite IH; reflexivity|].
  destruct (strings.Split r sep) as [|p ps] eqn:Hsp;
    [exfalso; exact (Split_nonempty r sep Hsp)|].
  cbn in *. exact IH.
Qed.

Lemma actionOf_None (subj : string) :
  actionOf subj = None <-> count "." subj = 0.
Proof.
  unfold actionOf. rewrite nth_error_None, Split_length. lia.
Qed.

Lemma joinWith_cons (sep : ascii) (x : string) (l : list string) :
  l <> [] -> joinWith sep (x :: l) = (x ++ String sep (joinWith sep l))%string.
Proof. destruct l; [contradiction | reflexivity]. Qed.

Lemma joinWith_head (sep c : ascii) (p : string) (ps : list string) :
  joinWith sep (String c p :: ps) = String c (joinWith sep (p :: ps)).
Proof. destruct ps; reflexivity. Qed.

(** X4. [strings.Split] cuts a string at every separator and nowhere else:
    there is one part more than there are separators, no part contains
    one, and the parts joined by the separator are the string.  So the
    subject has the action segment the handler indexes exactly when it has
    a dot. *)
Theorem Split_cuts_at_every_separator :
  forall s sep,
    length (strings.Split s sep) = S (count sep s)
    /\ Forall (fun p => count sep p = 0) (strings.Split s sep)
    /\ joinWith sep (strings.Split s sep) = s
    /\ (nth_error (strings.Split s sep) 1 = None <-> count sep s = 0).
Proof.
  intros s sep. split; [apply Split_length|].
  split; [|split].
  - induction s as [|c r IH]; [repeat constructor|]. cbn.
    destruct (Ascii.eqb c sep) eqn:Hc; [constructor; [reflexivity | exact IH]|].
    destruct (strings.Split r sep) as [|p ps];
      [repeat constructor; cbn; rewrite Hc; reflexivity|].
    inversion IH; subst. constructor; [cbn; rewrite Hc; assumption | assumption].
  - induction s as [|c r IH]; [reflexivity|]. cbn [strings.Split].
    pose proof (Split_nonempty r sep) as Hne.
    destruct (Ascii.eqb_spec c sep) as [->|Hc].
    + rewrite joinWith_cons by exact Hne. rewrite IH. reflexivity.
    + destruct (strings.Split r sep) as [|p ps]; [contradiction|].
      rewrite joinWith_head, IH. reflexivity.
  - rewrite nth_error_None, Split_length. lia.
Qed.

(** X5. The handler panics in exactly one case: the payload decodes and
    validates and the subject has no dot, so that the segment the dispatch
    indexes does not exist.  Nothing has been called or published then. *)
Theorem handler_panics_only_without_action_segment :
  forall cloud fuel m,
    ((exists v h, eventHandler cloud fuel m [] = (Panicked v, h))
     <-> (count "." (nats.Subject m) = 0
          /\ exists n,
               json.Unmarshal (nats.Data m) (New (nats.Subject m) (nats.Data m))
               = (n, None)
               /\ Validate n = None))
    /\ (forall v h, eventHandler cloud fuel m [] = (Panicked v, h) -> h = []).
Proof.
  intros cloud fuel m.
  destruct (json.Unmarshal (nats.Data m) (New (nats.Subject m) (nats.Data m)))
    as [n [e|]] eqn:Hd.
  { rewrite (eventHandler_undecoded cloud fuel m [] Hd).
    split; [split|]; [intros (v & h & H); discriminate H
                     | intros (_ & n' & H & _); discriminate H
                     | intros v h H; discriminate H]. }
  destruct (Validate n) as [e|] eqn:Hv.
  { rewrite (eventHandler_invalid cloud fuel m [] Hd Hv).
    split; [split|]; [intros (v & h & H); discriminate H
                     | intros (_ & n' & H & Hv'); inversion H; subst; congruence
                     | intros v h H; discriminate H]. }
  destruct (actionOf (nats.Subject m)) as [action|] eqn:Ha.
  - assert (Hc : count "." (nats.Subject m) <> 0).
    { intros Hc. apply actionOf_None in Hc. congruence. }
    destruct (eventHandler_outcome cloud fuel m Hd Ha) as (t & _ & Hrun).
    destruct Hrun as [(Hr & _)|[(n' & Hr & _)|(e & Hr & _)]]; rewrite Hr;
      (split; [split|]; [intros (v & h & H); discriminate H
                        | intros (Hc' & _); contradiction
                        | intros v h H; discriminate H]).
  - rewrite (eventHandler_no_action cloud fuel m [] Hd Hv Ha).
    apply actionOf_None in Ha.
    split; [split|].
    + intros _. split; [exact Ha|]. exists n. auto.
    + intros _. eexists; eexists; reflexivity.
    + intros v h H. inversion H; reflexivity.
Qed.

(** ** The payload of an error *)

Lemma join_snoc (l : list string) (x : string) :
  l <> [] -> join (l ++ [x]) = (join l ++ "," ++ x)%string.
Proof.
  induction l as [|a l IH]; [contradiction|]. intros _.
  destruct l as [|b l]; [reflexivity|].
  change (join ((a :: b :: l) ++ [x]))
    with (a ++ "," ++ join ((b :: l) ++ [x]))%string.
  rewrite IH by discriminate.
  change (join (a :: b :: l)) with (a ++ "," ++ join (b :: l))%string.
  rewrite !append_assoc. reflexivity.
Qed.

(** X6. [Error] overwrites whatever message the event carried, and for a
    message that is not empty the payload it publishes is the payload of
    the same event without a message, with the member [error_message]
    added at the end: after the last member, before the closing brace. *)
Theorem error_payload_ends_with_the_message :
  forall ev e,
    e <> EmptyString ->
    exists members,
      serialized (failed ev EmptyString) = (members ++ "}")%string
      /\ serialized (failed ev e)
         = (members ++ "," ++ member "error_message" (json.appendString e) ++ "}")%string
      /\ forall e0, failed (failed ev e0) e = failed ev e.
Proof.
  intros ev e He.
  exists (String "{" (join (map (rendered (failed ev EmptyString))
                                (present (failed ev EmptyString))))).
  split; [rewrite serialized_layout; reflexivity|].
  split; [|intros e0; destruct ev; reflexivity].
  rewrite serialized_layout.
  assert (Hp : present (failed ev e) = present (failed ev EmptyString) ++ [fErrorMessage]).
  { destruct ev as [u b p r k t v n nm sn pub az em sj bd].
    destruct e as [|c e]; [contradiction|].
    destruct n; reflexivity. }
  assert (Hm : map (rendered (failed ev e)) (present (failed ev EmptyString))
               = map (rendered (failed ev EmptyString)) (present (failed ev EmptyString))).
  { destruct ev as [u b p r k t v n nm sn pub az em sj bd].
    destruct n; reflexivity. }
  assert (Hne : map (rendered (failed ev EmptyString)) (present (failed ev EmptyString))
                <> []).
  { destruct ev as [u b p r k t v n nm sn pub az em sj bd].
    destruct n; discriminate. }
  rewrite Hp, map_app, Hm. cbn [map].
  rewrite (join_snoc _ Hne).
  replace (rendered (failed ev e) fErrorMessage)
    with (member "error_message" (json.appendString e))
    by (destruct ev; reflexivity).
  cbn [append]. rewrite !append_assoc. reflexivity.
Qed.

Lemma error_payload_ends_with_the_message_witness :
  exists members,
    serialized (failed testEvent EmptyString) = (members ++ "}")%string
    /\ serialized (failed testEvent "error")
       = (members ++ "," ++ member "error_message" (json.appendString "error") ++ "}")%string
    /\ forall e0, failed (failed testEvent e0) "error" = failed testEvent "error".
Proof.
  apply (@error_payload_ends_with_the_message testEvent "error"). discriminate.
Defined.

(** ** What the decoder does with the members of a payload *)

(** X7. A payload that is a JSON object fails to decode exactly when one
    of its members names a field, up to case, with a value of another type
    than the field's; unknown keys and [null] are never an error.  The
    handler answers such a request with the raw payload on
    [<subject>.error], without validating it or calling the cloud. *)
Theorem mistyped_member_rejects_the_request :
  forall cloud fuel m ms,
    members (nats.Data m) = Some ms ->
    let decode := json.Unmarshal (nats.Data m) (New (nats.Subject m) (nats.Data m)) in
    (snd decode <> None <-> Exists mistyped ms)
    /\ (Exists mistyped ms ->
        eventHandler cloud fuel m []
        = (Returned tt, [Publish (nats.Subject m ++ ".error") (nats.Data m)])).
Proof.
  intros cloud fuel m ms Hms decode.
  assert (Hiff : snd decode <> None <-> Exists mistyped ms).
  { unfold decode. rewrite (@Unmarshal_members _ _ _ Hms).
    pose proof (object_error ms (New (nats.Subject m) (nats.Data m))) as H.
    split.
    - intros Hne.
      assert (Hdec : forall kv, {mistyped kv} + {~ mistyped kv}).
      { intros [k v]. unfold mistyped. cbn [fst snd].
        destruct (json.findField k) as [f|].
        - destruct (accepts f v) eqn:Ha.
          + right. intros (g & Hg & Hg'). inversion Hg; subst. congruence.
          + left. exists f. auto.
        - right. intros (g & Hg & _). discriminate. }
      destruct (Exists_dec mistyped ms Hdec) as [Hex|Hex]; [exact Hex|].
      exfalso. apply Hne, H, Hex.
    - intros Hex Hnone. apply H in Hnone. contradiction. }
  split; [exact Hiff|].
  intros Hex. apply Hiff in Hex.
  destruct decode as [n [e|]] eqn:Hd; [|cbn in Hex; contradiction].
  apply (eventHandler_undecoded cloud fuel m [] Hd).
Qed.

(** X8. After a payload that is a JSON object has been decoded, a field is
    what the last member that names it with a value of its type says, and
    its zero value when no member does: members of other keys, [null] and
    values of another type leave it alone, also after a type error. *)
Theorem decoded_field_is_its_last_member :
  forall data subj ms f,
    members data = Some ms ->
    let n := fst (json.Unmarshal data (New subj data)) in
    (Forall (inert f) ms -> fieldValue f n = fieldValue f (New subj data))
    /\ (forall ms1 k s ms2,
           ms = ms1 ++ (k, json.Str s) :: ms2 ->
           json.findField k = Some f -> f <> fIsPublic ->
           Forall (inert f) ms2 ->
           fieldValue f n = KString s)
    /\ (forall ms1 k b ms2,
           ms = ms1 ++ (k, json.Bool b) :: ms2 ->
           json.findField k = Some f -> f = fIsPublic ->
           Forall (inert f) ms2 ->
           fieldValue f n = KBool b).
Proof.
  intros data subj ms f Hms n. unfold n. rewrite (@Unmarshal_members _ _ _ Hms).
  split; [intros H; apply object_inert, H|].
  split.
  - intros ms1 k s ms2 -> Hk Hf Hin.
    rewrite object_app, object_cons, Hk, (object_inert Hin).
    apply store_string, Hf.
  - intros ms1 k b ms2 -> Hk -> Hin.
    rewrite object_app, object_cons, Hk, (object_inert Hin).
    apply store_bool.
Qed.

Lemma mistyped_member_rejects_the_request_witness :
  eventHandler quietCloud 0 (nats.mkMsg "network.create.aws" mistypedPayload) []
  = (Returned tt, [Publish "network.create.aws.error" mistypedPayload]).
Proof.
  assert (Hms : members mistypedPayload
                = Some [("vpc_id"%string, json.Str "vpc-1");
                        ("is_public"%string, json.Str "yes")])
    by (vm_compute; reflexivity).
  apply (proj2 (@mistyped_member_rejects_the_request quietCloud 0
                  (nats.mkMsg "network.create.aws" mistypedPayload) _ Hms)).
  constructor 2. constructor. exists fIsPublic. split; reflexivity.
Defined.

Lemma decoded_field_is_its_last_member_witness :
  fieldValue fName (fst (json.Unmarshal repeatedPayload (New "network.create.aws" repeatedPayload)))
  = KString "b".
Proof.
  assert (Hms : members repeatedPayload
                = Some [("name"%string, json.Str "a"); ("NAME"%string, json.Str "b");
                        ("name"%string, json.Null); ("cidr"%string, json.Number)])
    by (vm_compute; reflexivity).
  apply (proj1 (proj2 (@decoded_field_is_its_last_member repeatedPayload
                         "network.create.aws" _ fName Hms))
           [("name"%string, json.Str "a")] "NAME"%string "b"%string
           [("name"%string, json.Null); ("cidr"%string, json.Number)]).
  - reflexivity.
  - reflexivity.
  - discriminate.
  - repeat constructor; unfold inert; cbn [fst snd]; auto.
    vm_compute. discriminate.
Defined.

(** ** Which field a key names *)

Lemma foldName_tagName_inj (f g : FieldId) :
  json.foldName (tagName f) = json.foldName (tagName g) -> f = g.
Proof.
  destruct f, g; intros H; try reflexivity; vm_compute in H; discriminate H.
Qed.

Lemma In_allFields (f : FieldId) : In f allFields.
Proof. destruct f; cbn; auto 20. Qed.

Lemma findField_fold (k : string) (f : FieldId) :
  json.findField k = Some f <-> json.foldName k = json.foldName (tagName f).
Proof.
  unfold json.findField. split.
  - destruct (find _ allFields) as [f'|] eqn:H1.
    + intros H; inversion H; subst. apply find_some in H1 as [_ H1].
      apply String.eqb_eq in H1. subst. reflexivity.
    + intros H2. apply find_some in H2 as [_ H2].
      apply String.eqb_eq in H2. symmetry. exact H2.
  - intros Hf.
    destruct (find _ allFields) as [f'|] eqn:H1.
    + apply find_some in H1 as [_ H1]. apply String.eqb_eq in H1. subst k.
      f_equal. apply foldName_tagName_inj. exact Hf.
    + destruct (find (fun f0 => String.eqb (json.foldName (tagName f0)) (json.foldName k))
                     allFields) as [f''|] eqn:H2.
      * apply find_some in H2 as [_ H2]. apply String.eqb_eq in H2.
        f_equal. apply foldName_tagName_inj. congruence.
      * pose proof (find_none _ _ H2 f (In_allFields f)) as Hn.
        cbn beta in Hn. rewrite Hf, String.eqb_refl in Hn. discriminate.
Qed.

Lemma foldName_ascii (c : ascii) (r : string) :
  (byte c < 128)%N ->
  json.foldName (String c r)
  = String (if (97 <=? byte c)%N && (byte c <=? 122)%N then chr (byte c - 32) else c)
           (json.foldName r).
Proof.
  intros Hc. cbn [json.foldName].
  destruct ((97 <=? byte c)%N && (byte c <=? 122)%N); [reflexivity|].
  assert (H197 : (byte c =? 197)%N = false) by (apply N.eqb_neq; lia).
  assert (H226 : (byte c =? 226)%N = false) by (apply N.eqb_neq; lia).
  rewrite H197, H226. cbn [andb].
  destruct r as [|c1 [|c2 r2]]; reflexivity.
Qed.

Lemma foldName_toUpper (s : string) :
  isASCII s = true -> json.foldName (toUpper s) = json.foldName s.
Proof.
  induction s as [|c r IH]; [reflexivity|].
  cbn [isASCII]. intros H. apply andb_prop in H as [Hc Hr].
  apply N.ltb_lt in Hc. change utf8.RuneSelf with 128%N in Hc.
  cbn [toUpper]. rewrite (foldName_ascii c r Hc).
  destruct ((97 <=? byte c)%N && (byte c <=? 122)%N) eqn:Hl.
  - apply andb_prop in Hl as [H1 H2]. apply N.leb_le in H1, H2.
    rewrite foldName_ascii; rewrite byte_chr by lia; [|lia].
    replace ((97 <=? byte c - 32)%N) with false
      by (symmetry; apply N.leb_gt; lia).
    cbn [andb]. rewrite IH by exact Hr. reflexivity.
  - rewrite foldName_ascii by exact Hc. rewrite Hl, IH by exact Hr. reflexivity.
Qed.

(** X9. A key of the payload names the field whose tag it equals once
    both are folded: ASCII letters without regard to case, the long s and
    the Kelvin sign as [s] and [k].  No two tags of the event fold to the
    same name, so a key names at most one field, every tag names its own
    field, and so does the tag in capitals. *)
Theorem keys_name_fields_up_to_case :
  forall k f,
    (json.findField k = Some f <-> json.foldName k = json.foldName (tagName f))
    /\ json.findField (tagName f) = Some f
    /\ json.findField (toUpper (tagName f)) = Some f.
Proof.
  intros k f. split; [apply findField_fold|].
  split; [apply findField_fold; reflexivity|].
  apply findField_fold. apply foldName_toUpper. destruct f; reflexivity.
Qed.

(** ** What [Process] leaves in the event *)

(** X10. [Process] always returns, whatever the bytes of the payload.  The
    event keeps the subject and the raw payload it was made with, every
    string the payload put in it is well-formed UTF-8 (ill-formed bytes of
    the payload have become U+FFFD), and there is a publication, the raw
    payload on [<subject>.error], exactly when there is an error. *)
Theorem Process_keeps_subject_and_stores_valid_strings :
  forall subj data h,
    exists n err,
      subject n = subj /\ body n = data /\ wellFormedEvent n
      /\ Process (New subj data) h
         = (Returned (n, err),
            match err with
            | Some _ => h ++ [Publish (subj ++ ".error") data]
            | None => h
            end).
Proof.
  intros subj data h. unfold Process.
  change (body (New subj data)) with data.
  destruct (json.Unmarshal data (New subj data)) as [n err] eqn:Hd.
  exists n, err.
  pose proof (Unmarshal_wellFormed _ _ _ Hd) as Hwf.
  apply Unmarshal_meta in Hd as [Hs Hb]. cbn in Hs, Hb.
  repeat split; try assumption.
  destruct err; [rewrite Hs, Hb|]; reflexivity.
Qed.

(** ** UTF-8 *)

(** X12. Decoding what [utf8.EncodeRune] wrote gives back the rune and the
    number of bytes written, one to four, whatever follows them; a
    surrogate or a value above [MaxRune], which is written as U+FFFD, is
    read as U+FFFD. *)
Theorem DecodeRune_reads_what_EncodeRune_wrote :
  forall r rest,
    utf8.DecodeRune (utf8.EncodeRune r ++ rest)
    = (scalar r, String.length (utf8.EncodeRune r))
    /\ 1 <= String.length (utf8.EncodeRune r) <= 4
    /\ ((r <= utf8.MaxRune)%N -> ~ (55296 <= r <= 57343)%N -> scalar r = r).
Proof.
  intros r rest. split; [|split].
  - destruct (N.leb_spec r 127) as [Hr|Hr].
    + unfold utf8.EncodeRune, scalar, utf8.MaxRune.
      replace (r <=? 127)%N with true by (symmetry; apply N.leb_le; exact Hr).
      replace (1114111 <? r)%N with false by (symmetry; apply N.ltb_ge; lia).
      replace (55296 <=? r)%N with false by (symmetry; apply N.leb_gt; lia).
      cbn [orb andb str1 append String.length utf8.DecodeRune].
      rewrite byte_chr by lia.
      replace (r <? utf8.RuneSelf)%N with true
        by (symmetry; apply N.ltb_lt; unfold utf8.RuneSelf; lia).
      reflexivity.
    + apply DecodeRune_EncodeRune. lia.
  - unfold utf8.EncodeRune, utf8.enc3.
    repeat match goal with
           | |- context [if ?b then _ else _] => destruct b
           end; cbn; lia.
  - intros Hmax Hsur. unfold scalar.
    replace (utf8.MaxRune <? r)%N with false by (symmetry; apply N.ltb_ge; exact Hmax).
    cbn [orb].
    destruct (N.leb_spec 55296 r); destruct (N.leb_spec r 57343); cbn [andb];
      try reflexivity.
    exfalso. apply Hsur. lia.
Qed.

(** ** From the answer to a create to a delete request *)

Lemma coerce_nonempty (s : string) : s <> EmptyString -> coerce s <> EmptyString.
Proof.
  destruct s as [|c r]; [contradiction|]. intros _.
  unfold coerce. cbn [String.length coerceRunes].
  unfold coerceRune.
  destruct (byte c <? utf8.RuneSelf)%N; [discriminate|].
  destruct (utf8.DecodeRune (String c r)) as [x size].
  destruct (EncodeRune_shape x) as (a & e & -> & _). discriminate.
Qed.

(** X13. What a successful create publishes on [.done] is a delete request
    for the subnet it created: sent on [network.delete.aws], the payload
    decodes without error and validates, with the region and the
    credentials of the create request and the subnet identifier the
    provider returned. *)
Theorem done_payload_of_create_is_a_delete_request :
  forall data n sn,
    json.Unmarshal data (New "network.create.aws" data) = (n, None) ->
    Validate n = None ->
    ec2.SubnetId sn <> EmptyString ->
    wellFormed (ec2.SubnetId sn) ->
    let payload := serialized (stored n sn) in
    exists n',
      json.Unmarshal payload (New "network.delete.aws" payload) = (n', None)
      /\ Validate n' = None
      /\ newService n' = newService n
      /\ NetworkAWSID n' = ec2.SubnetId sn.
Proof.
  intros data n sn Hd Hv Hne Hwf payload.
  exists (coerced (stored n sn) "network.delete.aws" payload).
  split; [apply Unmarshal_serialized|].
  pose proof (Unmarshal_wellFormed _ _ _ Hd) as Hn.
  pose proof (Hn fVPCID _ eq_refl) as Hvpc.
  pose proof (Hn fDatacenterRegion _ eq_refl) as Hreg.
  pose proof (Hn fDatacenterAccessKey _ eq_refl) as Hkey.
  pose proof (Hn fDatacenterAccessToken _ eq_refl) as Htok.
  unfold wellFormed in *.
  destruct n as [u b p r k t v i nm s pub az em sj bd].
  cbn in Hvpc, Hreg, Hkey, Htok.
  unfold coerced, stored, newService, Validate in *. cbn in *.
  unfold coerce, isEmpty in *.
  rewrite Hvpc, Hreg, Hkey, Htok, Hwf.
  split; [|split; reflexivity].
  destruct (String.eqb v EmptyString); [discriminate|].
  destruct (String.eqb r EmptyString); [discriminate|].
  destruct (String.eqb k EmptyString || String.eqb t EmptyString); [discriminate|].
  apply isEmpty_false in Hne. unfold isEmpty in Hne. rewrite Hne. reflexivity.
Qed.

Lemma done_payload_of_create_is_a_delete_request_witness :
  let payload :=
      serialized (stored (decoded "network.create.aws")
                         (ec2.mkSubnet "subnet-1" "eu-west-1a")) in
  exists n',
    json.Unmarshal payload (New "network.delete.aws" payload) = (n', None)
    /\ Validate n' = None
    /\ newService n' = newService (decoded "network.create.aws")
    /\ NetworkAWSID n' = "subnet-1".
Proof.
  apply (@done_payload_of_create_is_a_delete_request expected
           (decoded "network.create.aws") (ec2.mkSubnet "subnet-1" "eu-west-1a")
           (decode_expected "network.create.aws") eq_refl).
  - discriminate.
  - vm_compute. reflexivity.
Defined.

(** ** The bytes of a published event *)

Lemma allBytes_app (p : ascii -> bool) (a b : string) :
  allBytes p (a ++ b) = allBytes p a && allBytes p b.
Proof.
  induction a as [|c a IH]; [reflexivity|].
  cbn [append allBytes]. rewrite IH, andb_assoc. reflexivity.
Qed.

Lemma high_plain (c : ascii) : high c = true -> plain c = true.
Proof.
  destruct c as [[] [] [] [] [] [] [] []]; vm_compute; intros H;
    first [discriminate H | reflexivity].
Qed.

Lemma allBytes_high_plain (s : string) :
  allBytes high s = true -> allBytes plain s = true.
Proof.
  induction s as [|c s IH]; [reflexivity|]. cbn [allBytes].
  intros H. apply andb_prop in H as [Hc Hs].
  rewrite (high_plain c Hc), (IH Hs). reflexivity.
Qed.

Lemma hex_plain (n : N) : plain (json.hex n) = true.
Proof.
  unfold json.hex. generalize (N.to_nat n). intros k.
  do 17 (destruct k as [|k]; [reflexivity|]). reflexivity.
Qed.

Lemma ascii_written_plain (c : ascii) :
  allBytes plain (if json.htmlSafe c then str1 c else json.escapeByte c) = true.
Proof.
  destruct c as [[] [] [] [] [] [] [] []]; vm_compute; reflexivity.
Qed.

Ltac to_arith :=
  repeat match goal with
         | H : (_ || _) = false |- _ => apply orb_false_elim in H as [? ?]
         | H : (_ && _) = true |- _ => apply andb_prop in H as [? ?]
         | H : negb _ = false |- _ => apply negb_false_iff in H
         | H : (_ <? _)%N = false |- _ => apply N.ltb_ge in H
         | H : (_ <? _)%N = true |- _ => apply N.ltb_lt in H
         | H : (_ <=? _)%N = true |- _ => apply N.leb_le in H
         | H : (_ <=? _)%N = false |- _ => apply N.leb_gt in H
         | H : (_ =? _)%N = true |- _ => apply N.eqb_eq in H
         | H : (_ =? _)%N = false |- _ => apply N.eqb_neq in H
         end.

(** The bytes [utf8.DecodeRune] takes after a lead byte are all above
    127. *)
Lemma DecodeRune_high (c : ascii) (rest : string) :
  (byte c <? utf8.RuneSelf)%N = false ->
  allBytes high (take (snd (utf8.DecodeRune (String c rest))) (String c rest)) = true.
Proof.
  intros Hc. unfold utf8.DecodeRune. rewrite Hc.
  unfold utf8.RuneSelf in Hc.
  destruct rest as [|c1 [|c2 [|c3 rest]]]; split_ifs;
    cbn [snd take allBytes]; unfold high, utf8.cont in *; to_arith;
    repeat match goal with
           | |- context [(128 <=? ?x)%N] =>
             replace (128 <=? x)%N with true by (symmetry; apply N.leb_le; lia)
           end;
    reflexivity.
Qed.

Lemma appendRune_plain (c : ascii) (rest : string) :
  allBytes plain (fst (json.appendRune c rest)) = true.
Proof.
  unfold json.appendRune.
  destruct (byte c <? utf8.RuneSelf)%N eqn:Hc; [apply ascii_written_plain|].
  pose proof (DecodeRune_high c rest Hc) as Hh.
  destruct (utf8.DecodeRune (String c rest)) as [r size]. cbn [snd] in Hh.
  destruct ((r =? utf8.RuneError)%N && Nat.eqb size 1); [reflexivity|].
  destruct ((r =? 8232)%N || (r =? 8233)%N); cbn [fst].
  - cbn [allBytes append str1]. rewrite hex_plain. reflexivity.
  - apply allBytes_high_plain, Hh.
Qed.

Lemma appendRunes_plain (n : nat) :
  forall s, allBytes plain (json.appendRunes n s) = true.
Proof.
  induction n as [|n IH]; intros [|c rest]; try reflexivity.
  cbn [json.appendRunes].
  pose proof (appendRune_plain c rest) as Hr.
  destruct (json.appendRune c rest) as [out size]. cbn [fst] in Hr.
  rewrite allBytes_app, Hr, IH. reflexivity.
Qed.

Lemma appendString_plain (s : string) : allBytes plain (json.appendString s) = true.
Proof.
  unfold json.appendString. cbn [allBytes].
  rewrite allBytes_app, appendRunes_plain. reflexivity.
Qed.

Lemma rendered_plain (ev : Event) (f : FieldId) :
  allBytes plain (rendered ev f) = true.
Proof.
  unfold rendered, member. rewrite !allBytes_app, appendString_plain.
  destruct ev, f; cbn [fieldValue valueText json.encodeValue];
    try (rewrite appendString_plain; reflexivity).
  match goal with |- context [if ?b then _ else _] => destruct b end; reflexivity.
Qed.

Lemma join_plain (l : list string) :
  Forall (fun x => allBytes plain x = true) l -> allBytes plain (join l) = true.
Proof.
  induction 1 as [|x l Hx Hl IH]; [reflexivity|].
  destruct l as [|y l]; [exact Hx|].
  change (join (x :: y :: l)) with (x ++ "," ++ join (y :: l))%string.
  rewrite !allBytes_app, Hx, IH. reflexivity.
Qed.

(** X14. Whatever the strings of the event hold, the payload [Error] and
    [Complete] publish for it has no byte below 32, so no line break, no
    tab and no other C0 control character (it is one line), and none of
    [<], [>] and [&]: these are written as escapes.  The byte 127 is not
    escaped: it is written as it is. *)
Theorem published_event_is_one_html_safe_line :
  forall ev,
    allBytes plain (serialized ev) = true
    /\ json.appendString (str1 (chr 127)) = String quote (String (chr 127) (str1 quote))
    /\ forall c, plain c = true ->
                 (32 <= byte c)%N /\ c <> "<"%char /\ c <> ">"%char /\ c <> "&"%char.
Proof.
  intros ev. split; [|split].
  - rewrite serialized_layout. cbn [allBytes].
    rewrite allBytes_app, join_plain; [reflexivity|].
    apply Forall_forall. intros x Hx. apply in_map_iff in Hx as (f & <- & _).
    apply rendered_plain.
  - vm_compute. reflexivity.
  - intros c Hc. unfold plain in Hc.
    repeat match type of Hc with
           | (_ && _) = true => apply andb_prop in Hc as [Hc ?]
           end.
    split; [apply N.leb_le; exact Hc|].
    repeat split; intros ->;
      match goal with
      | H : negb (Ascii.eqb ?x ?x) = true |- _ =>
        rewrite Ascii.eqb_refl in H; discriminate H
      end.
Qed.

(** ** The log *)

Lemma logs_app (h1 h2 : History) : logs (h1 ++ h2) = logs h1 ++ logs h2.
Proof. apply flat_map_app. Qed.

Lemma logs_silent (t : History) : forallb silent t = true -> logs t = [].
Proof.
  induction t as [|e t IH]; [reflexivity|].
  cbn [forallb]. intros H. apply andb_prop in H as [He Ht].
  destruct e; try discriminate; cbn; auto.
Qed.

(** X15. Whatever the message, the handler publishes at most once, and the
    log tells the three publications apart: a done publication and the raw
    payload of a request that did not decode leave no line in the log; an
    error publication of the event carries the message of the one line
    logged, [Error: <message>].  When nothing is published nothing is
    logged either. *)
Theorem every_reported_error_is_logged_once :
  forall cloud fuel m,
    let h := snd (eventHandler cloud fuel m []) in
    match publications h with
    | [] => logs h = []
    | [(subj, data)] =>
      (subj = (nats.Subject m ++ ".done")%string /\ logs h = [])
      \/ (subj = (nats.Subject m ++ ".error")%string /\ data = nats.Data m
          /\ logs h = []
          /\ snd (json.Unmarshal (nats.Data m) (New (nats.Subject m) (nats.Data m)))
             <> None)
      \/ (subj = (nats.Subject m ++ ".error")%string
          /\ exists n e,
               data = serialized (failed n e) /\ logs h = ["Error: " ++ e]%string)
    | _ :: _ :: _ => False
    end.
Proof.
  intros cloud fuel m.
  destruct (json.Unmarshal (nats.Data m) (New (nats.Subject m) (nats.Data m)))
    as [n [e|]] eqn:Hd.
  { rewrite (eventHandler_undecoded cloud fuel m [] Hd). cbn.
    right; left. repeat split; discriminate. }
  destruct (actionOf (nats.Subject m)) as [action|] eqn:Ha.
  - destruct (eventHandler_outcome cloud fuel m Hd Ha) as (t & Hs & Hrun).
    pose proof (publications_silent t Hs) as Hp.
    pose proof (logs_silent t Hs) as Hl.
    destruct Hrun as [(Hr & _)|[(n' & Hr & _)|(e & Hr & _)]]; rewrite Hr;
      cbn [snd]; rewrite ?publications_app, ?logs_app, ?Hp, ?Hl; cbn.
    + reflexivity.
    + left. auto.
    + right; right. split; [reflexivity|]. exists n, e. auto.
  - destruct (Validate n) as [e|] eqn:Hv.
    + rewrite (eventHandler_invalid cloud fuel m [] Hd Hv). cbn.
      right; right. split; [reflexivity|]. exists n, e. auto.
    + rewrite (eventHandler_no_action cloud fuel m [] Hd Hv Ha). reflexivity.
Qed.

(** ** Delete on a subject of its own *)

(** X16. The subnet identifier is only validated on the subject
    [network.delete.aws] itself.  On any other subject whose action
    segment is delete, validation checks the range instead, and the delete
    runs with the identifier the payload gave, the empty one included: the
    first thing the handler does is the interface query filtered by it. *)
Theorem delete_on_another_subject_validates_the_range :
  forall cloud fuel m n,
    json.Unmarshal (nats.Data m) (New (nats.Subject m) (nats.Data m)) = (n, None) ->
    Validate n = None ->
    actionOf (nats.Subject m) = Some "delete" ->
    nats.Subject m <> "network.delete.aws" ->
    Subnet n <> EmptyString
    /\ exists resp t,
         snd (eventHandler cloud (S fuel) m [])
         = Call (newService n) (query (NetworkAWSID n)) resp :: t.
Proof.
  intros cloud fuel m n Hd Hv Ha Hsub.
  assert (Hs : subject n = nats.Subject m)
    by (apply Unmarshal_meta in Hd as [Hs _]; exact Hs).
  split.
  - unfold Validate in Hv. rewrite Hs in Hv.
    apply String.eqb_neq in Hsub. rewrite Hsub in Hv.
    destruct (isEmpty (VPCID n)); [discriminate|].
    destruct (isEmpty (DatacenterRegion n)); [discriminate|].
    destruct (isEmpty (DatacenterAccessKey n) || isEmpty (DatacenterAccessToken n));
      [discriminate|].
    destruct (isEmpty (Subnet n)) eqn:He; [discriminate|].
    apply isEmpty_false, He.
  - rewrite (eventHandler_dispatch cloud (S fuel) m [] Hd Hv Ha).
    unfold dispatch. cbn [String.eqb Ascii.eqb Bool.eqb]. unfold bind.
    destruct (Delete_run cloud (S fuel) n []) as (found & Hne & Hlen & Hrun).
    cbn zeta in Hrun. cbn [app] in Hrun.
    destruct found as [|nis found].
    + destruct Hrun as [[Hl _]|[[e Hr]|[[u|e] Hr]]]; [discriminate Hl| | |];
        rewrite Hr; cbn [rounds flat_map app ret respond errorOf snd];
        eexists; eexists; reflexivity.
    + cbn [rounds flat_map round app] in Hrun.
      destruct Hrun as [[_ Hr]|[[e Hr]|[[u|e] Hr]]];
        rewrite Hr; cbn [ret respond errorOf snd app];
        eexists; eexists; reflexivity.
Qed.

Lemma delete_on_another_subject_validates_the_range_witness :
  NetworkAWSID strayEvent = EmptyString
  /\ Subnet strayEvent <> EmptyString
  /\ exists resp t,
       snd (eventHandler quietCloud 1 (nats.mkMsg "subnet.delete.aws" strayPayload) [])
       = Call (newService strayEvent) (query EmptyString) resp :: t.
Proof.
  split; [reflexivity|].
  assert (Hd : json.Unmarshal strayPayload (New "subnet.delete.aws" strayPayload)
               = (strayEvent, None)) by (vm_compute; reflexivity).
  apply (@delete_on_another_subject_validates_the_range quietCloud 0
           (nats.mkMsg "subnet.delete.aws" strayPayload) strayEvent Hd eq_refl eq_refl).
  discriminate.
Defined.

(** ** Validation of what was serialized *)

Lemma isEmpty_coerce (s : string) : isEmpty (coerce s) = isEmpty s.
Proof.
  destruct s as [|c r]; [reflexivity|].
  pose proof (@coerce_nonempty (String c r) ltac:(discriminate)) as H.
  apply isEmpty_false in H. rewrite H. reflexivity.
Qed.

(** X17. The way the tests build a request: an event is serialized, and
    the payload is processed under a subject.  Whatever the event, the
    payload decodes without error, and validating the decoded event gives
    what validating the event itself under that subject gives: nothing is
    lost or invented between [json.Marshal] and [Validate]. *)
Theorem validation_survives_serialization :
  forall ev subj,
    exists n,
      json.Unmarshal (serialized ev) (New subj (serialized ev)) = (n, None)
      /\ Validate n = Validate (addressed subj ev)
      /\ IsPublic n = IsPublic ev.
Proof.
  intros ev subj. exists (coerced ev subj (serialized ev)).
  split; [apply Unmarshal_serialized|].
  split; [|reflexivity].
  unfold Validate, coerced, addressed.
  cbn [VPCID DatacenterRegion DatacenterAccessKey DatacenterAccessToken
       NetworkAWSID Subnet subject].
  rewrite !isEmpty_coerce. reflexivity.
Qed.

(** ** Find or create *)

(** X18. [createInternetGateway] and [createRouteTable] find or create.
    Each starts with its lookup; when the lookup finds something, the
    first one found is returned and nothing is created; when it finds
    nothing, one resource is created and then attached to the VPC, or
    associated with the subnet, and returned.  When a call fails it is the
    last call and its error is returned: a gateway or a table that was
    created but could not be attached or associated is not returned. *)
Theorem gateway_and_route_table_are_found_or_created :
  forall cloud svc vpc subnet h,
    (exists t r,
        createInternetGateway cloud svc vpc h = (Returned r, h ++ t)
        /\ match r with
           | inl gw =>
             exists gws,
               reused gws gw
               /\ t = Call svc (gatewayLookup vpc)
                           (inl (ec2.InternetGatewaysOutput gws))
                      :: gatewaySteps svc vpc gws gw
           | inr e => endsInFailure t e /\ length t <= 3
           end)
    /\ (exists t r,
           createRouteTable cloud svc vpc subnet h = (Returned r, h ++ t)
           /\ match r with
              | inl rt =>
                exists rts,
                  reused rts rt
                  /\ t = Call svc (routeTableLookup subnet)
                              (inl (ec2.RouteTablesOutput rts))
                         :: routeTableSteps svc vpc subnet rts rt
              | inr e => endsInFailure t e /\ length t <= 3
              end).
Proof.
  intros cloud svc vpc subnet h. split; exec.
  - repeat branch; rewrite <- ?app_assoc; cbn [app];
      eexists; eexists; (split; [reflexivity|]); cbn beta iota;
      try (split; [unfold endsInFailure; last_call | cbn; lia]).
    + exists []. split; reflexivity.
    + eexists (_ :: _). split; reflexivity.
  - repeat branch; rewrite <- ?app_assoc; cbn [app];
      eexists; eexists; (split; [reflexivity|]); cbn beta iota;
      try (split; [unfold endsInFailure; last_call | cbn; lia]).
    + exists []. split; reflexivity.
    + eexists (_ :: _). split; reflexivity.
Qed.
